(** * Opendatasoft MCP server: query assembly and report formatting

    A shallow embedding of [src/ods_api.py] and of the tool functions of
    [src/tools/catalog_tools.py], [src/tools/query_tools.py] and
    [src/tools/analysis_tools.py], followed by the properties proved about
    them.

    Conventions of the embedding:
    - a Python [str] is a [string]; one [ascii] stands for one character;
    - a decoded JSON document is a [json] value; a [dict] is an association
      list in insertion order;
    - a Python [float] is an exact rational of [Q]: arithmetic is exact, and
      the text [repr] prints for a float is the parameter [float_repr];
    - an operation that can raise returns a [res]; a tool that talks to the
      remote catalogue is a computation of [M], which threads the list of
      requests issued so far. *)

From Stdlib Require Import ZArith QArith Qround Qabs Lqa Lia.
From Stdlib Require Import Bool List Ascii String DecimalString.
From Stdlib Require Import Permutation Sorted.
Import ListNotations.

Set Warnings "-register-all".

Open Scope string_scope.
Open Scope list_scope.

(** String concatenation; [++] is kept for lists. *)
Infix "+:+" := String.append (right associativity, at level 60).

(** ** Fragments of the Python runtime *)

Module Py.

(** What [json.loads] builds. *)
Inductive json : Type :=
| JNull
| JBool (b : bool)
| JInt (n : Z)
| JFloat (q : Q)
| JStr (s : string)
| JList (l : list json)
| JDict (d : list (string * json)).

(** The exceptions the modelled code can meet; all derive from [Exception].
    [HTTPError] stands for whatever the HTTP client raises. *)
Inductive exn_kind : Type :=
| HTTPError | AttributeError | TypeError | KeyError | IndexError
| UnboundLocalError.

(** An exception with the text [str(e)] gives. *)
Record exn : Type := Exn { exn_kind_of : exn_kind; exn_str : string }.

Inductive res (A : Type) : Type :=
| Ok (a : A)
| Raise (e : exn).

Arguments Ok {A} a.
Arguments Raise {A} e.

Definition bind {A B : Type} (c : res A) (k : A -> res B) : res B :=
  match c with
  | Ok a => k a
  | Raise e => Raise e
  end.

Notation "x <- c ;; k" := (bind c (fun x => k))
  (at level 61, c at next level, right associativity).

(** The printer of [float.__repr__], a primitive of the interpreter. *)
Class FloatRepr : Type := float_repr : Q -> string.

(** Single characters used in literals. *)
Definition dquote_char : ascii := ascii_of_nat 34.
Definition backslash_char : ascii := ascii_of_nat 92.
Definition dquote : string := String dquote_char "".
Definition nl : string := String (ascii_of_nat 10) "".

(** [sep.join(parts)] *)
Definition join (sep : string) (parts : list string) : string :=
  String.concat sep parts.

(** [str(n)] for an [int]. *)
Definition int_str (n : Z) : string := NilZero.string_of_int (Z.to_int n).

(** [d.get(k)] on the association list behind a [dict]. *)
Fixpoint lookup {A : Type} (k : string) (d : list (string * A)) : option A :=
  match d with
  | [] => None
  | (k', v) :: d' => if (k' =? k)%string then Some v else lookup k d'
  end.

(** [d[k] = v]: an existing key keeps its position, a new one goes last. *)
Fixpoint dict_set {A : Type} (k : string) (v : A) (d : list (string * A))
  : list (string * A) :=
  match d with
  | [] => [(k, v)]
  | (k', v') :: d' =>
      if (k' =? k)%string then (k, v) :: d' else (k', v') :: dict_set k v d'
  end.

(** An optional [str] argument that passes [if arg:]: neither [None]
    nor the empty string. *)
Definition given (o : option string) : option string :=
  match o with
  | Some s => if (s =? "")%string then None else Some s
  | None => None
  end.

(** [if arg: clauses.append(f(arg))], as the list of what is appended. *)
Definition append_if (o : option string) (f : string -> string)
  : list string :=
  match given o with
  | Some s => [f s]
  | None => []
  end.

(** *** Types, truth values and numbers *)

(** [type(v).__name__] *)
Definition type_name (v : json) : string :=
  match v with
  | JNull => "NoneType"
  | JBool _ => "bool"
  | JInt _ => "int"
  | JFloat _ => "float"
  | JStr _ => "str"
  | JList _ => "list"
  | JDict _ => "dict"
  end.

(** [bool(v)] *)
Definition truthy (v : json) : bool :=
  match v with
  | JNull => false
  | JBool b => b
  | JInt n => negb (n =? 0)%Z
  | JFloat q => negb (Qeq_bool q 0)
  | JStr s => negb (s =? "")%string
  | JList l => match l with [] => false | _ :: _ => true end
  | JDict d => match d with [] => false | _ :: _ => true end
  end.

(** [isinstance(v, (int, float))]; [bool] is a subclass of [int]. *)
Definition is_number (v : json) : bool :=
  match v with
  | JBool _ | JInt _ | JFloat _ => true
  | _ => false
  end.

(** The value of a number ([True] is 1, [False] is 0). *)
Definition num (v : json) : Q :=
  match v with
  | JBool b => if b then 1 else 0
  | JInt n => inject_Z n
  | JFloat q => q
  | _ => 0
  end.

(** [isinstance(v, dict) or isinstance(v, list)] *)
Definition is_container (v : json) : bool :=
  match v with
  | JList _ | JDict _ => true
  | _ => false
  end.

(** [x < y] on rationals, as a boolean. *)
Definition Qlt_bool (x y : Q) : bool := negb (Qle_bool y x).

(** *** Exceptions raised by the interpreter (CPython 3.11 wording) *)

Definition no_attribute {A : Type} (v : json) (attr : string) : res A :=
  Raise (Exn AttributeError
           ("'" +:+ type_name v +:+ "' object has no attribute '"
            +:+ attr +:+ "'")).

Definition not_subscriptable {A : Type} (v : json) : res A :=
  Raise (Exn TypeError
           ("'" +:+ type_name v +:+ "' object is not subscriptable")).

Definition not_iterable {A : Type} (v : json) : res A :=
  Raise (Exn TypeError ("'" +:+ type_name v +:+ "' object is not iterable")).

(** *** Printing *)

(** Apply [f] to each character and concatenate. *)
Fixpoint concat_map (f : ascii -> string) (s : string) : string :=
  match s with
  | EmptyString => ""
  | String c s' => f c +:+ concat_map f s'
  end.

Definition hex_digit (n : nat) : ascii :=
  nth n (list_ascii_of_string "0123456789abcdef") "0"%char.

Definition hex2 (n : nat) : string :=
  String (hex_digit (n / 16)) (String (hex_digit (n mod 16)) "").

Definition backslash : string := String backslash_char "".

(** One character inside [repr(s)], [quote] being the delimiter chosen. *)
Definition repr_char (quote c : ascii) : string :=
  let n := nat_of_ascii c in
  if (c =? quote)%char || (c =? backslash_char)%char
  then backslash +:+ String c ""
  else if (n =? 9)%nat then backslash +:+ "t"
  else if (n =? 10)%nat then backslash +:+ "n"
  else if (n =? 13)%nat then backslash +:+ "r"
  else if (n <? 32)%nat || (n =? 127)%nat then backslash +:+ "x" +:+ hex2 n
  else if (n <? 127)%nat then String c ""
  else if ((128 <=? n)%nat && (n <=? 160)%nat) || (n =? 173)%nat
  then backslash +:+ "x" +:+ hex2 n
  else String c "".

(** [repr(s)] for a [str]: single quotes, unless the string has a single
    quote and no double quote. *)
Definition str_repr (s : string) : string :=
  let cs := list_ascii_of_string s in
  let quote :=
    if existsb (Ascii.eqb "'"%char) cs
       && negb (existsb (Ascii.eqb dquote_char) cs)
    then dquote_char else "'"%char in
  String quote (concat_map (repr_char quote) s +:+ String quote "").

(** One character inside [json.dumps(s, ensure_ascii=False)]. *)
Definition json_char (c : ascii) : string :=
  let n := nat_of_ascii c in
  if (c =? dquote_char)%char || (c =? backslash_char)%char
  then backslash +:+ String c ""
  else if (n =? 8)%nat then backslash +:+ "b"
  else if (n =? 9)%nat then backslash +:+ "t"
  else if (n =? 10)%nat then backslash +:+ "n"
  else if (n =? 12)%nat then backslash +:+ "f"
  else if (n =? 13)%nat then backslash +:+ "r"
  else if (n <? 32)%nat then backslash +:+ "u00" +:+ hex2 n
  else String c "".

Definition json_quote (s : string) : string :=
  dquote +:+ concat_map json_char s +:+ dquote.

(** Rounding to the nearest integer, ties to even. *)
Definition round_half_even (x : Q) : Z :=
  let f := Qfloor x in
  match Qcompare (x - inject_Z f) (1 # 2) with
  | Lt => f
  | Gt => (f + 1)%Z
  | Eq => if Z.even f then f else (f + 1)%Z
  end.

(** [f"{x:.2f}"] *)
Definition fmt_2f (x : Q) : string :=
  let n := round_half_even (Qabs x * 100) in
  (if Qlt_bool x 0 then "-" else "")
  +:+ int_str (n / 100) +:+ "."
  +:+ int_str (n mod 100 / 10) +:+ int_str (n mod 10).

Section Printing.
Context {fr : FloatRepr}.

(** [repr(v)] *)
Fixpoint py_repr (v : json) : string :=
  match v with
  | JNull => "None"
  | JBool b => if b then "True" else "False"
  | JInt n => int_str n
  | JFloat q => float_repr q
  | JStr s => str_repr s
  | JList l => "[" +:+ join ", " (map py_repr l) +:+ "]"
  | JDict d =>
      "{" +:+ join ", "
                (map (fun kv => let '(k, x) := kv in
                                str_repr k +:+ ": " +:+ py_repr x) d)
      +:+ "}"
  end.

(** [str(v)], which is also what [f"{v}"] prints. *)
Definition py_str (v : json) : string :=
  match v with
  | JStr s => s
  | _ => py_repr v
  end.

(** [json.dumps(v, ensure_ascii=False)] *)
Fixpoint json_dumps (v : json) : string :=
  match v with
  | JNull => "null"
  | JBool b => if b then "true" else "false"
  | JInt n => int_str n
  | JFloat q => float_repr q
  | JStr s => json_quote s
  | JList l => "[" +:+ join ", " (map json_dumps l) +:+ "]"
  | JDict d =>
      "{" +:+ join ", "
                (map (fun kv => let '(k, x) := kv in
                                json_quote k +:+ ": " +:+ json_dumps x) d)
      +:+ "}"
  end.

(** The display form used by the record formatters: containers go through
    [json.dumps], everything is then printed with [str]. *)
Definition display (v : json) : string :=
  if is_container v then json_dumps v else py_str v.

End Printing.

(** *** Strings *)

(** [s.replace(old, new)] for a non-empty [old]: occurrences are replaced
    from left to right, without overlap.  [skip] counts the characters of
    an occurrence just replaced that are still to be passed over. *)
Fixpoint replace_from (old new : string) (skip : nat) (s : string) : string :=
  match s with
  | EmptyString => ""
  | String c s' =>
      match skip with
      | S k => replace_from old new k s'
      | O =>
          if String.prefix old s
          then new +:+ replace_from old new (String.length old - 1) s'
          else String c (replace_from old new 0 s')
      end
  end.

Definition str_replace (old new s : string) : string :=
  replace_from old new 0 s.

(** [v.replace(old, new)] on a document value. *)
Definition py_replace (v : json) (old new : string) : res string :=
  match v with
  | JStr s => Ok (str_replace old new s)
  | _ => no_attribute v "replace"
  end.

(** [s[:n]] *)
Definition str_take (n : nat) (s : string) : string := String.substring 0 n s.

(** *** Comparison and sorting *)

(** [a == b] *)
Fixpoint py_eq (a b : json) {struct a} : bool :=
  match a, b with
  | JNull, JNull => true
  | JStr s, JStr t => (s =? t)%string
  | JList l, JList m =>
      (fix all2 (l m : list json) {struct l} : bool :=
         match l, m with
         | [], [] => true
         | x :: l', y :: m' => py_eq x y && all2 l' m'
         | _, _ => false
         end) l m
  | JDict d, JDict e =>
      (List.length d =? List.length e)%nat
      && (fix all1 (d : list (string * json)) {struct d} : bool :=
            match d with
            | [] => true
            | (k, x) :: d' =>
                match lookup k e with
                | Some y => py_eq x y
                | None => false
                end && all1 d'
            end) d
  | _, _ =>
      if is_number a && is_number b then Qeq_bool (num a) (num b) else false
  end.

Definition unorderable {A : Type} (a b : json) : res A :=
  Raise (Exn TypeError
           ("'<' not supported between instances of '" +:+ type_name a
            +:+ "' and '" +:+ type_name b +:+ "'")).

(** [a < b]: numbers by value, strings and lists lexicographically, anything
    else raises [TypeError]. *)
Fixpoint py_lt (a b : json) {struct a} : res bool :=
  match a, b with
  | JStr s, JStr t => Ok (String.ltb s t)
  | JList l, JList m =>
      (fix lex (l m : list json) {struct l} : res bool :=
         match l, m with
         | [], [] => Ok false
         | [], _ :: _ => Ok true
         | _ :: _, [] => Ok false
         | x :: l', y :: m' => if py_eq x y then lex l' m' else py_lt x y
         end) l m
  | _, _ =>
      if is_number a && is_number b then Ok (Qlt_bool (num a) (num b))
      else unorderable a b
  end.

(** Insert [x], whose sort key is [kx], into a list sorted by descending key,
    after the elements whose key is not smaller. *)
Fixpoint insert_desc {A : Type} (x : json * A) (l : list (json * A))
  : res (list (json * A)) :=
  match l with
  | [] => Ok [x]
  | y :: l' =>
      b <- py_lt (fst y) (fst x) ;;
      if b then Ok (x :: y :: l')
      else (r <- insert_desc x l' ;; Ok (y :: r))
  end.

(** [sorted(l, key=..., reverse=True)] on a list already paired with its
    keys: a stable sort by descending key.  Comparisons are made in the
    order of a straight insertion, which agrees with CPython whenever the
    keys are mutually comparable. *)
Fixpoint sort_desc_keyed {A : Type} (acc l : list (json * A))
  : res (list (json * A)) :=
  match l with
  | [] => Ok acc
  | x :: l' => acc' <- insert_desc x acc ;; sort_desc_keyed acc' l'
  end.

(** *** Operations on decoded documents *)

(** [o.get(k, dflt)] *)
Definition py_get (o : json) (k : string) (dflt : json) : res json :=
  match o with
  | JDict d => Ok (match lookup k d with Some v => v | None => dflt end)
  | _ => no_attribute o "get"
  end.

(** Does [sub] occur in [s]? ([sub in s] on two strings.) *)
Definition occurs (sub s : string) : bool :=
  match String.index 0 sub s with
  | Some _ => true
  | None => false
  end.

(** [k in o] for a string [k] *)
Definition py_contains (k : string) (o : json) : res bool :=
  match o with
  | JDict d => Ok (match lookup k d with Some _ => true | None => false end)
  | JList l =>
      Ok (existsb (fun x => match x with
                            | JStr s => (s =? k)%string
                            | _ => false
                            end) l)
  | JStr s => Ok (occurs k s)
  | _ =>
      Raise (Exn TypeError
               ("argument of type '" +:+ type_name o +:+ "' is not iterable"))
  end.

(** [o[k]] for a string [k] *)
Definition py_subscript (o : json) (k : string) : res json :=
  match o with
  | JDict d =>
      match lookup k d with
      | Some v => Ok v
      | None => Raise (Exn KeyError (str_repr k))
      end
  | JList _ =>
      Raise (Exn TypeError "list indices must be integers or slices, not str")
  | JStr _ =>
      Raise (Exn TypeError "string indices must be integers, not 'str'")
  | _ => not_subscriptable o
  end.

(** [o[0]]; the keys of a decoded object are strings, so [0] is never one. *)
Definition py_index0 (o : json) : res json :=
  match o with
  | JList (x :: _) => Ok x
  | JList [] => Raise (Exn IndexError "list index out of range")
  | JStr (String c _) => Ok (JStr (String c ""))
  | JStr EmptyString => Raise (Exn IndexError "string index out of range")
  | JDict _ => Raise (Exn KeyError "0")
  | _ => not_subscriptable o
  end.

(** The characters of a string, each as a one-character string. *)
Definition chars (s : string) : list json :=
  map (fun c => JStr (String c "")) (list_ascii_of_string s).

(** [len(o)] *)
Definition py_len (o : json) : res Z :=
  match o with
  | JStr s => Ok (Z.of_nat (String.length s))
  | JList l => Ok (Z.of_nat (List.length l))
  | JDict d => Ok (Z.of_nat (List.length d))
  | _ =>
      Raise (Exn TypeError
               ("object of type '" +:+ type_name o +:+ "' has no len()"))
  end.

(** The elements [for x in o] visits. *)
Definition py_iter (o : json) : res (list json) :=
  match o with
  | JList l => Ok l
  | JDict d => Ok (map (fun kv => JStr (fst kv)) d)
  | JStr s => Ok (chars s)
  | _ => not_iterable o
  end.

(** [list(o.keys())] *)
Definition py_keys (o : json) : res (list string) :=
  match o with
  | JDict d => Ok (map fst d)
  | _ => no_attribute o "keys"
  end.

(** [o.items()] *)
Definition py_items (o : json) : res (list (string * json)) :=
  match o with
  | JDict d => Ok d
  | _ => no_attribute o "items"
  end.

(** [v == s] for a string [s] *)
Definition eq_str (v : json) (s : string) : bool :=
  match v with
  | JStr t => (t =? s)%string
  | _ => false
  end.

(** [v in strs] for a list of string literals *)
Definition in_strs (v : json) (strs : list string) : bool :=
  existsb (eq_str v) strs.

(** [for i, x in enumerate(l, start)] *)
Fixpoint enumerate {A : Type} (start : Z) (l : list A) : list (Z * A) :=
  match l with
  | [] => []
  | x :: l' => (start, x) :: enumerate (start + 1) l'
  end.

(** Run [f] on each element in turn; the first exception ends the loop. *)
Fixpoint traverse {A B : Type} (f : A -> res B) (l : list A) : res (list B) :=
  match l with
  | [] => Ok []
  | x :: l' => y <- f x ;; ys <- traverse f l' ;; Ok (y :: ys)
  end.

(** A loop whose body appends lines to the output: the lines appended. *)
Definition for_each {A B : Type} (f : A -> res (list B)) (l : list A)
  : res (list B) :=
  yss <- traverse f l ;; Ok (List.concat yss).

End Py.

Import Py.

(** ** Further fragments of the runtime and of [urllib.parse] *)

Module PyLib.

(** [str.upper], a primitive of the interpreter. *)
Class StrUpper : Type := str_upper : string -> string.

(** [s.rstrip('/')] *)
Fixpoint rstrip_slash (s : string) : string :=
  match s with
  | EmptyString => ""
  | String c s' =>
      match rstrip_slash s' with
      | EmptyString => if (c =? "/")%char then "" else String c ""
      | String c' r => String c (String c' r)
      end
  end.

(** ["literal" + v], where [v] must be a [str]. *)
Definition concat_str (literal : string) (v : json) : res string :=
  match v with
  | JStr s => Ok (literal +:+ s)
  | _ =>
      Raise (Exn TypeError
               ("can only concatenate str (not " +:+ dquote +:+ type_name v
                +:+ dquote +:+ ") to str"))
  end.

(** The characters [urllib.parse.quote] never escapes: ASCII letters,
    digits and [_.-~]. *)
Definition always_safe (c : ascii) : bool :=
  let n := nat_of_ascii c in
  ((65 <=? n)%nat && (n <=? 90)%nat)
  || ((97 <=? n)%nat && (n <=? 122)%nat)
  || ((48 <=? n)%nat && (n <=? 57)%nat)
  || (n =? 95)%nat || (n =? 46)%nat || (n =? 45)%nat || (n =? 126)%nat.

Definition upper_hex_digit (n : nat) : ascii :=
  nth n (list_ascii_of_string "0123456789ABCDEF") "0"%char.

(** ["%{:02X}".format(n)] for a byte [n] *)
Definition percent_byte (n : nat) : string :=
  String "%" (String (upper_hex_digit (n / 16))
                (String (upper_hex_digit (n mod 16)) "")).

(** The bytes of the UTF-8 encoding of a character below U+0100. *)
Definition utf8_bytes (c : ascii) : list nat :=
  let n := nat_of_ascii c in
  if (n <? 128)%nat then [n] else [192 + n / 64; 128 + n mod 64]%nat.

(** What [quote_plus] makes of one character. *)
Definition quote_plus_char (c : ascii) : string :=
  if always_safe c then String c ""
  else if (c =? " ")%char then "+"
  else String.concat "" (map percent_byte (utf8_bytes c)).

(** [urllib.parse.quote_plus(s)] *)
Definition quote_plus (s : string) : string := concat_map quote_plus_char s.

End PyLib.

Import PyLib.

(** ** [src/ods_api.py]: the client *)

Module OdsApiClient.

(** A value of the [params] dict handed to [httpx]. *)
Inductive param : Type :=
| PInt (n : Z)
| PStr (s : string)
| PStrs (l : list string).

Definition params : Type := list (string * param).

(** A GET request: the path below [base_url + api_path], and [params]
    ([None] when the caller passes none). *)
Record request : Type :=
  Request { req_path : string; req_params : option params }.

(** [f"{p}"] for a value stored in [params]. *)
Definition param_str (p : param) : string :=
  match p with
  | PInt n => int_str n
  | PStr s => s
  | PStrs l => "[" +:+ join ", " (map str_repr l) +:+ "]"
  end.

(** The list [where_clauses] of [list_datasets]. *)
Definition where_clauses (publisher theme where_ : option string)
  : list string :=
  append_if where_ (fun w => w)
  ++ append_if publisher (fun p => "publisher=" +:+ dquote +:+ p +:+ dquote)
  ++ append_if theme (fun t => "theme=" +:+ dquote +:+ t +:+ dquote).

(** The [params] dict [list_datasets] ends up with. *)
Definition list_datasets_params
  (search publisher theme where_ : option string) (limit offset : Z)
  : params :=
  let params0 := [("limit", PInt limit); ("offset", PInt offset)] in
  let clauses := where_clauses publisher theme where_ in
  let params1 :=
    match clauses with
    | [] => params0
    | _ :: _ => dict_set "where" (PStr (join " AND " clauses)) params0
    end in
  match given search with
  | Some s =>
      dict_set "where"
        (PStr (dquote +:+ s +:+ dquote
               +:+ match lookup "where" params1 with
                  | Some w => " AND " +:+ param_str w
                  | None => ""
                  end))
        params1
  | None => params1
  end.

(** The remote catalogue: what a request returns, or the exception the
    HTTP call raises, given the requests made before it. *)
Definition remote : Type := list request -> request -> res json.

(** A coroutine of the server: it runs against a remote catalogue, extends
    the list of requests issued, and returns or raises. *)
Definition M (A : Type) : Type :=
  remote -> list request -> res A * list request.

Definition ret {A : Type} (a : A) : M A := fun _ log => (Ok a, log).

Definition mbind {A B : Type} (c : M A) (k : A -> M B) : M B :=
  fun srv log =>
    match c srv log with
    | (Ok a, log') => k a srv log'
    | (Raise e, log') => (Raise e, log')
    end.

(** A step that makes no request. *)
Definition lift {A : Type} (r : res A) : M A := fun _ log => (r, log).

(** [try: c  except: h(e)] *)
Definition try_except {A : Type} (c : M A) (h : exn -> M A) : M A :=
  fun srv log =>
    match c srv log with
    | (Ok a, log') => (Ok a, log')
    | (Raise e, log') => h e srv log'
    end.

(** [try: v = await c  except Exception as e: return h(e)], then [k v]. *)
Definition or_return {A : Type} (c : M A) (h : exn -> string)
  (k : A -> M string) : M string :=
  fun srv log =>
    match c srv log with
    | (Ok a, log') => k a srv log'
    | (Raise e, log') => (Ok (h e), log')
    end.

(** [_make_request(path, params)]: one GET, logged. *)
Definition _make_request (path : string) (params : option params) : M json :=
  fun srv log =>
    let r := Request path params in (srv log r, log ++ [r]).

(** [if arg: params[key] = arg] *)
Definition set_if (key : string) (o : option string) (ps : params) : params :=
  match given o with
  | Some s => dict_set key (PStr s) ps
  | None => ps
  end.

Definition list_datasets
  (search publisher theme where_ : option string) (limit offset : Z)
  : M json :=
  _make_request "/catalog/datasets"
    (Some (list_datasets_params search publisher theme where_ limit offset)).

Definition get_dataset (dataset_id : string) : M json :=
  _make_request ("/catalog/datasets/" +:+ dataset_id) None.

Definition get_dataset_records (dataset_id : string)
  (select where_ group_by order_by : option string) (limit offset : Z)
  : M json :=
  _make_request ("/catalog/datasets/" +:+ dataset_id +:+ "/records")
    (Some (set_if "order_by" order_by
             (set_if "group_by" group_by
                (set_if "where" where_
                   (set_if "select" select
                      [("limit", PInt limit); ("offset", PInt offset)]))))).

Definition get_dataset_facets (dataset_id : string) (facet : list string)
  (where_ : option string) : M json :=
  _make_request ("/catalog/datasets/" +:+ dataset_id +:+ "/facets")
    (Some (set_if "where" where_ [("facet", PStrs facet)])).

Definition search_datasets (query : string) (limit : Z) : M json :=
  list_datasets (Some query) None None None limit 0.

Definition search_records (dataset_id query : string) (limit : Z) : M json :=
  get_dataset_records dataset_id None (Some ("search(" +:+ query +:+ ")"))
    None None limit 0.

(** [self.base_url] as [__init__] sets it. *)
Definition init_base_url (base_url : string) : string :=
  rstrip_slash base_url.

(** [self.api_path] *)
Definition api_path : string := "/api/explore/v2.1".

(** [urllib.parse.urlencode(params)] *)
Definition urlencode (ps : params) : string :=
  join "&"
    (map (fun kv =>
            quote_plus (fst kv) +:+ "=" +:+ quote_plus (param_str (snd kv)))
       ps).

(** The [params] dict of [export_records]. *)
Definition export_params (select where_ group_by order_by : option string)
  (limit : option Z) : params :=
  let ps :=
    set_if "order_by" order_by
      (set_if "group_by" group_by
         (set_if "where" where_ (set_if "select" select []))) in
  match limit with
  | Some n => dict_set "limit" (PInt n) ps
  | None => ps
  end.

(** [export_records]: the URL is built, no request is made.  [base_url]
    is [self.base_url]. *)
Definition export_records (base_url dataset_id export_format : string)
  (select where_ group_by order_by : option string) (limit : option Z)
  : M string :=
  ret (base_url +:+ api_path +:+ "/catalog/datasets/" +:+ dataset_id
       +:+ "/exports/" +:+ export_format +:+ "?"
       +:+ urlencode (export_params select where_ group_by order_by limit)).

End OdsApiClient.

Notation "x <~ c ;; k" := (OdsApiClient.mbind c (fun x => k))
  (at level 61, c at next level, right associativity).

(** ** Helpers shared by the tool modules *)

Module Common.
Import OdsApiClient.

(** [not r or key not in r or not r[key]], left to right. *)
Definition lacks (r : json) (key : string) : res bool :=
  if negb (truthy r) then Ok true
  else
    c <- py_contains key r ;;
    if negb c then Ok true
    else (v <- py_subscript r key ;; Ok (negb (truthy v))).

(** [d.get("metas", {}).get("default", {}).get(key, dflt)] *)
Definition metas_default (d : json) (key : string) (dflt : json) : res json :=
  metas <- py_get d "metas" (JDict []) ;;
  default <- py_get metas "default" (JDict []) ;;
  py_get default key dflt.

(** [r.get("results", [{}])[0].get(key, dflt)] *)
Definition first_result (r : json) (key : string) (dflt : json) : res json :=
  results <- py_get r "results" (JList [JDict []]) ;;
  first <- py_index0 results ;;
  py_get first key dflt.

(** The description clean-up:
    [.replace("<p>", "").replace("</p>", " ").replace("<br>", " ")] *)
Definition strip_tags (description : json) : res string :=
  d1 <- py_replace description "<p>" "" ;;
  Ok (str_replace "<br>" " " (str_replace "</p>" " " d1)).

End Common.

(** ** [src/tools/catalog_tools.py] *)

Module catalog_tools.
Import Common.
Section Tools.
Context {fr : FloatRepr}.

(** The truncation of long descriptions in [search_datasets]. *)
Definition truncate (description : string) : string :=
  if (300 <? String.length description)%nat
  then str_take 297 description +:+ "..."
  else description.

(** The body of the loop of [search_datasets]: the lines appended for the
    [i]-th dataset. *)
Definition search_entry (item : Z * json) : res (list string) :=
  let '(i, dataset) := item in
  dataset_id <- py_get dataset "dataset_id" (JStr "N/A") ;;
  title <- metas_default dataset "title" (JStr "Untitled Dataset") ;;
  publisher <- metas_default dataset "publisher" (JStr "Unknown Publisher") ;;
  description <-
    metas_default dataset "description" (JStr "No description available.") ;;
  description <- strip_tags description ;;
  let description := truncate description in
  Ok [ nl +:+ int_str i +:+ ". " +:+ py_str title
         +:+ " (ID: " +:+ py_str dataset_id +:+ ")";
       "   Publisher: " +:+ py_str publisher;
       "   Description: " +:+ description ].

Definition search_datasets (query : string) (limit : Z)
  : OdsApiClient.M string :=
  results <~ OdsApiClient.search_datasets query limit ;;
  OdsApiClient.lift (
    none <- lacks results "results" ;;
    if none then Ok "No datasets found matching your query."
    else
      total_count <- py_get results "total_count" (JInt 0) ;;
      datasets <- py_subscript results "results" ;;
      n <- py_len datasets ;;
      let head :=
        "Found " +:+ py_str total_count +:+ " datasets matching '" +:+ query
        +:+ "'. Here are the first " +:+ int_str n +:+ " results:" in
      items <- py_iter datasets ;;
      entries <- for_each search_entry (enumerate 1 items) ;;
      Ok (join nl (head :: entries))).

(** The body of the loop of [list_datasets_by_publisher]. *)
Definition publisher_entry (item : Z * json) : res (list string) :=
  let '(i, dataset) := item in
  dataset_id <- py_get dataset "dataset_id" (JStr "N/A") ;;
  title <- metas_default dataset "title" (JStr "Untitled Dataset") ;;
  records_count <- metas_default dataset "records_count" (JStr "Unknown") ;;
  themes <- metas_default dataset "theme" (JList [JStr ""]) ;;
  theme <- py_index0 themes ;;
  let theme_info :=
    if truthy theme then " | Theme: " +:+ py_str theme else "" in
  Ok [ nl +:+ int_str i +:+ ". " +:+ py_str title
         +:+ " (ID: " +:+ py_str dataset_id +:+ ")";
       "   Records: " +:+ py_str records_count +:+ theme_info ].

Definition list_datasets_by_publisher (publisher : string) (limit : Z)
  : OdsApiClient.M string :=
  results <~ OdsApiClient.list_datasets None (Some publisher) None None
               limit 0 ;;
  OdsApiClient.lift (
    none <- lacks results "results" ;;
    if none then Ok ("No datasets found from publisher: " +:+ publisher +:+ ".")
    else
      total_count <- py_get results "total_count" (JInt 0) ;;
      datasets <- py_subscript results "results" ;;
      n <- py_len datasets ;;
      let head :=
        "Found " +:+ py_str total_count +:+ " datasets from publisher '"
        +:+ publisher +:+ "'. Here are the first " +:+ int_str n
        +:+ " results:" in
      items <- py_iter datasets ;;
      entries <- for_each publisher_entry (enumerate 1 items) ;;
      Ok (join nl (head :: entries))).

End Tools.
Section MoreTools.
Context {fr : FloatRepr}.
Import OdsApiClient.

(** The line of one field in [get_dataset_info]. *)
Definition info_field_line (field : json) : res string :=
  name <- py_get field "name" (JStr "Unnamed") ;;
  label <- py_get field "label" name ;;
  field_type <- py_get field "type" (JStr "Unknown") ;;
  field_desc <- py_get field "description" (JStr "") ;;
  suffix <- (if truthy field_desc then concat_str " - " field_desc
             else Ok "") ;;
  Ok ("  - " +:+ py_str label +:+ " (" +:+ py_str name +:+ "): "
      +:+ py_str field_type +:+ suffix).

Definition get_dataset_info (dataset_id : string) : M string :=
  or_return (get_dataset dataset_id)
    (fun e => "Error retrieving dataset: " +:+ exn_str e)
    (fun dataset =>
       lift (
         if negb (truthy dataset)
         then Ok ("Dataset with ID '" +:+ dataset_id +:+ "' not found.")
         else
           title <- metas_default dataset "title" (JStr "Untitled Dataset") ;;
           publisher <-
             metas_default dataset "publisher" (JStr "Unknown Publisher") ;;
           description <-
             metas_default dataset "description"
               (JStr "No description available.") ;;
           records_count <-
             metas_default dataset "records_count" (JStr "Unknown") ;;
           description <- strip_tags description ;;
           fields <- py_get dataset "fields" (JList []) ;;
           items <- py_iter fields ;;
           field_info <- traverse info_field_line items ;;
           n <- py_len fields ;;
           Ok (join nl
                 ([ "Dataset: " +:+ py_str title
                      +:+ " (ID: " +:+ dataset_id +:+ ")";
                    "Publisher: " +:+ py_str publisher;
                    "Record Count: " +:+ py_str records_count;
                    nl +:+ "Description:";
                    description;
                    nl +:+ "Fields (" +:+ int_str n +:+ "):" ]
                  ++ field_info)))).

(** The lines of one field in [list_dataset_fields]. *)
Definition field_entry (item : Z * json) : res (list string) :=
  let '(i, field) := item in
  name <- py_get field "name" (JStr "Unnamed") ;;
  label <- py_get field "label" name ;;
  field_type <- py_get field "type" (JStr "Unknown") ;;
  description <-
    py_get field "description" (JStr "No description available") ;;
  annotations <- py_get field "annotations" (JDict []) ;;
  notes <-
    (if truthy annotations
     then
       kvs <- py_items annotations ;;
       Ok [ "   Annotations: "
            +:+ join ", "
                  (map (fun kv => fst kv +:+ ": " +:+ py_str (snd kv)) kvs) ]
     else Ok []) ;;
  Ok ([ nl +:+ int_str i +:+ ". " +:+ py_str label
          +:+ " (" +:+ py_str name +:+ ")";
        "   Type: " +:+ py_str field_type;
        "   Description: " +:+ py_str description ] ++ notes).

Definition list_dataset_fields (dataset_id : string) : M string :=
  or_return (get_dataset dataset_id)
    (fun e => "Error retrieving dataset: " +:+ exn_str e)
    (fun dataset =>
       lift (
         if negb (truthy dataset)
         then Ok ("Dataset with ID '" +:+ dataset_id +:+ "' not found.")
         else
           fields <- py_get dataset "fields" (JList []) ;;
           if negb (truthy fields)
           then Ok ("No fields found for dataset '" +:+ dataset_id +:+ "'.")
           else
             title <-
               metas_default dataset "title" (JStr "Untitled Dataset") ;;
             items <- py_iter fields ;;
             entries <- for_each field_entry (enumerate 1 items) ;;
             Ok (join nl
                   (("Fields for dataset: " +:+ py_str title
                     +:+ " (ID: " +:+ dataset_id +:+ ")") :: entries)))).

End MoreTools.
End catalog_tools.

(** ** [src/tools/query_tools.py] *)

Module query_tools.
Import Common.
Import OdsApiClient.
Section Tools.
Context {fr : FloatRepr}.

(** The title looked up for the header line; any failure gives the
    placeholder. *)
Definition dataset_title (dataset_id : string) : M json :=
  try_except
    (dataset_info <~ get_dataset dataset_id ;;
     lift (metas_default dataset_info "title" (JStr "Unknown Dataset")))
    (fun _ => ret (JStr "Unknown Dataset")).

(** ["| " + " | ".join(cells) + " |"] *)
Definition table_row (cells : list string) : string :=
  "| " +:+ join " | " cells +:+ " |".

(** The cell of [record] under column [key]. *)
Definition record_cell (record : json) (key : string) : res string :=
  value <- py_get record key (JStr "") ;;
  Ok (display value).

Definition record_row (record_keys : list string) (record : json)
  : res string :=
  values <- traverse (record_cell record) record_keys ;;
  Ok (table_row values).

(** The table branch: header, separator, one row per record. *)
Definition table_lines (record_keys : list string) (records : list json)
  : res (list string) :=
  rows <- traverse (record_row record_keys) records ;;
  Ok ((nl +:+ table_row record_keys)
      :: table_row (repeat "---" (List.length record_keys))
      :: rows).

(** The lines listing one record key by key. *)
Definition record_listing (item : Z * json) : res (list string) :=
  let '(i, record) := item in
  items <- py_items record ;;
  Ok ((nl +:+ "Record " +:+ int_str i +:+ ":")
      :: map (fun kv => "  " +:+ fst kv +:+ ": " +:+ display (snd kv)) items).

(** The listing branch of [get_dataset_records]. *)
Definition listing_lines (record_keys : list string) (n : Z)
  (records : list json) : res (list string) :=
  entries <- for_each record_listing (enumerate 1 records) ;;
  Ok ((nl +:+ "Found " +:+ int_str (Z.of_nat (List.length record_keys))
       +:+ " fields in the records. Here's a summary of the first "
       +:+ int_str n +:+ " records:")
      :: entries).

Definition is_given (o : option string) : bool :=
  match given o with Some _ => true | None => false end.

(** The closing note on the ODSQL clauses used. *)
Definition odsql_note (select where_ order_by : option string) : list string :=
  if is_given select || is_given where_ || is_given order_by
  then (nl +:+ "Note: This query used ODSQL syntax:")
       :: append_if select (fun x => "- SELECT: " +:+ x)
       ++ append_if where_ (fun x => "- WHERE: " +:+ x)
       ++ append_if order_by (fun x => "- ORDER BY: " +:+ x)
  else [].

(** [f" KEYWORD {clause}" if clause else ""] *)
Definition clause_suffix (keyword : string) (o : option string) : string :=
  match given o with
  | Some x => keyword +:+ x
  | None => ""
  end.

Definition get_dataset_records (dataset_id : string) (limit offset : Z)
  (select where_ order_by : option string) : M string :=
  or_return
    (OdsApiClient.get_dataset_records dataset_id select where_ None order_by
       limit offset)
    (fun e => "Error retrieving dataset records: " +:+ exn_str e)
    (fun results =>
       none <~ lift (lacks results "results") ;;
       if (none : bool)
       then ret ("No records found for dataset '" +:+ dataset_id
                 +:+ "' with the specified criteria.")
       else
         records <~ lift (py_subscript results "results") ;;
         total_count <~ lift (py_get results "total_count" (JInt 0)) ;;
         title <~ dataset_title dataset_id ;;
         lift (
           n <- py_len records ;;
           let output :=
             [ "Records from dataset: " +:+ py_str title
                 +:+ " (ID: " +:+ dataset_id +:+ ")";
               "Showing " +:+ int_str n +:+ " of " +:+ py_str total_count
                 +:+ " total records (offset: " +:+ int_str offset +:+ ")" ]
           in
           if negb (truthy records)
           then Ok (join nl (output ++ [nl +:+ "No records found."]))
           else
             first <- py_index0 records ;;
             record_keys <- py_keys first ;;
             items <- py_iter records ;;
             body <-
               (if (10 <? List.length record_keys)%nat
                then listing_lines record_keys n items
                else table_lines record_keys items) ;;
             Ok (join nl
                   (output ++ body ++ odsql_note select where_ order_by)))).

Definition get_dataset_aggregates (dataset_id select : string)
  (group_by where_ : option string) (limit : Z) : M string :=
  or_return
    (OdsApiClient.get_dataset_records dataset_id (Some select) where_
       group_by None limit 0)
    (fun e => "Error performing aggregation: " +:+ exn_str e)
    (fun results =>
       none <~ lift (lacks results "results") ;;
       if (none : bool)
       then ret ("No aggregation results found for dataset '" +:+ dataset_id
                 +:+ "' with the specified criteria.")
       else
         records <~ lift (py_subscript results "results") ;;
         title <~ dataset_title dataset_id ;;
         lift (
           n <- py_len records ;;
           let output :=
             [ "Aggregation results for dataset: " +:+ py_str title
                 +:+ " (ID: " +:+ dataset_id +:+ ")";
               "Query: SELECT " +:+ select
                 +:+ clause_suffix " GROUP BY " group_by
                 +:+ clause_suffix " WHERE " where_;
               "Results: " +:+ int_str n +:+ " rows" ]
           in
           if negb (truthy records)
           then Ok (join nl (output ++ [nl +:+ "No results found."]))
           else
             first <- py_index0 records ;;
             record_keys <- py_keys first ;;
             items <- py_iter records ;;
             body <- table_lines record_keys items ;;
             Ok (join nl (output ++ body)))).

(** [sorted(facet_values, key=lambda x: x.get("count", 0), reverse=True)] *)
Definition sort_by_count (facet_values : json) : res (list json) :=
  items <- py_iter facet_values ;;
  keyed <- traverse (fun x => c <- py_get x "count" (JInt 0) ;; Ok (c, x))
             items ;;
  sorted <- sort_desc_keyed [] keyed ;;
  Ok (map snd sorted).

(** One row of the facet table. *)
Definition facet_value_row (value : json) : res string :=
  value_name <- py_get value "name" (JStr "N/A") ;;
  count <- py_get value "count" (JInt 0) ;;
  state <- py_get value "state" (JStr "N/A") ;;
  Ok ("| " +:+ py_str value_name +:+ " | " +:+ py_str count +:+ " | "
      +:+ py_str state +:+ " |").

(** The body of the loop of [facet_analysis] over [results["facets"]]. *)
Definition facet_section (facet_data : json) : res (list string) :=
  facet_name <- py_get facet_data "name" (JStr "Unknown") ;;
  facet_values <- py_get facet_data "facets" (JList []) ;;
  n <- py_len facet_values ;;
  let head :=
    nl +:+ "Facet: " +:+ py_str facet_name +:+ " (" +:+ int_str n
    +:+ " values)" in
  if negb (truthy facet_values)
  then Ok [head; "  No values found for this facet."]
  else
    sorted_values <- sort_by_count facet_values ;;
    rows <- traverse facet_value_row (firstn 20 sorted_values) ;;
    Ok ([head; nl +:+ "| Value | Count | State |"; "| --- | --- | --- |"]
        ++ rows
        ++ (if (20 <? List.length sorted_values)%nat
            then [nl +:+ "(Showing top 20 of "
                  +:+ int_str (Z.of_nat (List.length sorted_values))
                  +:+ " values)"]
            else [])).

Definition facet_analysis (dataset_id : string) (facets : list string)
  (where_ : option string) : M string :=
  or_return
    (OdsApiClient.get_dataset_facets dataset_id facets where_)
    (fun e => "Error retrieving facets: " +:+ exn_str e)
    (fun results =>
       none <~ lift (lacks results "facets") ;;
       if (none : bool)
       then ret ("No facet data found for dataset '" +:+ dataset_id
                 +:+ "' with the specified criteria.")
       else
         title <~ dataset_title dataset_id ;;
         lift (
           let output :=
             [ "Facet analysis for dataset: " +:+ py_str title
                 +:+ " (ID: " +:+ dataset_id +:+ ")";
               "Analyzing facets: " +:+ join ", " facets
                 +:+ clause_suffix " WHERE " where_ ]
           in
           all_facets <- py_subscript results "facets" ;;
           items <- py_iter all_facets ;;
           sections <- for_each facet_section items ;;
           Ok (join nl (output ++ sections)))).

End Tools.
Section MoreTools.
Context {fr : FloatRepr} {up : StrUpper}.

Definition search_dataset_records (dataset_id query : string) (limit : Z)
  : M string :=
  or_return (OdsApiClient.search_records dataset_id query limit)
    (fun e => "Error searching dataset records: " +:+ exn_str e)
    (fun results =>
       none <~ lift (lacks results "results") ;;
       if (none : bool)
       then ret ("No records found matching '" +:+ query +:+ "' in dataset '"
                 +:+ dataset_id +:+ "'.")
       else
         records <~ lift (py_subscript results "results") ;;
         total_count <~ lift (py_get results "total_count" (JInt 0)) ;;
         title <~ dataset_title dataset_id ;;
         lift (
           n <- py_len records ;;
           let output :=
             [ "Search results for '" +:+ query +:+ "' in dataset: "
                 +:+ py_str title +:+ " (ID: " +:+ dataset_id +:+ ")";
               "Found " +:+ py_str total_count
                 +:+ " matching records. Showing first " +:+ int_str n
                 +:+ ":" ] in
           if negb (truthy records)
           then Ok (join nl (output ++ [nl +:+ "No matching records found."]))
           else
             items <- py_iter records ;;
             entries <- for_each record_listing (enumerate 1 items) ;;
             Ok (join nl (output ++ entries)))).

(** [if limit: query_params.append(f"LIMIT: {limit}")] *)
Definition limit_note (limit : option Z) : list string :=
  match limit with
  | Some n => if (n =? 0)%Z then [] else ["LIMIT: " +:+ int_str n]
  | None => []
  end.

(** The list [query_params] of [get_export_url]. *)
Definition export_notes (select where_ group_by order_by : option string)
  (limit : option Z) : list string :=
  append_if select (fun x => "SELECT: " +:+ x)
  ++ append_if where_ (fun x => "WHERE: " +:+ x)
  ++ append_if group_by (fun x => "GROUP BY: " +:+ x)
  ++ append_if order_by (fun x => "ORDER BY: " +:+ x)
  ++ limit_note limit.

(** [get_export_url]; [base_url] is the [base_url] of the client. *)
Definition get_export_url (base_url dataset_id export_format : string)
  (select where_ group_by order_by : option string) (limit : option Z)
  : M string :=
  or_return
    (OdsApiClient.export_records base_url dataset_id export_format select
       where_ group_by order_by limit)
    (fun e => "Error generating export URL: " +:+ exn_str e)
    (fun export_url =>
       title <~ dataset_title dataset_id ;;
       let query_params :=
         export_notes select where_ group_by order_by limit in
       ret (join nl
              ([ "Export URL for dataset: " +:+ py_str title
                   +:+ " (ID: " +:+ dataset_id +:+ ")";
                 "Format: " +:+ str_upper export_format ]
               ++ match query_params with
                  | [] => []
                  | _ :: _ =>
                      ["Query parameters: " +:+ join ", " query_params]
                  end
               ++ [ nl +:+ "Export URL: " +:+ export_url;
                    nl +:+ "Note: This URL can be used to download the "
                    +:+ "dataset in the specified format." ]))).

End MoreTools.
End query_tools.

(** ** [src/tools/analysis_tools.py] *)

Module analysis_tools.
Import Common.
Import OdsApiClient.
Section Tools.
Context {fr : FloatRepr}.

(** A loop of awaited steps; the first exception ends it. *)
Fixpoint mtraverse {A B : Type} (f : A -> M B) (l : list A) : M (list B) :=
  match l with
  | [] => ret []
  | x :: l' => y <~ f x ;; ys <~ mtraverse f l' ;; ret (y :: ys)
  end.

(** The search for the field named [field_name]: the first field whose
    ["name"] equals it, or [None]. *)
Fixpoint find_field (field_name : string) (fields : list json) : res json :=
  match fields with
  | [] => Ok JNull
  | field :: rest =>
      name <- py_get field "name" JNull ;;
      if eq_str name field_name then Ok field
      else find_field field_name rest
  end.

(** The validation block that opens each field analysis.  It either
    returns a message ([inl]) or goes on with [dataset_info] and
    [field_label] ([inr]); [accepted] lists the accepted types and [class]
    is the word used in the message. *)
Definition validate_field (dataset_id field_name : string)
  (accepted : list string) (class : string) : M (string + json * json) :=
  try_except
    (dataset_info <~ get_dataset dataset_id ;;
     lift (
       fields <- py_get dataset_info "fields" (JList []) ;;
       items <- py_iter fields ;;
       field_info <- find_field field_name items ;;
       if negb (truthy field_info)
       then Ok (inl ("Field '" +:+ field_name +:+ "' not found in dataset '"
                     +:+ dataset_id +:+ "'."))
       else
         field_type <- py_get field_info "type" (JStr "") ;;
         if negb (in_strs field_type accepted)
         then Ok (inl ("Field '" +:+ field_name +:+ "' is not a " +:+ class
                       +:+ " field (type: " +:+ py_str field_type +:+ ")."))
         else
           field_label <- py_get field_info "label" (JStr field_name) ;;
           Ok (inr (dataset_info, field_label))))
    (fun e => ret (inl ("Error validating field: " +:+ exn_str e))).

(** [try: r = await c; ... return early or bind values ...
     except Exception as e: return h(e)] *)
Definition try_step {A : Type} (c : M (string + A)) (h : exn -> string)
  : M (string + A) :=
  try_except c (fun e => ret (inl (h e))).

(** Go on with [k] unless the step returned. *)
Definition and_then {A : Type} (c : M (string + A)) (k : A -> M string)
  : M string :=
  r <~ c ;;
  match r with
  | inl message => ret message
  | inr a => k a
  end.

(** *** [analyze_numeric_field] *)

(** [min_val + (i * range_size)] *)
Definition range_lower (min_val range_size : Q) (i : Z) : Q :=
  (min_val + inject_Z i * range_size)%Q.

(** [min_val + ((i + 1) * range_size)] *)
Definition range_upper (min_val range_size : Q) (i : Z) : Q :=
  (min_val + inject_Z (i + 1) * range_size)%Q.

(** The filter counting the records of range [i]. *)
Definition range_where (field_name : string) (lower upper : Q) (i : Z)
  : string :=
  if (i =? 9)%Z
  then field_name +:+ " >= " +:+ float_repr lower +:+ " AND "
       +:+ field_name +:+ " <= " +:+ float_repr upper
  else field_name +:+ " >= " +:+ float_repr lower +:+ " AND "
       +:+ field_name +:+ " < " +:+ float_repr upper.

(** One turn of the loop [for i in range(10)]. *)
Definition count_range (dataset_id field_name : string)
  (min_val range_size : Q) (i : Z) : M (Q * Q * json) :=
  let lower := range_lower min_val range_size i in
  let upper := range_upper min_val range_size i in
  range_result <~
    OdsApiClient.get_dataset_records dataset_id (Some "count(*) as count")
      (Some (range_where field_name lower upper i)) None None 10 0 ;;
  range_count <~ lift (first_result range_result "count" (JInt 0)) ;;
  ret (lower, upper, range_count).

(** [range(10)] *)
Definition range10 : list Z := [0; 1; 2; 3; 4; 5; 6; 7; 8; 9]%Z.

(** The distribution block: [None] when there is none. *)
Definition distribution (dataset_id field_name : string)
  (min_val max_val : json) : M (option (list (Q * Q * json))) :=
  try_except
    (if is_number min_val && is_number max_val
     then
       let range_size := ((num max_val - num min_val) / 10)%Q in
       if Qlt_bool 0 range_size
       then
         d <~ mtraverse
                (count_range dataset_id field_name (num min_val) range_size)
                range10 ;;
         ret (Some d)
       else ret None
     else ret None)
    (fun _ => ret None).

(** One row of the distribution table. *)
Definition range_row (r : Q * Q * json) : string :=
  let '(lower, upper, range_count) := r in
  "| " +:+ fmt_2f lower +:+ " - " +:+ fmt_2f upper +:+ " | "
  +:+ py_str range_count +:+ " |".

(** The statistics lookup of [analyze_numeric_field]. *)
Definition numeric_stats (dataset_id field_name : string)
  : M (string + json * json * json * json) :=
  try_step
    (stats <~
       OdsApiClient.get_dataset_records dataset_id
         (Some ("min(" +:+ field_name +:+ ") as min, max(" +:+ field_name
                +:+ ") as max, avg(" +:+ field_name +:+ ") as avg, count("
                +:+ field_name +:+ ") as count"))
         None None None 10 0 ;;
     lift (
       none <- lacks stats "results" ;;
       if none
       then Ok (inl ("Failed to compute statistics for field '"
                     +:+ field_name +:+ "'."))
       else
         results <- py_subscript stats "results" ;;
         stat_values <- py_index0 results ;;
         min_val <- py_get stat_values "min" (JStr "N/A") ;;
         max_val <- py_get stat_values "max" (JStr "N/A") ;;
         avg_val <- py_get stat_values "avg" (JStr "N/A") ;;
         count <- py_get stat_values "count" (JStr "N/A") ;;
         Ok (inr (min_val, max_val, avg_val, count))))
    (fun e => "Error computing field statistics: " +:+ exn_str e).

Definition analyze_numeric_field (dataset_id field_name : string) : M string :=
  and_then
    (validate_field dataset_id field_name
       ["int"; "double"; "decimal"; "float"] "numeric")
    (fun '(dataset_info, field_label) =>
  and_then (numeric_stats dataset_id field_name)
    (fun '(min_val, max_val, avg_val, count) =>
  dataset_title <~
    lift (metas_default dataset_info "title" (JStr "Unknown Dataset")) ;;
  dist <~ distribution dataset_id field_name min_val max_val ;;
  let output :=
    [ "# Analysis of " +:+ py_str field_label +:+ " (" +:+ field_name +:+ ")";
      nl +:+ "Dataset: " +:+ py_str dataset_title
        +:+ " (ID: " +:+ dataset_id +:+ ")";
      nl +:+ "## Basic Statistics";
      "- **Count**: " +:+ py_str count;
      "- **Minimum**: " +:+ py_str min_val;
      "- **Maximum**: " +:+ py_str max_val;
      "- **Average**: " +:+ py_str avg_val ] in
  let table :=
    match dist with
    | Some (r :: rs) =>
        [nl +:+ "## Value Distribution"; "| Range | Count |"; "| --- | --- |"]
        ++ map range_row (r :: rs)
    | _ => []
    end in
  ret (join nl (output ++ table)))).

(** *** [analyze_text_field] *)

(** [a / b] for a non-zero number [b]. *)
Definition py_div (a b : json) : res Q :=
  if is_number a && is_number b then Ok (num a / num b)%Q
  else
    Raise (Exn TypeError
             ("unsupported operand type(s) for /: '" +:+ type_name a
              +:+ "' and '" +:+ type_name b +:+ "'")).

(** [isinstance(total, (int, float)) and total > 0] *)
Definition positive_number (total : json) : bool :=
  is_number total && Qlt_bool 0 (num total).

(** The percentage cell of the frequency table. *)
Definition percentage_str (count total_records : json) : res string :=
  if positive_number total_records
  then
    ratio <- py_div count total_records ;;
    Ok (fmt_2f (ratio * 100) +:+ "%")
  else Ok "N/A".

(** One row of the frequency table. *)
Definition frequency_row (field_name : string) (total_records : json)
  (value_info : json) : res string :=
  value <- py_get value_info field_name (JStr "N/A") ;;
  count <- py_get value_info "count" (JInt 0) ;;
  percentage <- percentage_str count total_records ;;
  Ok ("| " +:+ py_str value +:+ " | " +:+ py_str count +:+ " | "
      +:+ percentage +:+ " |").

(** The frequency lookup of [analyze_text_field]. *)
Definition value_frequency (dataset_id field_name : string) (limit : Z)
  : M (string + json) :=
  try_step
    (frequency <~
       OdsApiClient.get_dataset_records dataset_id
         (Some (field_name +:+ ", count(*) as count"))
         None (Some field_name) (Some "count DESC") limit 0 ;;
     lift (
       none <- lacks frequency "results" ;;
       if none
       then Ok (inl ("Failed to compute value frequency for field '"
                     +:+ field_name +:+ "'."))
       else
         values <- py_subscript frequency "results" ;;
         Ok (inr values)))
    (fun e => "Error computing value frequency: " +:+ exn_str e).

(** [try: r = await records(select=...); v = r.get("results", [{}])[0]
    .get(key, dflt)  except: v = fallback] *)
Definition aggregate_or (dataset_id select key : string) (dflt fallback : json)
  : M json :=
  try_except
    (r <~ OdsApiClient.get_dataset_records dataset_id (Some select)
            None None None 10 0 ;;
     lift (first_result r key dflt))
    (fun _ => ret fallback).

Definition analyze_text_field (dataset_id field_name : string) (limit : Z)
  : M string :=
  and_then (validate_field dataset_id field_name ["text"] "text")
    (fun '(dataset_info, field_label) =>
  and_then (value_frequency dataset_id field_name limit)
    (fun values =>
  total_records <~
    aggregate_or dataset_id "count(*) as total" "total" (JInt 0)
      (JStr "Unknown") ;;
  dataset_title <~
    lift (metas_default dataset_info "title" (JStr "Unknown Dataset")) ;;
  distinct_count <~
    aggregate_or dataset_id
      ("count(distinct " +:+ field_name +:+ ") as distinct_count")
      "distinct_count" (JStr "Unknown") (JStr "Unknown") ;;
  lift (
    let output :=
      [ "# Analysis of " +:+ py_str field_label
          +:+ " (" +:+ field_name +:+ ")";
        nl +:+ "Dataset: " +:+ py_str dataset_title
          +:+ " (ID: " +:+ dataset_id +:+ ")";
        nl +:+ "## Basic Statistics";
        "- **Total Records**: " +:+ py_str total_records;
        "- **Distinct Values**: " +:+ py_str distinct_count ] in
    if truthy values
    then
      n <- py_len values ;;
      items <- py_iter values ;;
      rows <- traverse (frequency_row field_name total_records) items ;;
      Ok (join nl
            (output
             ++ [ nl +:+ "## Top " +:+ int_str n +:+ " Values by Frequency";
                  "| Value | Count | Percentage |";
                  "| --- | --- | --- |" ]
             ++ rows))
    else Ok (join nl output)))).

(** *** [analyze_date_field] *)

(** The statistics lookup of [analyze_date_field]. *)
Definition date_stats (dataset_id field_name : string)
  : M (string + json * json * json) :=
  try_step
    (stats <~
       OdsApiClient.get_dataset_records dataset_id
         (Some ("min(" +:+ field_name +:+ ") as min_date, max(" +:+ field_name
                +:+ ") as max_date, count(" +:+ field_name +:+ ") as count"))
         None None None 10 0 ;;
     lift (
       none <- lacks stats "results" ;;
       if none
       then Ok (inl ("Failed to compute statistics for field '"
                     +:+ field_name +:+ "'."))
       else
         results <- py_subscript stats "results" ;;
         stat_values <- py_index0 results ;;
         min_date <- py_get stat_values "min_date" (JStr "N/A") ;;
         max_date <- py_get stat_values "max_date" (JStr "N/A") ;;
         count <- py_get stat_values "count" (JStr "N/A") ;;
         Ok (inr (min_date, max_date, count))))
    (fun e => "Error computing field statistics: " +:+ exn_str e).

(** The year-level distribution; any failure gives the empty list. *)
Definition years_lookup (dataset_id field_name : string) : M json :=
  try_except
    (year_distribution <~
       OdsApiClient.get_dataset_records dataset_id
         (Some ("year(" +:+ field_name +:+ ") as year, count(*) as count"))
         None (Some ("year(" +:+ field_name +:+ ")")) (Some "year") 10 0 ;;
     lift (py_get year_distribution "results" (JList [])))
    (fun _ => ret (JList [])).

(** [sorted([item.get("year") for item in years_data], reverse=True)[:5]] *)
Definition recent_years (years_data : json) : res (list json) :=
  items <- py_iter years_data ;;
  years <- traverse (fun item => py_get item "year" JNull) items ;;
  sorted <- sort_desc_keyed [] (map (fun y => (y, y)) years) ;;
  Ok (firstn 5 (map snd sorted)).

(** The loop over the recent years; [month_data] is what has been appended
    so far, and is what remains if a lookup fails. *)
Fixpoint months_loop (dataset_id field_name : string) (years : list json)
  (month_data : list (json * json)) : M (list (json * json)) :=
  match years with
  | [] => ret month_data
  | year :: rest =>
      try_except
        (month_distribution <~
           OdsApiClient.get_dataset_records dataset_id
             (Some ("month(" +:+ field_name
                    +:+ ") as month, count(*) as count"))
             (Some ("year(" +:+ field_name +:+ ") = " +:+ py_str year))
             (Some ("month(" +:+ field_name +:+ ")")) (Some "month") 10 0 ;;
         months <~ lift (py_get month_distribution "results" (JList [])) ;;
         months_loop dataset_id field_name rest
           (if truthy months then month_data ++ [(year, months)]
            else month_data))
        (fun _ => ret month_data)
  end.

(** The month-level breakdown. *)
Definition months_lookup (dataset_id field_name : string) (years_data : json)
  : M (list (json * json)) :=
  if truthy years_data
  then
    try_except
      (years <~ lift (recent_years years_data) ;;
       months_loop dataset_id field_name years [])
      (fun _ => ret [])
  else ret [].

Definition month_names : list string :=
  [ "January"; "February"; "March"; "April"; "May"; "June"; "July";
    "August"; "September"; "October"; "November"; "December" ].

(** [month_names[month_num - 1]] *)
Definition month_name (month_num : json) : res string :=
  match month_num with
  | JBool _ | JInt _ =>
      let i := (Qnum (num month_num) - 1)%Z in
      let j := if (i <? 0)%Z then (i + 12)%Z else i in
      if (0 <=? j)%Z && (j <? 12)%Z
      then Ok (nth (Z.to_nat j) month_names "")
      else Raise (Exn IndexError "list index out of range")
  | JFloat _ =>
      Raise (Exn TypeError
               "list indices must be integers or slices, not float")
  | _ =>
      Raise (Exn TypeError
               ("unsupported operand type(s) for -: '" +:+ type_name month_num
                +:+ "' and 'int'"))
  end.

Definition year_row (year_info : json) : res string :=
  year <- py_get year_info "year" (JStr "N/A") ;;
  year_count <- py_get year_info "count" (JInt 0) ;;
  Ok ("| " +:+ py_str year +:+ " | " +:+ py_str year_count +:+ " |").

Definition month_row (month_info : json) : res string :=
  month_num <- py_get month_info "month" (JInt 0) ;;
  name <- month_name month_num ;;
  month_count <- py_get month_info "count" (JInt 0) ;;
  Ok ("| " +:+ name +:+ " | " +:+ py_str month_count +:+ " |").

Definition month_section (entry : json * json) : res (list string) :=
  let '(year, months) := entry in
  items <- py_iter months ;;
  rows <- traverse month_row items ;;
  Ok ([nl +:+ "### " +:+ py_str year; "| Month | Count |"; "| --- | --- |"]
      ++ rows).

Definition analyze_date_field (dataset_id field_name : string) : M string :=
  and_then
    (validate_field dataset_id field_name ["date"; "datetime"] "date")
    (fun '(dataset_info, field_label) =>
  and_then (date_stats dataset_id field_name)
    (fun '(min_date, max_date, count) =>
  dataset_title <~
    lift (metas_default dataset_info "title" (JStr "Unknown Dataset")) ;;
  years_data <~ years_lookup dataset_id field_name ;;
  month_data <~ months_lookup dataset_id field_name years_data ;;
  lift (
    let output :=
      [ "# Analysis of " +:+ py_str field_label
          +:+ " (" +:+ field_name +:+ ")";
        nl +:+ "Dataset: " +:+ py_str dataset_title
          +:+ " (ID: " +:+ dataset_id +:+ ")";
        nl +:+ "## Basic Statistics";
        "- **Count**: " +:+ py_str count;
        "- **Earliest Date**: " +:+ py_str min_date;
        "- **Latest Date**: " +:+ py_str max_date ] in
    years_table <-
      (if truthy years_data
       then
         items <- py_iter years_data ;;
         rows <- traverse year_row items ;;
         Ok ([nl +:+ "## Distribution by Year"; "| Year | Count |";
              "| --- | --- |"] ++ rows)
       else Ok []) ;;
    months_table <-
      (match month_data with
       | [] => Ok []
       | _ :: _ =>
           sections <- for_each month_section month_data ;;
           Ok ((nl +:+ "## Monthly Distribution (Last "
                +:+ int_str (Z.of_nat (List.length month_data)) +:+ " Years)")
               :: sections)
       end) ;;
    Ok (join nl (output ++ years_table ++ months_table))))).

(** *** [summarize_dataset]: the theme line *)

(** [metas.get("theme", [""])[0] if metas.get("theme") else ""] *)
Definition summary_theme (metas : json) : res json :=
  guard <- py_get metas "theme" JNull ;;
  if truthy guard
  then (themes <- py_get metas "theme" (JList [JStr ""]) ;; py_index0 themes)
  else Ok (JStr "").

(** *** [generate_dataset_statistics] *)

(** The keys of [field_groups]. *)
Inductive group : Type := Numeric | Text | Date | Geo | Other.

Definition group_eqb (g h : group) : bool :=
  match g, h with
  | Numeric, Numeric | Text, Text | Date, Date | Geo, Geo | Other, Other =>
      true
  | _, _ => false
  end.

Definition group_of (field_type : json) : group :=
  if in_strs field_type ["int"; "double"; "decimal"; "float"] then Numeric
  else if eq_str field_type "text" then Text
  else if in_strs field_type ["date"; "datetime"] then Date
  else if in_strs field_type ["geo_point_2d"; "geo_shape"] then Geo
  else Other.

(** A member of a group: [(field_name, field_label, field_type)]. *)
Definition member : Type := (json * json * json)%type.

Definition classify (field : json) : res (group * member) :=
  field_name <- py_get field "name" (JStr "") ;;
  field_type <- py_get field "type" (JStr "") ;;
  field_label <- py_get field "label" field_name ;;
  Ok (group_of field_type, (field_name, field_label, field_type)).

Definition members (g : group) (classified : list (group * member))
  : list member :=
  map snd (filter (fun x => group_eqb (fst x) g) classified).

(** The fill-rate cell. *)
Definition fill_rate_str (field_count total_records : json) : string :=
  if is_number field_count && is_number total_records
     && Qlt_bool 0 (num total_records)
  then fmt_2f ((num field_count / num total_records) * 100) +:+ "%"
  else "N/A".

Definition field_cell (m : member) : string :=
  let '(field_name, field_label, _) := m in
  py_str field_label +:+ " (" +:+ py_str field_name +:+ ")".

(** The total number of records, with 0 on failure. *)
Definition total_lookup (dataset_id : string) : M json :=
  aggregate_or dataset_id "count(*) as total" "total" (JInt 0) (JInt 0).

(** The total used by the date and geo sections: [total_records] has a
    value only if an earlier section assigned it. *)
Definition total_for_section (dataset_id : string) (total : option json)
  : M json :=
  match total with
  | None =>
      lift (Raise (Exn UnboundLocalError
                     ("cannot access local variable 'total_records' where "
                      +:+ "it is not associated with a value")))
  | Some t => if negb (is_number t) then total_lookup dataset_id else ret t
  end.

Definition numeric_clauses (m : member) : list string :=
  let '(field_name, _, _) := m in
  let f := py_str field_name in
  [ "min(" +:+ f +:+ ") as min_" +:+ f; "max(" +:+ f +:+ ") as max_" +:+ f;
    "avg(" +:+ f +:+ ") as avg_" +:+ f;
    "count(" +:+ f +:+ ") as count_" +:+ f ].

Definition numeric_row (stat_values : json) (m : member) : res string :=
  let '(field_name, _, field_type) := m in
  let f := py_str field_name in
  min_val <- py_get stat_values ("min_" +:+ f) (JStr "N/A") ;;
  max_val <- py_get stat_values ("max_" +:+ f) (JStr "N/A") ;;
  avg_val <- py_get stat_values ("avg_" +:+ f) (JStr "N/A") ;;
  count <- py_get stat_values ("count_" +:+ f) (JStr "N/A") ;;
  Ok ("| " +:+ field_cell m +:+ " | " +:+ py_str field_type +:+ " | "
      +:+ py_str count +:+ " | " +:+ py_str min_val +:+ " | "
      +:+ py_str max_val +:+ " | " +:+ py_str avg_val +:+ " |").

Definition numeric_section (dataset_id : string) (ms : list member)
  : M (list string) :=
  match ms with
  | [] => ret []
  | _ :: _ =>
      stat_values <~
        try_except
          (stats <~
             OdsApiClient.get_dataset_records dataset_id
               (Some (join ", " (flat_map numeric_clauses ms)))
               None None None 10 0 ;;
           lift (
             if truthy stats
             then
               c <- py_contains "results" stats ;;
               if c
               then (r <- py_get stats "results" (JList [JDict []]) ;;
                     py_index0 r)
               else Ok (JDict [])
             else Ok (JDict [])))
          (fun _ => ret (JDict [])) ;;
      rows <~ lift (traverse (numeric_row stat_values) ms) ;;
      ret ([ nl +:+ "### Numeric Fields";
             "| Field | Type | Count | Min | Max | Average |";
             "| --- | --- | --- | --- | --- | --- |" ] ++ rows)
  end.

Definition text_row (dataset_id : string) (total_records : json) (m : member)
  : M string :=
  let '(field_name, _, _) := m in
  let f := py_str field_name in
  cells <~
    try_except
      (distinct_result <~
         OdsApiClient.get_dataset_records dataset_id
           (Some ("count(distinct " +:+ f +:+ ") as distinct_count, count("
                  +:+ f +:+ ") as count"))
           None None None 10 0 ;;
       lift (
         distinct_count <-
           first_result distinct_result "distinct_count" (JStr "N/A") ;;
         field_count <- first_result distinct_result "count" (JInt 0) ;;
         Ok (py_str distinct_count, fill_rate_str field_count total_records)))
      (fun _ => ret ("N/A", "N/A")) ;;
  ret ("| " +:+ field_cell m +:+ " | " +:+ fst cells +:+ " | "
       +:+ snd cells +:+ " |").

Definition date_row (dataset_id : string) (total_records : json) (m : member)
  : M string :=
  let '(field_name, _, _) := m in
  let f := py_str field_name in
  cells <~
    try_except
      (date_result <~
         OdsApiClient.get_dataset_records dataset_id
           (Some ("min(" +:+ f +:+ ") as min_date, max(" +:+ f
                  +:+ ") as max_date, count(" +:+ f +:+ ") as count"))
           None None None 10 0 ;;
       lift (
         min_date <- first_result date_result "min_date" (JStr "N/A") ;;
         max_date <- first_result date_result "max_date" (JStr "N/A") ;;
         field_count <- first_result date_result "count" (JInt 0) ;;
         Ok (py_str min_date, py_str max_date,
             fill_rate_str field_count total_records)))
      (fun _ => ret ("N/A", "N/A", "N/A")) ;;
  let '(min_date, max_date, fill_rate) := cells in
  ret ("| " +:+ field_cell m +:+ " | " +:+ min_date +:+ " | " +:+ max_date
       +:+ " | " +:+ fill_rate +:+ " |").

Definition geo_row (dataset_id : string) (total_records : json) (m : member)
  : M string :=
  let '(field_name, _, field_type) := m in
  let f := py_str field_name in
  fill_rate <~
    try_except
      (geo_result <~
         OdsApiClient.get_dataset_records dataset_id
           (Some ("count(" +:+ f +:+ ") as count")) None None None 10 0 ;;
       lift (
         field_count <- first_result geo_result "count" (JInt 0) ;;
         Ok (fill_rate_str field_count total_records)))
      (fun _ => ret "N/A") ;;
  ret ("| " +:+ field_cell m +:+ " | " +:+ py_str field_type +:+ " | "
       +:+ fill_rate +:+ " |").

Definition other_row (m : member) : string :=
  let '(_, _, field_type) := m in
  "| " +:+ field_cell m +:+ " | " +:+ py_str field_type +:+ " |".

Definition count_line (label : string) (ms : list member) : string :=
  "- **" +:+ label +:+ "**: " +:+ int_str (Z.of_nat (List.length ms)).

(** The text section; it is the one that first assigns [total_records]. *)
Definition text_section (dataset_id : string) (ms : list member)
  (total : option json) : M (list string * option json) :=
  match ms with
  | [] => ret ([], total)
  | _ :: _ =>
      total_records <~ total_lookup dataset_id ;;
      rows <~ mtraverse (text_row dataset_id total_records) ms ;;
      ret ([ nl +:+ "### Text Fields";
             "| Field | Distinct Values | Fill Rate |";
             "| --- | --- | --- |" ] ++ rows,
           Some total_records)
  end.

Definition date_section (dataset_id : string) (ms : list member)
  (total : option json) : M (list string * option json) :=
  match ms with
  | [] => ret ([], total)
  | _ :: _ =>
      total_records <~ total_for_section dataset_id total ;;
      rows <~ mtraverse (date_row dataset_id total_records) ms ;;
      ret ([ nl +:+ "### Date Fields";
             "| Field | Earliest Date | Latest Date | Fill Rate |";
             "| --- | --- | --- | --- |" ] ++ rows,
           Some total_records)
  end.

Definition geo_section (dataset_id : string) (ms : list member)
  (total : option json) : M (list string) :=
  match ms with
  | [] => ret []
  | _ :: _ =>
      total_records <~ total_for_section dataset_id total ;;
      rows <~ mtraverse (geo_row dataset_id total_records) ms ;;
      ret ([ nl +:+ "### Geographic Fields";
             "| Field | Type | Fill Rate |";
             "| --- | --- | --- |" ] ++ rows)
  end.

Definition other_section (ms : list member) : list string :=
  match ms with
  | [] => []
  | _ :: _ =>
      [nl +:+ "### Other Fields"; "| Field | Type |"; "| --- | --- |"]
      ++ map other_row ms
  end.

Definition generate_dataset_statistics (dataset_id : string) : M string :=
  or_return (get_dataset dataset_id)
    (fun e => "Error retrieving dataset information: " +:+ exn_str e)
    (fun dataset_info =>
       if negb (truthy dataset_info)
       then ret ("Dataset with ID '" +:+ dataset_id +:+ "' not found.")
       else
         dataset_title <~
           lift (metas_default dataset_info "title"
                   (JStr "Unknown Dataset")) ;;
         fields <~ lift (py_get dataset_info "fields" (JList [])) ;;
         if negb (truthy fields)
         then ret ("No fields found for dataset '" +:+ dataset_id +:+ "'.")
         else
           items <~ lift (py_iter fields) ;;
           classified <~ lift (traverse classify items) ;;
           let output :=
             [ "# Dataset Statistics: " +:+ py_str dataset_title;
               nl +:+ "Dataset ID: " +:+ dataset_id;
               nl +:+ "## Field Count by Type";
               count_line "Numeric Fields" (members Numeric classified);
               count_line "Text Fields" (members Text classified);
               count_line "Date Fields" (members Date classified);
               count_line "Geographic Fields" (members Geo classified);
               count_line "Other Fields" (members Other classified);
               nl +:+ "## Detailed Field Information" ] in
           numeric <~ numeric_section dataset_id (members Numeric classified) ;;
           text <~ text_section dataset_id (members Text classified) None ;;
           date <~ date_section dataset_id (members Date classified)
                     (snd text) ;;
           geo <~ geo_section dataset_id (members Geo classified) (snd date) ;;
           ret (join nl
                  (output ++ numeric ++ fst text ++ fst date ++ geo
                   ++ other_section (members Other classified)))).

End Tools.
Section MoreTools.
Context {fr : FloatRepr}.

(** Can [v] be a [dict] key?  Lists and dicts are unhashable. *)
Definition hashable (v : json) : res json :=
  if is_container v
  then Raise (Exn TypeError ("unhashable type: '" +:+ type_name v +:+ "'"))
  else Ok v.

(** [counts[key] = counts.get(key, 0) + 1] on a dict in insertion order,
    keys being compared with [==]. *)
Fixpoint count_key (key : json) (counts : list (json * Z))
  : list (json * Z) :=
  match counts with
  | [] => [(key, 1%Z)]
  | (k, n) :: rest =>
      if py_eq k key then (k, (n + 1)%Z) :: rest
      else (k, n) :: count_key key rest
  end.

(** The loop of [summarize_dataset] over the fields: the schema lines and
    the dict [field_types]. *)
Fixpoint schema_loop (fields : list json) (field_types : list (json * Z))
  : res (list string * list (json * Z)) :=
  match fields with
  | [] => Ok ([], field_types)
  | field :: rest =>
      name <- py_get field "name" (JStr "Unnamed") ;;
      field_type <- py_get field "type" (JStr "Unknown") ;;
      key <- hashable field_type ;;
      label <- py_get field "label" name ;;
      r <- schema_loop rest (count_key key field_types) ;;
      Ok (("- **" +:+ py_str label +:+ "** (" +:+ py_str name +:+ "): "
           +:+ py_str field_type) :: fst r,
          snd r)
  end.

(** The lines of one sample record. *)
Definition sample_entry (item : Z * json) : res (list string) :=
  let '(i, record) := item in
  items <- py_items record ;;
  Ok ((nl +:+ "### Record " +:+ int_str i)
      :: map (fun kv => "- **" +:+ fst kv +:+ "**: " +:+ display (snd kv))
           items).

(** The sample lookup; any failure gives no sample. *)
Definition sample_lookup (dataset_id : string) : M json :=
  try_except
    (records_data <~
       OdsApiClient.get_dataset_records dataset_id None None None None 5 0 ;;
     lift (py_get records_data "results" (JList [])))
    (fun _ => ret (JList [])).

Definition summarize_dataset (dataset_id : string) : M string :=
  or_return (get_dataset dataset_id)
    (fun e => "Error retrieving dataset information: " +:+ exn_str e)
    (fun dataset_info =>
       if negb (truthy dataset_info)
       then ret ("Dataset with ID '" +:+ dataset_id +:+ "' not found.")
       else
         head <~
           lift (
             metas0 <- py_get dataset_info "metas" (JDict []) ;;
             metas <- py_get metas0 "default" (JDict []) ;;
             title <- py_get metas "title" (JStr "Untitled Dataset") ;;
             publisher <-
               py_get metas "publisher" (JStr "Unknown Publisher") ;;
             description <-
               py_get metas "description"
                 (JStr "No description available.") ;;
             records_count <- py_get metas "records_count" (JStr "Unknown") ;;
             theme <- summary_theme metas ;;
             license <- py_get metas "license" (JStr "Unknown License") ;;
             description <- strip_tags description ;;
             fields <- py_get dataset_info "fields" (JList []) ;;
             Ok (title, publisher, description, records_count, theme,
                 license, fields)) ;;
         let '(title, publisher, description, records_count, theme, license,
               fields) := head in
         sample_records <~ sample_lookup dataset_id ;;
         lift (
           n <- py_len fields ;;
           items <- py_iter fields ;;
           schema <- schema_loop items [] ;;
           samples <-
             (if truthy sample_records
              then
                records <- py_iter sample_records ;;
                entries <- for_each sample_entry (enumerate 1 records) ;;
                Ok ((nl +:+ "## Sample Records (5 of "
                     +:+ py_str records_count +:+ ")") :: entries)
              else Ok []) ;;
           Ok (join nl
                 ([ "# Dataset Summary: " +:+ py_str title;
                    nl +:+ "## Basic Information";
                    "- **Dataset ID**: " +:+ dataset_id;
                    "- **Publisher**: " +:+ py_str publisher;
                    "- **Theme**: " +:+ py_str theme;
                    "- **License**: " +:+ py_str license;
                    "- **Records Count**: " +:+ py_str records_count;
                    nl +:+ "## Description";
                    description;
                    nl +:+ "## Schema (" +:+ int_str n +:+ " fields)" ]
                  ++ fst schema
                  ++ [nl +:+ "## Field Type Distribution"]
                  ++ map (fun kc => "- " +:+ py_str (fst kc) +:+ ": "
                                    +:+ int_str (snd kc) +:+ " fields")
                       (snd schema)
                  ++ samples)))).

End MoreTools.
End analysis_tools.

(** ** Notions used to state the properties *)

Module Spec.
Import Common.
Import OdsApiClient.


(** [dataset] is an object whose [metas.default] is the object [default]. *)
Definition has_default (dataset : json) (default : list (string * json))
  : Prop :=
  exists d metas,
    dataset = JDict d
    /\ lookup "metas" d = Some (JDict metas)
    /\ lookup "default" metas = Some (JDict default).

(** The request [search_datasets] and [list_datasets_by_publisher] make. *)
Definition catalog_request (search publisher : option string) (limit : Z)
  : request :=
  Request "/catalog/datasets"
    (Some (list_datasets_params search publisher None None limit 0)).

(** The request the tool [get_dataset_records] makes first. *)
Definition records_request (dataset_id : string)
  (select where_ group_by order_by : option string) (limit offset : Z)
  : request :=
  Request ("/catalog/datasets/" +:+ dataset_id +:+ "/records")
    (Some (set_if "order_by" order_by
             (set_if "group_by" group_by
                (set_if "where" where_
                   (set_if "select" select
                      [("limit", PInt limit); ("offset", PInt offset)]))))).

(** The schema request. *)
Definition dataset_request (dataset_id : string) : request :=
  Request ("/catalog/datasets/" +:+ dataset_id) None.

Section Layout.
Context {fr : FloatRepr}.

(** The text of the cell of [record] under [key]: empty when the record
    has no such key. *)
Definition cell_text (record : list (string * json)) (key : string) : string :=
  match lookup key record with
  | Some v => display v
  | None => ""
  end.

(** The cells of the row of [record], one per column. *)
Definition row_cells (keys : list string) (record : list (string * json))
  : list string :=
  map (cell_text record) keys.

(** A markdown table with columns [keys] and one row per record. *)
Definition table_text (keys : list string)
  (records : list (list (string * json))) : list string :=
  (nl +:+ query_tools.table_row keys)
  :: query_tools.table_row (repeat "---" (List.length keys))
  :: map (fun r => query_tools.table_row (row_cells keys r)) records.

(** The key/value listing of one record. *)
Definition listing_text (item : Z * list (string * json)) : list string :=
  (nl +:+ "Record " +:+ int_str (fst item) +:+ ":")
  :: map (fun kv => "  " +:+ fst kv +:+ ": " +:+ display (snd kv)) (snd item).

(** The key/value listing of all the records, under its heading. *)
Definition listing_all (records : list (list (string * json))) : list string :=
  match records with
  | [] => []
  | first :: _ =>
      (nl +:+ "Found " +:+ int_str (Z.of_nat (List.length first))
       +:+ " fields in the records. Here's a summary of the first "
       +:+ int_str (Z.of_nat (List.length records)) +:+ " records:")
      :: List.concat (map listing_text (enumerate 1 records))
  end.

(** The count a facet value is sorted by. *)
Definition count_of (value : list (string * json)) : json :=
  match lookup "count" value with
  | Some c => c
  | None => JInt 0
  end.

(** [a] comes before [b] in descending order of count. *)
Definition count_ge (a b : list (string * json)) : Prop :=
  (num (count_of b) <= num (count_of a))%Q.

(** The table row of a facet value. *)
Definition facet_row_text (value : list (string * json)) : string :=
  "| "
  +:+ py_str (match lookup "name" value with
              | Some v => v | None => JStr "N/A" end)
  +:+ " | " +:+ py_str (count_of value) +:+ " | "
  +:+ py_str (match lookup "state" value with
              | Some v => v | None => JStr "N/A" end)
  +:+ " |".


End Layout.

(** The width of a range. *)
Definition range_width (min_val max_val : Q) : Q :=
  ((max_val - min_val) / 10)%Q.

(** The test the filter of range [i] expresses on a value [v]. *)
Definition in_range (min_val max_val : Q) (i : Z) (v : Q) : Prop :=
  (analysis_tools.range_lower min_val (range_width min_val max_val) i <= v)%Q
  /\ if (i =? 9)%Z
     then (v <= analysis_tools.range_upper min_val
                  (range_width min_val max_val) i)%Q
     else (v < analysis_tools.range_upper min_val
                 (range_width min_val max_val) i)%Q.


(** The name a field description carries ([None] when it has none). *)
Definition name_of (field : list (string * json)) : json :=
  match lookup "name" field with
  | Some v => v
  | None => JNull
  end.

(** The type a field description carries (the empty string when it has
    none). *)
Definition type_of (field : list (string * json)) : json :=
  match lookup "type" field with
  | Some v => v
  | None => JStr ""
  end.

(** The first field description named [field_name] in a schema. *)
Definition field_named (field_name : string)
  (fields : list (list (string * json))) : option (list (string * json)) :=
  find (fun f => eq_str (name_of f) field_name) fields.

(** Descending order of the sort keys of a keyed list. *)
Definition key_ge {A : Type} (a b : json * A) : Prop :=
  (num (fst b) <= num (fst a))%Q.




(** A coroutine only ever adds requests to those already issued. *)
Definition extends {A : Type} (c : M A) : Prop :=
  forall srv log, exists more, snd (c srv log) = log ++ more.

(** The first request a coroutine issues is [r], whatever the remote. *)
Definition starts_with {A : Type} (c : M A) (r : request) : Prop :=
  forall srv log, exists more, snd (c srv log) = log ++ r :: more.

End Spec.

(** ** Concrete remotes and documents *)

Module Examples.
Import OdsApiClient.

(** A float printer to run the tools with on concrete documents: the value
    cut to one decimal, which is the text Python prints for the floats met
    in the examples ([0.0], [10.0], ...). *)
Definition tenths_repr : FloatRepr :=
  fun q =>
    let n := Qfloor (Qabs q * 10) in
    (if Qlt_bool q 0 then "-" else "")
    +:+ int_str (n / 10) +:+ "." +:+ int_str (n mod 10).

(** The remote that refuses every connection. *)
Definition refusing : remote :=
  fun _ _ => Raise (Exn HTTPError "All connection attempts failed").

(** A dataset entry with the given default metadata. *)
Definition dataset_with (id : string) (default : list (string * json))
  : json :=
  JDict [("dataset_id", JStr id); ("metas", JDict [("default", JDict default)])].

(** A remote that answers every query with parameters by [answer] and the
    schema request by a dataset titled "Loads". *)
Definition answering (answer : json) : remote :=
  fun _ r =>
    match req_params r with
    | Some _ => Ok answer
    | None =>
        Ok (JDict [("metas", JDict [("default",
                                     JDict [("title", JStr "Loads")])])])
    end.

(** The two records of the table example. *)
Definition two_records : list (list (string * json)) :=
  [ [("a", JInt 1); ("b", JInt 2)]; [("a", JInt 3)] ].

(** One record with eleven fields. *)
Definition wide_record : list (string * json) :=
  [ ("k1", JInt 1); ("k2", JInt 2); ("k3", JInt 3); ("k4", JInt 4);
    ("k5", JInt 5); ("k6", JInt 6); ("k7", JInt 7); ("k8", JInt 8);
    ("k9", JInt 9); ("k10", JInt 10); ("k11", JInt 11) ].

(** A records response. *)
Definition results_of (records : list (list (string * json))) : json :=
  JDict [("total_count", JInt (Z.of_nat (List.length records)));
         ("results", JList (map JDict records))].

(** The schema of a dataset with a numeric and a geographic field. *)
Definition loads_fields : list (list (string * json)) :=
  [ [("name", JStr "price"); ("type", JStr "double"); ("label", JStr "Price")];
    [("name", JStr "loc"); ("type", JStr "geo_point_2d")] ].

Definition loads_info : list (string * json) :=
  [ ("metas", JDict [("default", JDict [("title", JStr "Loads")])]);
    ("fields", JList (map JDict loads_fields)) ].

(** A remote that answers the schema request by [loads_info] and every
    query with parameters by [answer]. *)
Definition loads_remote (answer : json) : remote :=
  fun _ r =>
    match req_params r with
    | Some _ => Ok answer
    | None => Ok (JDict loads_info)
    end.

(** The integers from [start], [n] of them. *)
Fixpoint count_up (start : Z) (n : nat) : list Z :=
  match n with
  | O => []
  | S n' => start :: count_up (start + 1) n'
  end.

(** A facet ["city"] with [n] values, the [i]-th occurring [i] times. *)
Definition city_values (n : nat) : list (list (string * json)) :=
  map (fun i => [("name", JStr ("v" +:+ int_str i)); ("count", JInt i);
                 ("state", JStr "displayed")])
    (count_up 1 n).

Definition city_facet (n : nat) : list (string * json) :=
  [("name", JStr "city"); ("facets", JList (map JDict (city_values n)))].

(** The statistics of a field ranging from 0 to 100. *)
Definition price_stats : json :=
  JDict [("results",
          JList [JDict [("min", JInt 0); ("max", JInt 100); ("avg", JInt 50);
                        ("count", JInt 7)]])].

(** The filter a request carries. *)
Definition where_of (r : request) : option string :=
  match req_params r with
  | Some ps => option_map param_str (lookup "where" ps)
  | None => None
  end.

End Examples.

(** ** Further notions used to state the properties *)

Module Behaviour.
Import Common.
Import OdsApiClient.

(** [k] slashes. *)
Fixpoint slashes (k : nat) : string :=
  match k with
  | O => ""
  | S k' => String "/" (slashes k')
  end.

(** The last character of a string. *)
Fixpoint last_char (s : string) : option ascii :=
  match s with
  | EmptyString => None
  | String c EmptyString => Some c
  | String _ s' => last_char s'
  end.

(** The number of occurrences of a character. *)
Fixpoint count_char (c : ascii) (s : string) : nat :=
  match s with
  | EmptyString => 0
  | String c' s' => (if (c' =? c)%char then 1 else 0) + count_char c s'
  end.

(** The characters a quoted value is made of. *)
Definition quoted_char (c : ascii) : bool :=
  always_safe c || (c =? "+")%char || (c =? "%")%char.

Fixpoint all_chars (p : ascii -> bool) (s : string) : bool :=
  match s with
  | EmptyString => true
  | String c s' => p c && all_chars p s'
  end.

(** [if arg: params[key] = arg], as the list of what is added. *)
Definition clause (key : string) (o : option string) : params :=
  match given o with
  | Some s => [(key, PStr s)]
  | None => []
  end.

(** The response holds nothing under [key]: it is a false value, or an
    object where [key] is missing or bound to a false value. *)
Definition holds_nothing (response : json) (key : string) : Prop :=
  truthy response = false
  \/ exists r,
       response = JDict r
       /\ (lookup key r = None
           \/ exists v, lookup key r = Some v /\ truthy v = false).

(** A coroutine issues at most [n] requests, whatever the remote. *)
Definition at_most {A : Type} (n : nat) (c : M A) : Prop :=
  forall srv log,
    exists more, snd (c srv log) = log ++ more /\ (List.length more <= n)%nat.

(** The entry of [field_groups] made for a field description. *)
Definition member_of (f : list (string * json)) : analysis_tools.member :=
  let name := match lookup "name" f with Some v => v | None => JStr "" end in
  (name, match lookup "label" f with Some v => v | None => name end,
   Spec.type_of f).

(** Does the type of a field description put it in group [g]? *)
Definition in_group (g : analysis_tools.group) (f : list (string * json))
  : bool :=
  analysis_tools.group_eqb (analysis_tools.group_of (Spec.type_of f)) g.

(** The sum of the counts of a [field_types] dict. *)
Definition total (counts : list (json * Z)) : Z :=
  fold_right Z.add 0%Z (map snd counts).

(** Does a facet value occur [q] times? *)
Definition counted (q : Q) (value : list (string * json)) : bool :=
  Qeq_bool (num (Spec.count_of value)) q.

Section Rows.
Context {fr : FloatRepr}.


End Rows.

End Behaviour.

(** ** Further concrete remotes and documents *)

Module Samples.
Import OdsApiClient.
Import Examples.

(** [str.upper] on ASCII letters. *)
Definition ascii_upper : StrUpper :=
  concat_map
    (fun c =>
       let n := nat_of_ascii c in
       if (97 <=? n)%nat && (n <=? 122)%nat
       then String (ascii_of_nat (n - 32)) ""
       else String c "").

(** The schema of a dataset whose only field is a date. *)
Definition events_fields : list (list (string * json)) :=
  [ [("name", JStr "day"); ("type", JStr "date")] ].

Definition events_info : list (string * json) :=
  [ ("fields", JList (map JDict events_fields)) ].

(** A remote that answers the schema request by [events_info] and every
    query with parameters by [answer]. *)
Definition events_remote (answer : json) : remote :=
  fun _ r =>
    match req_params r with
    | Some _ => Ok answer
    | None => Ok (JDict events_info)
    end.

(** A remote that answers the schema request by [loads_info] and fails
    on every query with parameters. *)
Definition schema_only_remote : remote :=
  fun _ r =>
    match req_params r with
    | Some _ => Raise (Exn HTTPError "All connection attempts failed")
    | None => Ok (JDict loads_info)
    end.





End Samples.

(** * Properties *)

Import Common OdsApiClient Spec Examples.

Section ListDatasets.

Lemma join_cons (sep x : string) (l : list string) :
  l <> [] -> join sep (x :: l) = x +:+ sep +:+ join sep l.
Proof. destruct l; [congruence | reflexivity]. Qed.

Lemma append_nil_r (s : string) : s +:+ "" = s.
Proof. induction s; simpl; congruence. Qed.





End ListDatasets.

(** ** Strings *)

Lemma length_append (a b : string) :
  String.length (a +:+ b) = (String.length a + String.length b)%nat.
Proof. induction a; simpl; congruence. Qed.


(** ** Failures of the primary lookup *)

Section PrimaryFailure.
Context {fr : FloatRepr}.

(** C2. When the HTTP call behind [search_datasets] or
    [list_datasets_by_publisher] raises, the tool raises the same exception
    to its caller after that one request, whereas [get_dataset_records],
    which guards its primary lookup, returns a one-line error report. *)
Theorem C2_catalog_tools_propagate_failure :
  forall (srv : remote) (log : list request) (e : exn) (limit : Z)
         (query publisher dataset_id : string),
    (srv log (catalog_request (Some query) None limit) = Raise e ->
     catalog_tools.search_datasets query limit srv log
     = (Raise e, log ++ [catalog_request (Some query) None limit]))
    /\ (srv log (catalog_request None (Some publisher) limit) = Raise e ->
        catalog_tools.list_datasets_by_publisher publisher limit srv log
        = (Raise e, log ++ [catalog_request None (Some publisher) limit]))
    /\ (forall offset select where_ order_by,
          srv log (records_request dataset_id select where_ None order_by
                     limit offset) = Raise e ->
          query_tools.get_dataset_records dataset_id limit offset select
            where_ order_by srv log
          = (Ok ("Error retrieving dataset records: " +:+ exn_str e),
             log ++ [records_request dataset_id select where_ None order_by
                       limit offset])).
Proof.
  intros srv log e limit query publisher dataset_id.
  split; [|split].
  - intros H.
    unfold catalog_tools.search_datasets, OdsApiClient.search_datasets,
      list_datasets, mbind, _make_request.
    unfold catalog_request in H. now rewrite H.
  - intros H.
    unfold catalog_tools.list_datasets_by_publisher, list_datasets, mbind,
      _make_request.
    unfold catalog_request in H. now rewrite H.
  - intros offset select where_ order_by H.
    unfold query_tools.get_dataset_records, or_return,
      OdsApiClient.get_dataset_records, _make_request.
    unfold records_request in H. now rewrite H.
Qed.

End PrimaryFailure.

Lemma C2_witness :
  @catalog_tools.search_datasets tenths_repr "demand" 10 refusing []
  = (Raise (Exn HTTPError "All connection attempts failed"),
     [catalog_request (Some "demand") None 10]).
Proof.
  apply (proj1 (@C2_catalog_tools_propagate_failure tenths_repr refusing []
                  (Exn HTTPError "All connection attempts failed") 10
                  "demand" "" "")).
  reflexivity.
Defined.

(** ** Descriptions in search results *)

Section Descriptions.
Context {fr : FloatRepr}.





End Descriptions.


(** ** Loops *)

Lemma traverse_app_raise {A B : Type} (f : A -> res B) (pre post : list A)
  (x : A) (e : exn) :
  (forall y, In y pre -> exists b, f y = Ok b) ->
  f x = Raise e ->
  traverse f (pre ++ x :: post) = Raise e.
Proof.
  intros Hpre Hx. induction pre as [|y pre IH]; simpl.
  - now rewrite Hx.
  - destruct (Hpre y (or_introl eq_refl)) as [b ->]. simpl.
    rewrite IH; [reflexivity |]. intros z Hz. apply Hpre. now right.
Qed.

Lemma enumerate_app {A : Type} (start : Z) (pre post : list A) :
  enumerate start (pre ++ post)
  = enumerate start pre
    ++ enumerate (start + Z.of_nat (List.length pre)) post.
Proof.
  revert start. induction pre as [|x pre IH]; intros start; simpl.
  - now rewrite Z.add_0_r.
  - rewrite IH. do 3 f_equal. lia.
Qed.

Lemma enumerate_In {A : Type} (start : Z) (l : list A) (item : Z * A) :
  In item (enumerate start l) -> In (snd item) l.
Proof.
  revert start. induction l as [|x l IH]; intros start; simpl; [tauto |].
  intros [<- | H]; [now left | right; eauto].
Qed.

Lemma lookup_some_truthy (k : string) (d : list (string * json)) (v : json) :
  lookup k d = Some v -> truthy (JDict d) = true.
Proof. destruct d; simpl; [discriminate | reflexivity]. Qed.

Lemma lacks_present (r : list (string * json)) (key : string) (v : json) :
  lookup key r = Some v ->
  lacks (JDict r) key = Ok (negb (truthy v)).
Proof.
  intros H. unfold lacks. rewrite (lookup_some_truthy _ _ _ H).
  simpl. now rewrite H.
Qed.

(** ** Themes in publisher listings *)

Section Themes.
Context {fr : FloatRepr}.

(** C9. In [list_datasets_by_publisher], a dataset whose default metadata
    binds ["theme"] to the empty list makes the theme extraction raise an
    [IndexError] that nothing catches, so the tool raises instead of
    returning a report; the fallback list applies only when the key is
    absent, in which case the entry is produced without theme. *)
Theorem C9_empty_theme_raises_index_error :
  (forall i dataset df,
     has_default dataset df ->
     lookup "theme" df = Some (JList []) ->
     catalog_tools.publisher_entry (i, dataset)
     = Raise (Exn IndexError "list index out of range"))
  /\ (forall i dataset df,
        has_default dataset df ->
        lookup "theme" df = None ->
        exists first,
          catalog_tools.publisher_entry (i, dataset)
          = Ok [first;
                "   Records: "
                +:+ py_str (match lookup "records_count" df with
                            | Some v => v
                            | None => JStr "Unknown"
                            end)])
  /\ (forall srv log publisher limit r pre dataset post df,
        srv log (catalog_request None (Some publisher) limit)
        = Ok (JDict r) ->
        lookup "results" r = Some (JList (pre ++ dataset :: post)) ->
        (forall j x, In x pre ->
                     exists lines,
                       catalog_tools.publisher_entry (j, x) = Ok lines) ->
        has_default dataset df ->
        lookup "theme" df = Some (JList []) ->
        catalog_tools.list_datasets_by_publisher publisher limit srv log
        = (Raise (Exn IndexError "list index out of range"),
           log ++ [catalog_request None (Some publisher) limit])).
Proof.
  assert (Hentry : forall i dataset df,
             has_default dataset df ->
             lookup "theme" df = Some (JList []) ->
             catalog_tools.publisher_entry (i, dataset)
             = Raise (Exn IndexError "list index out of range")).
  { intros i dataset df (d & metas & -> & Hm & Hd) Ht.
    unfold catalog_tools.publisher_entry, metas_default.
    cbn [py_get bind]. rewrite Hm. cbn [py_get bind]. rewrite Hd.
    cbn [py_get bind]. now rewrite Ht. }
  split; [exact Hentry | split].
  - intros i dataset df (d & metas & -> & Hm & Hd) Ht.
    unfold catalog_tools.publisher_entry, metas_default.
    cbn [py_get bind]. rewrite Hm. cbn [py_get bind]. rewrite Hd.
    cbn [py_get bind]. rewrite Ht. cbn [py_index0 bind truthy String.eqb negb].
    eexists. now rewrite append_nil_r.
  - intros srv log publisher limit r pre dataset post df Hsrv Hres Hpre Hdef Ht.
    unfold catalog_tools.list_datasets_by_publisher, list_datasets, mbind,
      _make_request, lift.
    unfold catalog_request in Hsrv. rewrite Hsrv.
    rewrite (lacks_present _ _ _ Hres).
    assert (Htr : truthy (JList (pre ++ dataset :: post)) = true)
      by (destruct pre; reflexivity).
    rewrite Htr. cbn [negb bind py_get py_subscript]. rewrite Hres.
    cbn [bind py_len py_iter]. unfold for_each.
    rewrite enumerate_app. simpl enumerate.
    rewrite traverse_app_raise
      with (e := Exn IndexError "list index out of range");
      [reflexivity | | now apply Hentry with df].
    intros [j x] Hin. apply (Hpre j x).
    now apply enumerate_In in Hin.
Qed.

End Themes.

Lemma C9_witness :
  @catalog_tools.publisher_entry tenths_repr
    (1%Z, dataset_with "d1" [("title", JStr "Demand"); ("theme", JList [])])
  = Raise (Exn IndexError "list index out of range").
Proof.
  apply (proj1 (@C9_empty_theme_raises_index_error tenths_repr) 1%Z
           (dataset_with "d1" [("title", JStr "Demand"); ("theme", JList [])])
           [("title", JStr "Demand"); ("theme", JList [])]).
  - unfold has_default, dataset_with. eexists _, _.
    split; [reflexivity |]. split; reflexivity.
  - reflexivity.
Defined.

(** ** Record tables and listings *)

Section Records.
Context {fr : FloatRepr}.

Lemma traverse_map_ok {A B : Type} (f : A -> res B) (g : A -> B)
  (l : list A) :
  (forall x, In x l -> f x = Ok (g x)) -> traverse f l = Ok (map g l).
Proof.
  induction l as [|x l IH]; intros H; simpl; [reflexivity |].
  rewrite (H x (or_introl eq_refl)). simpl.
  rewrite IH; [reflexivity |]. intros y Hy. apply H. now right.
Qed.

Lemma traverse_map {A B C : Type} (f : B -> res C) (h : A -> B)
  (l : list A) :
  traverse f (map h l) = traverse (fun x => f (h x)) l.
Proof. induction l as [|x l IH]; simpl; [reflexivity | now rewrite IH]. Qed.

Lemma enumerate_map {A B : Type} (h : A -> B) (start : Z) (l : list A) :
  enumerate start (map h l)
  = map (fun item => (fst item, h (snd item))) (enumerate start l).
Proof.
  revert start. induction l as [|x l IH]; intros start; simpl;
    [reflexivity | now rewrite IH].
Qed.

Lemma record_cell_dict (record : list (string * json)) (key : string) :
  query_tools.record_cell (JDict record) key = Ok (cell_text record key).
Proof.
  unfold query_tools.record_cell, cell_text. cbn [py_get bind].
  destruct (lookup key record); reflexivity.
Qed.

Lemma table_lines_dicts (keys : list string)
  (records : list (list (string * json))) :
  query_tools.table_lines keys (map JDict records)
  = Ok (table_text keys records).
Proof.
  unfold query_tools.table_lines, table_text.
  rewrite traverse_map.
  rewrite traverse_map_ok
    with (g := fun r => query_tools.table_row (row_cells keys r));
    [reflexivity |].
  intros r _. unfold query_tools.record_row.
  rewrite traverse_map_ok with (g := cell_text r); [reflexivity |].
  intros k _. apply record_cell_dict.
Qed.

Lemma listing_lines_dicts (keys : list string) (first : list (string * json))
  (rest : list (list (string * json))) :
  List.length keys = List.length first ->
  query_tools.listing_lines keys
    (Z.of_nat (List.length (first :: rest))) (map JDict (first :: rest))
  = Ok (listing_all (first :: rest)).
Proof.
  intros Hk. unfold query_tools.listing_lines, listing_all, for_each.
  rewrite enumerate_map, traverse_map.
  rewrite traverse_map_ok with (g := listing_text).
  - cbn [bind]. now rewrite Hk.
  - intros [i r] _. reflexivity.
Qed.

Lemma dataset_title_total (dataset_id : string) (srv : remote)
  (log : list request) :
  exists title,
    query_tools.dataset_title dataset_id srv log
    = (Ok title, log ++ [dataset_request dataset_id]).
Proof.
  unfold query_tools.dataset_title, try_except, mbind, get_dataset,
    _make_request, lift, ret, dataset_request.
  destruct (srv log _) as [info | e]; [| eauto].
  destruct (metas_default info "title" (JStr "Unknown Dataset")); eauto.
Qed.

Lemma get_dataset_records_layout (srv : remote) (log : list request)
  (dataset_id : string) (limit offset : Z)
  (select where_ order_by : option string)
  (r first : list (string * json)) (rest : list (list (string * json))) :
  srv log (records_request dataset_id select where_ None order_by limit offset)
  = Ok (JDict r) ->
  lookup "results" r = Some (JList (map JDict (first :: rest))) ->
  exists head,
    List.length head = 2%nat
    /\ query_tools.get_dataset_records dataset_id limit offset select where_
         order_by srv log
       = (Ok (join nl
                (head
                 ++ (if (10 <? List.length first)%nat
                     then listing_all (first :: rest)
                     else table_text (map fst first) (first :: rest))
                 ++ query_tools.odsql_note select where_ order_by)),
          log ++ [records_request dataset_id select where_ None order_by
                    limit offset;
                  dataset_request dataset_id]).
Proof.
  intros Hsrv Hres.
  unfold query_tools.get_dataset_records, or_return,
    OdsApiClient.get_dataset_records, _make_request.
  unfold records_request in Hsrv. rewrite Hsrv.
  unfold mbind at 1. unfold lift at 1.
  rewrite (lacks_present _ _ _ Hres). cbn [truthy map negb].
  unfold mbind at 1. unfold lift at 1. cbn [py_subscript]. rewrite Hres.
  unfold mbind at 1. unfold lift at 1. cbn [py_get].
  unfold mbind at 1.
  destruct (dataset_title_total dataset_id srv
              (log ++ [records_request dataset_id select where_ None order_by
                         limit offset])) as [title Ht].
  unfold records_request in Ht. rewrite Ht.
  unfold lift. cbn [py_len bind truthy map negb py_index0 py_keys py_iter].
  rewrite <- app_assoc. cbn [app].
  change (JDict first :: map JDict rest) with (map JDict (first :: rest)).
  rewrite !length_map.
  eexists [_; _]. split; [reflexivity |].
  destruct (10 <? List.length first)%nat.
  - rewrite listing_lines_dicts by apply length_map.
    reflexivity.
  - rewrite table_lines_dicts. reflexivity.
Qed.

Lemma get_dataset_aggregates_layout (srv : remote) (log : list request)
  (dataset_id select : string) (group_by where_ : option string) (limit : Z)
  (r first : list (string * json)) (rest : list (list (string * json))) :
  srv log (records_request dataset_id (Some select) where_ group_by None
             limit 0)
  = Ok (JDict r) ->
  lookup "results" r = Some (JList (map JDict (first :: rest))) ->
  exists head,
    List.length head = 3%nat
    /\ query_tools.get_dataset_aggregates dataset_id select group_by where_
         limit srv log
       = (Ok (join nl
                (head ++ table_text (map fst first) (first :: rest))),
          log ++ [records_request dataset_id (Some select) where_ group_by
                    None limit 0;
                  dataset_request dataset_id]).
Proof.
  intros Hsrv Hres.
  unfold query_tools.get_dataset_aggregates, or_return,
    OdsApiClient.get_dataset_records, _make_request.
  unfold records_request in Hsrv. rewrite Hsrv.
  unfold mbind at 1. unfold lift at 1.
  rewrite (lacks_present _ _ _ Hres). cbn [truthy map negb].
  unfold mbind at 1. unfold lift at 1. cbn [py_subscript]. rewrite Hres.
  unfold mbind at 1.
  destruct (dataset_title_total dataset_id srv
              (log ++ [records_request dataset_id (Some select) where_
                         group_by None limit 0])) as [title Ht].
  unfold records_request in Ht. rewrite Ht.
  unfold lift. cbn [py_len bind truthy map negb py_index0 py_keys py_iter].
  rewrite <- app_assoc. cbn [app].
  change (JDict first :: map JDict rest) with (map JDict (first :: rest)).
  rewrite !length_map.
  eexists [_; _; _]. split; [reflexivity |].
  rewrite table_lines_dicts. reflexivity.
Qed.

(** C5. In [get_dataset_records] the layout follows the number of fields of
    the first record: more than 10 gives the per-record key/value listing,
    10 or fewer the pipe-delimited table.  [get_dataset_aggregates] renders
    the table whatever the number of fields. *)
Theorem C5_layout_by_field_count :
  forall (srv : remote) (log : list request) (dataset_id : string)
         (limit : Z) (r first : list (string * json))
         (rest : list (list (string * json))),
    lookup "results" r = Some (JList (map JDict (first :: rest))) ->
    (forall offset select where_ order_by,
       srv log (records_request dataset_id select where_ None order_by
                  limit offset) = Ok (JDict r) ->
       exists head,
         List.length head = 2%nat
         /\ ((10 < List.length first)%nat ->
             fst (query_tools.get_dataset_records dataset_id limit offset
                    select where_ order_by srv log)
             = Ok (join nl (head ++ listing_all (first :: rest)
                            ++ query_tools.odsql_note select where_ order_by)))
         /\ ((List.length first <= 10)%nat ->
             fst (query_tools.get_dataset_records dataset_id limit offset
                    select where_ order_by srv log)
             = Ok (join nl (head
                            ++ table_text (map fst first) (first :: rest)
                            ++ query_tools.odsql_note select where_
                                 order_by))))
    /\ (forall select group_by where_,
          srv log (records_request dataset_id (Some select) where_ group_by
                     None limit 0) = Ok (JDict r) ->
          exists head,
            List.length head = 3%nat
            /\ fst (query_tools.get_dataset_aggregates dataset_id select
                      group_by where_ limit srv log)
               = Ok (join nl (head
                              ++ table_text (map fst first) (first :: rest)))).
Proof.
  intros srv log dataset_id limit r first rest Hres. split.
  - intros offset select where_ order_by Hsrv.
    destruct (get_dataset_records_layout srv log dataset_id limit offset
                select where_ order_by r first rest Hsrv Hres)
      as (head & Hlen & Hrun).
    exists head. split; [exact Hlen |]. rewrite Hrun. cbn [fst].
    split; intros H.
    + apply Nat.ltb_lt in H. now rewrite H.
    + apply Nat.ltb_ge in H. now rewrite H.
  - intros select group_by where_ Hsrv.
    destruct (get_dataset_aggregates_layout srv log dataset_id select
                group_by where_ limit r first rest Hsrv Hres)
      as (head & Hlen & Hrun).
    exists head. split; [exact Hlen |]. now rewrite Hrun.
Qed.

End Records.

Lemma C5_counterexample :
  (10 < List.length wide_record)%nat
  /\ fst (@query_tools.get_dataset_aggregates tenths_repr "loads" "*"
            None None 100 (answering (results_of [wide_record])) [])
     = Ok (join nl
             [ "Aggregation results for dataset: Loads (ID: loads)";
               "Query: SELECT *";
               "Results: 1 rows";
               nl +:+ "| k1 | k2 | k3 | k4 | k5 | k6 | k7 | k8 | k9 | k10 | k11 |";
               "| --- | --- | --- | --- | --- | --- | --- | --- | --- | --- | --- |";
               "| 1 | 2 | 3 | 4 | 5 | 6 | 7 | 8 | 9 | 10 | 11 |" ]).
Proof. split; [simpl; lia | vm_compute; reflexivity]. Qed.

Lemma C5_witness :
  exists head,
    List.length head = 2%nat
    /\ ((10 < List.length wide_record)%nat ->
        fst (@query_tools.get_dataset_records tenths_repr "loads" 10 0
               None None None (answering (results_of [wide_record])) [])
        = Ok (join nl (head ++ @listing_all tenths_repr [wide_record]
                       ++ query_tools.odsql_note None None None)))
    /\ ((List.length wide_record <= 10)%nat ->
        fst (@query_tools.get_dataset_records tenths_repr "loads" 10 0
               None None None (answering (results_of [wide_record])) [])
        = Ok (join nl (head
                       ++ @table_text tenths_repr (map fst wide_record) [wide_record]
                       ++ query_tools.odsql_note None None None))).
Proof.
  apply (proj1 (@C5_layout_by_field_count tenths_repr
                  (answering (results_of [wide_record])) [] "loads" 10%Z
                  [("total_count", JInt 1);
                   ("results", JList [JDict wide_record])]
                  wide_record [] eq_refl)
           0%Z None None None).
  reflexivity.
Defined.

(** ** Columns of the record tables *)

Section Tables.
Context {fr : FloatRepr}.

Lemma row_cells_nth (keys : list string) (record : list (string * json))
  (c : nat) (key : string) :
  nth_error keys c = Some key ->
  nth_error (row_cells keys record) c = Some (cell_text record key).
Proof. intros H. unfold row_cells. now apply map_nth_error. Qed.

Lemma cell_text_missing (record : list (string * json)) (key : string) :
  lookup key record = None -> cell_text record key = "".
Proof. intros H. unfold cell_text. now rewrite H. Qed.

(** C6. The table rendered for a list of records has the keys of the first
    record as its columns: the header row lists them, the separator row has
    one ["---"] per key, and every row has one cell per key, in that order,
    the cell of a key the record lacks being the empty string.  The table of
    [get_dataset_aggregates], and that of [get_dataset_records] up to 10
    fields, is this table.  For the records [{"a":1,"b":2}] and [{"a":3}]
    the second row is ["| 3 |  |"]. *)
Theorem C6_table_columns_follow_first_record :
  forall (first : list (string * json)) (rest : list (list (string * json))),
    let keys := map fst first in
    let records := first :: rest in
    query_tools.table_lines keys (map JDict records)
    = Ok ((nl +:+ query_tools.table_row keys)
          :: query_tools.table_row (repeat "---" (List.length keys))
          :: map (fun r => query_tools.table_row (row_cells keys r)) records)
    /\ List.length (repeat "---" (List.length keys)) = List.length keys
    /\ (forall record,
          In record records ->
          List.length (row_cells keys record) = List.length keys
          /\ forall c key,
               nth_error keys c = Some key ->
               nth_error (row_cells keys record) c
               = Some (cell_text record key)
               /\ (lookup key record = None ->
                   nth_error (row_cells keys record) c = Some ""))
    /\ (forall srv log dataset_id limit r lines,
          lookup "results" r = Some (JList (map JDict records)) ->
          query_tools.table_lines keys (map JDict records) = Ok lines ->
          (forall select group_by where_,
             srv log (records_request dataset_id (Some select) where_
                        group_by None limit 0) = Ok (JDict r) ->
             exists head,
               fst (query_tools.get_dataset_aggregates dataset_id select
                      group_by where_ limit srv log)
               = Ok (join nl (head ++ lines)))
          /\ (forall offset select where_ order_by,
                (List.length first <= 10)%nat ->
                srv log (records_request dataset_id select where_ None
                           order_by limit offset) = Ok (JDict r) ->
                exists head,
                  fst (query_tools.get_dataset_records dataset_id limit
                         offset select where_ order_by srv log)
                  = Ok (join nl
                          (head ++ lines
                           ++ query_tools.odsql_note select where_
                                order_by))))
    /\ query_tools.table_lines ["a"; "b"] (map JDict two_records)
       = Ok [nl +:+ "| a | b |"; "| --- | --- |"; "| 1 | 2 |"; "| 3 |  |"].
Proof.
  intros first rest keys records.
  split; [apply table_lines_dicts |].
  split; [apply repeat_length |].
  split.
  { intros record _. split; [apply length_map |].
    intros c key Hc. split; [now apply row_cells_nth |].
    intros Hmiss. rewrite (row_cells_nth _ _ _ _ Hc).
    now rewrite cell_text_missing. }
  split; [| reflexivity].
  intros srv log dataset_id limit r lines Hres Hlines.
  unfold records, keys in Hlines. rewrite table_lines_dicts in Hlines.
  injection Hlines as <-. split.
  - intros select group_by where_ Hsrv.
    destruct (get_dataset_aggregates_layout srv log dataset_id select
                group_by where_ limit r first rest Hsrv Hres)
      as (head & _ & Hrun).
    exists head. now rewrite Hrun.
  - intros offset select where_ order_by Hlen Hsrv.
    destruct (get_dataset_records_layout srv log dataset_id limit offset
                select where_ order_by r first rest Hsrv Hres)
      as (head & _ & Hrun).
    exists head. rewrite Hrun. cbn [fst].
    apply Nat.ltb_ge in Hlen. now rewrite Hlen.
Qed.

End Tables.

Lemma C6_witness :
  List.length (@row_cells tenths_repr ["a"; "b"] [("a", JInt 3)])
  = List.length ["a"; "b"]
  /\ forall c key,
       nth_error ["a"; "b"] c = Some key ->
       nth_error (@row_cells tenths_repr ["a"; "b"] [("a", JInt 3)]) c
       = Some (@cell_text tenths_repr [("a", JInt 3)] key)
       /\ (lookup key [("a", JInt 3)] = None ->
           nth_error (@row_cells tenths_repr ["a"; "b"] [("a", JInt 3)]) c
           = Some "").
Proof.
  apply (proj1 (proj2 (proj2 (@C6_table_columns_follow_first_record
                                tenths_repr
                                [("a", JInt 1); ("b", JInt 2)]
                                [[("a", JInt 3)]])))
           [("a", JInt 3)]).
  simpl. right. left. reflexivity.
Defined.

(** ** Field validation *)

Section Validation.
Context {fr : FloatRepr}.
Import analysis_tools.

Lemma find_field_dicts (field_name : string)
  (fds : list (list (string * json))) :
  find_field field_name (map JDict fds)
  = Ok (match field_named field_name fds with
        | Some f => JDict f
        | None => JNull
        end).
Proof.
  induction fds as [|f fds IH]; simpl; [reflexivity |].
  fold (name_of f). destruct (eq_str (name_of f) field_name); [reflexivity |].
  exact IH.
Qed.

Lemma field_named_truthy (field_name : string)
  (fds : list (list (string * json))) (f : list (string * json)) :
  field_named field_name fds = Some f -> truthy (JDict f) = true.
Proof.
  intros H. apply find_some in H as [_ H].
  destruct f; [discriminate H | reflexivity].
Qed.

Lemma validate_field_absent (srv : remote) (log : list request)
  (dataset_id field_name : string) (accepted : list string) (class : string)
  (info : list (string * json)) (fds : list (list (string * json))) :
  srv log (dataset_request dataset_id) = Ok (JDict info) ->
  lookup "fields" info = Some (JList (map JDict fds)) ->
  field_named field_name fds = None ->
  validate_field dataset_id field_name accepted class srv log
  = (Ok (inl ("Field '" +:+ field_name +:+ "' not found in dataset '"
              +:+ dataset_id +:+ "'.")),
     log ++ [dataset_request dataset_id]).
Proof.
  intros Hsrv Hf Hnone.
  unfold validate_field, try_except, mbind, get_dataset, _make_request, lift.
  unfold dataset_request in Hsrv. rewrite Hsrv.
  cbn [py_get bind]. rewrite Hf. cbn [py_iter bind].
  rewrite find_field_dicts, Hnone. reflexivity.
Qed.

Lemma validate_field_wrong_type (srv : remote) (log : list request)
  (dataset_id field_name : string) (accepted : list string) (class : string)
  (info f : list (string * json)) (fds : list (list (string * json))) :
  srv log (dataset_request dataset_id) = Ok (JDict info) ->
  lookup "fields" info = Some (JList (map JDict fds)) ->
  field_named field_name fds = Some f ->
  in_strs (type_of f) accepted = false ->
  validate_field dataset_id field_name accepted class srv log
  = (Ok (inl ("Field '" +:+ field_name +:+ "' is not a " +:+ class
              +:+ " field (type: " +:+ py_str (type_of f) +:+ ").")),
     log ++ [dataset_request dataset_id]).
Proof.
  intros Hsrv Hf Hsome Hty.
  unfold validate_field, try_except, mbind, get_dataset, _make_request, lift.
  unfold dataset_request in Hsrv. rewrite Hsrv.
  cbn [py_get bind]. rewrite Hf. cbn [py_iter bind].
  rewrite find_field_dicts, Hsome. cbn [bind].
  rewrite (field_named_truthy _ _ _ Hsome). cbn [negb py_get bind].
  fold (type_of f). rewrite Hty. reflexivity.
Qed.

Lemma and_then_returned {A : Type} (c : M (string + A)) (k : A -> M string)
  (srv : remote) (log log' : list request) (message : string) :
  c srv log = (Ok (inl message), log') ->
  and_then c k srv log = (Ok message, log').
Proof. intros H. unfold and_then, mbind. now rewrite H. Qed.


Lemma extends_ret {A : Type} (a : A) : extends (ret a).
Proof. intros srv log. exists []. now rewrite app_nil_r. Qed.

Lemma extends_lift {A : Type} (r : res A) : extends (lift r).
Proof. intros srv log. exists []. now rewrite app_nil_r. Qed.

Lemma extends_request (path : string) (params : option params) :
  extends (_make_request path params).
Proof. intros srv log. now eexists. Qed.

Lemma extends_bind {A B : Type} (c : M A) (k : A -> M B) :
  extends c -> (forall a, extends (k a)) -> extends (mbind c k).
Proof.
  intros Hc Hk srv log. unfold mbind.
  destruct (Hc srv log) as [m1 H1].
  destruct (c srv log) as [[a | e] log']; cbn [snd] in *; subst log'.
  - destruct (Hk a srv (log ++ m1)) as [m2 H2]. rewrite H2.
    exists (m1 ++ m2). now rewrite app_assoc.
  - now exists m1.
Qed.

Lemma extends_try {A : Type} (c : M A) (h : exn -> M A) :
  extends c -> (forall e, extends (h e)) -> extends (try_except c h).
Proof.
  intros Hc Hh srv log. unfold try_except.
  destruct (Hc srv log) as [m1 H1].
  destruct (c srv log) as [[a | e] log']; cbn [snd] in *; subst log'.
  - now exists m1.
  - destruct (Hh e srv (log ++ m1)) as [m2 H2]. rewrite H2.
    exists (m1 ++ m2). now rewrite app_assoc.
Qed.

Lemma extends_or_return {A : Type} (c : M A) (h : exn -> string)
  (k : A -> M string) :
  extends c -> (forall a, extends (k a)) -> extends (or_return c h k).
Proof.
  intros Hc Hk srv log. unfold or_return.
  destruct (Hc srv log) as [m1 H1].
  destruct (c srv log) as [[a | e] log']; cbn [snd] in *; subst log'.
  - destruct (Hk a srv (log ++ m1)) as [m2 H2]. rewrite H2.
    exists (m1 ++ m2). now rewrite app_assoc.
  - now exists m1.
Qed.

Lemma extends_mtraverse {A B : Type} (f : A -> M B) (l : list A) :
  (forall x, extends (f x)) -> extends (mtraverse f l).
Proof.
  intros Hf. induction l as [|x l IH]; simpl.
  - apply extends_ret.
  - apply extends_bind; [apply Hf | intros y].
    apply extends_bind; [exact IH | intros ys; apply extends_ret].
Qed.

Lemma extends_and_then {A : Type} (c : M (string + A)) (k : A -> M string) :
  extends c -> (forall a, extends (k a)) -> extends (and_then c k).
Proof.
  intros Hc Hk. unfold and_then. apply extends_bind; [exact Hc |].
  intros [message | a]; [apply extends_ret | apply Hk].
Qed.

(** Decompose a coroutine along its binds and handlers. *)
Ltac extends_step :=
  first
    [ apply extends_ret | apply extends_lift | apply extends_request
    | apply extends_bind | apply extends_try | apply extends_or_return
    | apply extends_and_then | apply extends_mtraverse
    | match goal with
      | |- forall _ : _ * _, _ => intros [? ?]
      | |- forall _, _ => intro
      | |- extends (if ?b then _ else _) => destruct b
      | |- extends (match ?x with _ => _ end) => destruct x
      end ].

Ltac extends_auto := repeat (cbn beta iota; extends_step).

Lemma starts_with_request (path : string) (params : option params) :
  starts_with (_make_request path params) (Request path params).
Proof. intros srv log. now exists []. Qed.

Lemma starts_with_bind {A B : Type} (c : M A) (k : A -> M B) (r : request) :
  starts_with c r -> (forall a, extends (k a)) -> starts_with (mbind c k) r.
Proof.
  intros Hc Hk srv log. unfold mbind.
  destruct (Hc srv log) as [m1 H1].
  destruct (c srv log) as [[a | e] log']; cbn [snd] in *; subst log'.
  - destruct (Hk a srv (log ++ r :: m1)) as [m2 H2]. rewrite H2.
    exists (m1 ++ m2). now rewrite <- app_assoc.
  - now exists m1.
Qed.

Lemma starts_with_try {A : Type} (c : M A) (h : exn -> M A) (r : request) :
  starts_with c r -> (forall e, extends (h e)) ->
  starts_with (try_except c h) r.
Proof.
  intros Hc Hh srv log. unfold try_except.
  destruct (Hc srv log) as [m1 H1].
  destruct (c srv log) as [[a | e] log']; cbn [snd] in *; subst log'.
  - now exists m1.
  - destruct (Hh e srv (log ++ r :: m1)) as [m2 H2]. rewrite H2.
    exists (m1 ++ m2). now rewrite <- app_assoc.
Qed.

Lemma starts_with_and_then {A : Type} (c : M (string + A))
  (k : A -> M string) (r : request) :
  starts_with c r -> (forall a, extends (k a)) ->
  starts_with (and_then c k) r.
Proof.
  intros Hc Hk. unfold and_then. apply starts_with_bind; [exact Hc |].
  intros [message | a]; [apply extends_ret | apply Hk].
Qed.

Lemma validate_field_starts (dataset_id field_name : string)
  (accepted : list string) (class : string) :
  starts_with (validate_field dataset_id field_name accepted class)
    (dataset_request dataset_id).
Proof.
  unfold validate_field. apply starts_with_try; [| extends_auto].
  apply starts_with_bind; [apply starts_with_request | extends_auto].
Qed.

Lemma extends_months_loop (dataset_id field_name : string)
  (years : list json) (month_data : list (json * json)) :
  extends (months_loop dataset_id field_name years month_data).
Proof.
  revert month_data. induction years as [|year rest IH]; intros month_data;
    simpl; [apply extends_ret |].
  apply extends_try; [| extends_auto].
  apply extends_bind; [apply extends_request | intros d].
  apply extends_bind; [apply extends_lift | intros months]. apply IH.
Qed.

Lemma analyze_numeric_field_starts (dataset_id field_name : string) :
  starts_with (analyze_numeric_field dataset_id field_name)
    (dataset_request dataset_id).
Proof.
  unfold analyze_numeric_field.
  apply starts_with_and_then; [apply validate_field_starts |].
  unfold numeric_stats, try_step, distribution, count_range.
  extends_auto.
Qed.

Lemma analyze_text_field_starts (dataset_id field_name : string) (limit : Z) :
  starts_with (analyze_text_field dataset_id field_name limit)
    (dataset_request dataset_id).
Proof.
  unfold analyze_text_field.
  apply starts_with_and_then; [apply validate_field_starts |].
  unfold value_frequency, try_step, aggregate_or.
  extends_auto.
Qed.

Lemma analyze_date_field_starts (dataset_id field_name : string) :
  starts_with (analyze_date_field dataset_id field_name)
    (dataset_request dataset_id).
Proof.
  unfold analyze_date_field.
  apply starts_with_and_then; [apply validate_field_starts |].
  unfold date_stats, try_step, years_lookup, months_lookup.
  repeat (cbn beta iota; first [apply extends_months_loop | extends_step]).
Qed.

(** C7. The numeric, text and date analyses issue the schema request first.
    When the schema has no field of the given name, or the field's type is
    not one the analysis accepts, they return a one-line message after that
    single request; for a field of type ["geo_point_2d"] the numeric
    analysis returns
    [Field '<name>' is not a numeric field (type: geo_point_2d).] and issues
    no aggregation request. *)
Theorem C7_field_validation_fails_fast :
  forall (dataset_id field_name : string) (limit : Z),
    (starts_with (analyze_numeric_field dataset_id field_name)
       (dataset_request dataset_id)
     /\ starts_with (analyze_text_field dataset_id field_name limit)
          (dataset_request dataset_id)
     /\ starts_with (analyze_date_field dataset_id field_name)
          (dataset_request dataset_id))
    /\ forall (srv : remote) (log : list request)
              (info : list (string * json))
              (fds : list (list (string * json))),
         srv log (dataset_request dataset_id) = Ok (JDict info) ->
         lookup "fields" info = Some (JList (map JDict fds)) ->
         let schema_only := log ++ [dataset_request dataset_id] in
         let not_found :=
           "Field '" +:+ field_name +:+ "' not found in dataset '"
           +:+ dataset_id +:+ "'." in
         let wrong (class : string) (ty : json) :=
           "Field '" +:+ field_name +:+ "' is not a " +:+ class
           +:+ " field (type: " +:+ py_str ty +:+ ")." in
         (forall f,
            field_named field_name fds = Some f ->
            type_of f = JStr "geo_point_2d" ->
            analyze_numeric_field dataset_id field_name srv log
            = (Ok ("Field '" +:+ field_name
                   +:+ "' is not a numeric field (type: geo_point_2d)."),
               schema_only))
         /\ (field_named field_name fds = None ->
             analyze_numeric_field dataset_id field_name srv log
             = (Ok not_found, schema_only)
             /\ analyze_text_field dataset_id field_name limit srv log
                = (Ok not_found, schema_only)
             /\ analyze_date_field dataset_id field_name srv log
                = (Ok not_found, schema_only))
         /\ (forall f,
               field_named field_name fds = Some f ->
               (in_strs (type_of f) ["int"; "double"; "decimal"; "float"]
                = false ->
                analyze_numeric_field dataset_id field_name srv log
                = (Ok (wrong "numeric" (type_of f)), schema_only))
               /\ (in_strs (type_of f) ["text"] = false ->
                   analyze_text_field dataset_id field_name limit srv log
                   = (Ok (wrong "text" (type_of f)), schema_only))
               /\ (in_strs (type_of f) ["date"; "datetime"] = false ->
                   analyze_date_field dataset_id field_name srv log
                   = (Ok (wrong "date" (type_of f)), schema_only))).
Proof.
  intros dataset_id field_name limit. split.
  { split; [apply analyze_numeric_field_starts |].
    split; [apply analyze_text_field_starts | apply analyze_date_field_starts]. }
  intros srv log info fds Hsrv Hfields schema_only not_found wrong.
  assert (Hwrong : forall accepted class f k,
             field_named field_name fds = Some f ->
             in_strs (type_of f) accepted = false ->
             and_then (validate_field dataset_id field_name accepted class) k
               srv log
             = (Ok (wrong class (type_of f)), schema_only)).
  { intros accepted class f k Hf Hty. apply and_then_returned.
    now apply validate_field_wrong_type with info fds. }
  assert (Habsent : forall accepted class k,
             field_named field_name fds = None ->
             and_then (validate_field dataset_id field_name accepted class) k
               srv log
             = (Ok not_found, schema_only)).
  { intros accepted class k Hf. apply and_then_returned.
    now apply validate_field_absent with info fds. }
  split; [| split].
  - intros f Hf Hty. unfold analyze_numeric_field.
    rewrite (Hwrong _ _ f _ Hf) by now rewrite Hty.
    unfold wrong. now rewrite Hty.
  - intros Hf. repeat split; now apply Habsent.
  - intros f Hf. repeat split; intros Hty; now apply Hwrong.
Qed.

End Validation.

Lemma C7_witness :
  @analysis_tools.analyze_numeric_field tenths_repr "loads" "loc"
    (loads_remote JNull) []
  = (Ok "Field 'loc' is not a numeric field (type: geo_point_2d).",
     [dataset_request "loads"]).
Proof.
  apply (proj1 (proj2 (@C7_field_validation_fails_fast tenths_repr
                         "loads" "loc" 20%Z)
                  (loads_remote JNull) [] loads_info loads_fields
                  eq_refl eq_refl)
           [("name", JStr "loc"); ("type", JStr "geo_point_2d")]);
    reflexivity.
Defined.

(** ** Facet values *)

Section Facets.
Context {fr : FloatRepr}.
Import query_tools.

Lemma Qlt_bool_true (x y : Q) : Qlt_bool x y = true -> (x <= y)%Q.
Proof.
  unfold Qlt_bool. intros H. apply negb_true_iff in H.
  destruct (Qlt_le_dec x y) as [Hlt | Hle]; [now apply Qlt_le_weak |].
  apply Qle_bool_iff in Hle. congruence.
Qed.

Lemma Qlt_bool_false (x y : Q) : Qlt_bool x y = false -> (y <= x)%Q.
Proof.
  unfold Qlt_bool. intros H. apply negb_false_iff in H.
  now apply Qle_bool_iff.
Qed.

Lemma py_lt_numbers (a b : json) :
  is_number a = true -> is_number b = true ->
  py_lt a b = Ok (Qlt_bool (num a) (num b)).
Proof. destruct a, b; simpl; intros; congruence. Qed.

Lemma insert_desc_numbers {A : Type} (x : json * A) (l : list (json * A)) :
  is_number (fst x) = true ->
  Forall (fun y => is_number (fst y) = true) l ->
  exists l',
    insert_desc x l = Ok l'
    /\ Permutation l' (x :: l)
    /\ (StronglySorted key_ge l -> StronglySorted key_ge l').
Proof.
  intros Hx. induction l as [|y l IH]; intros Hl.
  - exists [x]. repeat split; auto. intros _. repeat constructor.
  - inversion Hl as [|? ? Hy Hl']; subst. simpl.
    rewrite py_lt_numbers by assumption. cbn [bind].
    destruct (Qlt_bool (num (fst y)) (num (fst x))) eqn:E.
    + exists (x :: y :: l). repeat split; auto.
      intros Hs. constructor; [exact Hs |].
      apply Qlt_bool_true in E.
      inversion Hs as [|? ? Hs' Hall]; subst.
      constructor; [exact E |].
      eapply Forall_impl; [| exact Hall]. intros z Hz. unfold key_ge in *.
      now apply Qle_trans with (num (fst y)).
    + destruct (IH Hl') as (r & -> & Hperm & Hsorted). cbn [bind].
      exists (y :: r). split; [reflexivity |]. split.
      * rewrite Hperm. apply perm_swap.
      * intros Hs. inversion Hs as [|? ? Hs' Hall]; subst.
        constructor; [now apply Hsorted |].
        apply Qlt_bool_false in E.
        eapply Permutation_Forall; [apply Permutation_sym, Hperm |].
        constructor; [exact E | exact Hall].
Qed.

Lemma sort_desc_keyed_numbers {A : Type} (l acc : list (json * A)) :
  Forall (fun y => is_number (fst y) = true) acc ->
  Forall (fun y => is_number (fst y) = true) l ->
  StronglySorted key_ge acc ->
  exists s,
    sort_desc_keyed acc l = Ok s
    /\ Permutation s (acc ++ l)
    /\ StronglySorted key_ge s.
Proof.
  revert acc. induction l as [|x l IH]; intros acc Hacc Hl Hs.
  - exists acc. rewrite app_nil_r. auto.
  - inversion Hl as [|? ? Hx Hl']; subst. simpl.
    destruct (insert_desc_numbers x acc Hx Hacc) as (acc' & -> & Hp & Hs').
    cbn [bind].
    destruct (IH acc') as (s & Hrun & Hperm & Hsorted); auto.
    { eapply Permutation_Forall; [apply Permutation_sym, Hp |]. now constructor. }
    exists s. split; [exact Hrun |]. split; [| exact Hsorted].
    rewrite Hperm, Hp. apply Permutation_middle.
Qed.


Lemma sorted_of_keyed (vs : list (list (string * json))) :
  StronglySorted key_ge (map (fun v => (count_of v, JDict v)) vs) ->
  StronglySorted count_ge vs.
Proof.
  induction vs as [|v vs IH]; intros H; [constructor |].
  simpl in H. inversion H as [|? ? Hs Hall]; subst.
  constructor; [now apply IH |].
  rewrite Forall_map in Hall. exact Hall.
Qed.

Lemma sort_by_count_dicts (vs : list (list (string * json))) :
  Forall (fun v => is_number (count_of v) = true) vs ->
  exists sorted,
    sort_by_count (JList (map JDict vs)) = Ok (map JDict sorted)
    /\ Permutation sorted vs
    /\ StronglySorted count_ge sorted.
Proof.
  intros Hnum. unfold sort_by_count. cbn [py_iter bind].
  rewrite traverse_map.
  rewrite traverse_map_ok with (g := fun v => (count_of v, JDict v))
    by reflexivity.
  cbn [bind].
  destruct (sort_desc_keyed_numbers
              (map (fun v => (count_of v, JDict v)) vs) [])
    as (s & -> & Hperm & Hsorted).
  - constructor.
  - apply Forall_map. exact Hnum.
  - constructor.
  - cbn [bind app] in *.
    apply Permutation_map_inv in Hperm as (sorted & -> & Hp).
    exists sorted. rewrite map_map. cbn [snd].
    split; [reflexivity |]. split; [now apply Permutation_sym |].
    now apply sorted_of_keyed.
Qed.

Lemma facet_value_row_dict (v : list (string * json)) :
  facet_value_row (JDict v) = Ok (facet_row_text v).
Proof. reflexivity. Qed.

(** C8. The values of a facet are shown in descending order of count, the
    table holds at most the first 20 of them, and when there are more than
    20 a note [(Showing top 20 of N values)] giving the total number [N] of
    values follows the table.  The report of [facet_analysis] is its two
    heading lines followed by the section of each facet. *)
Theorem C8_facet_values_sorted_top20 :
  (forall (fd : list (string * json)) (vs : list (list (string * json))),
     lookup "facets" fd = Some (JList (map JDict vs)) ->
     vs <> [] ->
     Forall (fun v => is_number (count_of v) = true) vs ->
     exists head sorted,
       Permutation sorted vs
       /\ StronglySorted count_ge sorted
       /\ (List.length (firstn 20 sorted) <= 20)%nat
       /\ facet_section (JDict fd)
          = Ok ([head; nl +:+ "| Value | Count | State |";
                 "| --- | --- | --- |"]
                ++ map facet_row_text (firstn 20 sorted)
                ++ (if (20 <? List.length vs)%nat
                    then [nl +:+ "(Showing top 20 of "
                          +:+ int_str (Z.of_nat (List.length vs))
                          +:+ " values)"]
                    else [])))
  /\ (forall (srv : remote) (log : list request) (dataset_id : string)
             (facets : list string) (where_ : option string)
             (r : list (string * json)) (fds : list json)
             (sections : list (list string)),
        srv log (Request ("/catalog/datasets/" +:+ dataset_id +:+ "/facets")
                   (Some (set_if "where" where_ [("facet", PStrs facets)])))
        = Ok (JDict r) ->
        lookup "facets" r = Some (JList fds) ->
        fds <> [] ->
        Forall2 (fun fd section => facet_section fd = Ok section)
          fds sections ->
        exists head,
          List.length head = 2%nat
          /\ fst (facet_analysis dataset_id facets where_ srv log)
             = Ok (join nl (head ++ List.concat sections))).
Proof.
  split.
  - intros fd vs Hf Hne Hnum.
    destruct (sort_by_count_dicts vs Hnum) as (sorted & Hrun & Hperm & Hs).
    eexists _, sorted. split; [exact Hperm |]. split; [exact Hs |].
    split; [apply firstn_le_length |].
    unfold facet_section. cbn [py_get bind]. rewrite Hf.
    cbn [py_len bind].
    assert (Ht : truthy (JList (map JDict vs)) = true)
      by (destruct vs; [congruence | reflexivity]).
    rewrite Ht. cbn [negb]. rewrite Hrun. cbn [bind].
    rewrite firstn_map, traverse_map.
    rewrite traverse_map_ok with (g := facet_row_text) by reflexivity.
    cbn [bind]. rewrite !length_map.
    rewrite (Permutation_length Hperm). reflexivity.
  - intros srv log dataset_id facets where_ r fds sections Hsrv Hf Hne Hall.
    unfold facet_analysis, or_return, get_dataset_facets, _make_request.
    rewrite Hsrv. unfold mbind at 1. unfold lift at 1.
    rewrite (lacks_present _ _ _ Hf).
    assert (Ht : truthy (JList fds) = true)
      by (destruct fds; [congruence | reflexivity]).
    rewrite Ht. cbn [negb]. unfold mbind.
    destruct (dataset_title_total dataset_id srv
                (log ++ [Request
                           ("/catalog/datasets/" +:+ dataset_id +:+ "/facets")
                           (Some (set_if "where" where_
                                    [("facet", PStrs facets)]))]))
      as [title ->].
    unfold lift. cbn [py_subscript bind]. rewrite Hf. cbn [py_iter bind].
    assert (Htr : traverse facet_section fds = Ok sections).
    { clear -Hall. induction Hall as [|fd sec fds secs H _ IH];
        [reflexivity |]. simpl. rewrite H. cbn [bind]. now rewrite IH. }
    unfold for_each. rewrite Htr. cbn [bind fst].
    eexists [_; _]. split; reflexivity.
Qed.

End Facets.

Lemma C8_counterexample :
  List.length (city_values 30) = 30%nat
  /\ match @query_tools.facet_section tenths_repr (JDict (city_facet 30))
     with
     | Ok lines =>
         List.length lines = 24%nat
         /\ last lines "" = nl +:+ "(Showing top 20 of 30 values)"
         /\ occurs (int_str (30 - 20)) (last lines "") = false
     | Raise _ => False
     end.
Proof. vm_compute. repeat split. Qed.

Lemma C8_witness :
  exists head sorted,
    Permutation sorted (city_values 3)
    /\ StronglySorted (@count_ge) sorted
    /\ (List.length (firstn 20 sorted) <= 20)%nat
    /\ @query_tools.facet_section tenths_repr (JDict (city_facet 3))
       = Ok ([head; nl +:+ "| Value | Count | State |";
              "| --- | --- | --- |"]
             ++ map (@facet_row_text tenths_repr) (firstn 20 sorted)
             ++ (if (20 <? List.length (city_values 3))%nat
                 then [nl +:+ "(Showing top 20 of "
                       +:+ int_str (Z.of_nat (List.length (city_values 3)))
                       +:+ " values)"]
                 else [])).
Proof.
  apply (proj1 (@C8_facet_values_sorted_top20 tenths_repr)
           (city_facet 3) (city_values 3) eq_refl).
  - discriminate.
  - repeat constructor.
Defined.

(** ** Ranges of the numeric distribution *)

Section Ranges.
Context {fr : FloatRepr}.
Import analysis_tools.

Lemma width_tenth (a b : Q) : ((b - a) / 10 == (b - a) * (1 # 10))%Q.
Proof. reflexivity. Qed.

Lemma Qlt_bool_iff (x y : Q) : Qlt_bool x y = true <-> (x < y)%Q.
Proof.
  unfold Qlt_bool. rewrite negb_true_iff. split; intros H.
  - apply Qnot_le_lt. intros Hle. apply Qle_bool_iff in Hle. congruence.
  - destruct (Qle_bool y x) eqn:E; [| reflexivity].
    apply Qle_bool_iff in E. now apply Qle_not_lt in E.
Qed.







End Ranges.


(** The analysis of a field ranging from 0 to 100: after the schema and the
    statistics, ten counts are requested, the last one with an inclusive
    upper bound. *)
Example numeric_distribution_0_100 :
  map where_of
    (snd (@analysis_tools.analyze_numeric_field tenths_repr "loads" "price"
            (loads_remote price_stats) []))
  = [ None; None;
      Some "price >= 0.0 AND price < 10.0";
      Some "price >= 10.0 AND price < 20.0";
      Some "price >= 20.0 AND price < 30.0";
      Some "price >= 30.0 AND price < 40.0";
      Some "price >= 40.0 AND price < 50.0";
      Some "price >= 50.0 AND price < 60.0";
      Some "price >= 60.0 AND price < 70.0";
      Some "price >= 70.0 AND price < 80.0";
      Some "price >= 80.0 AND price < 90.0";
      Some "price >= 90.0 AND price <= 100.0" ].
Proof. vm_compute. reflexivity. Qed.

(** The ranges for [min = 0] and [max = 100]: 100 falls in the last range
    only, 50 in the range from 50 to 60 only. *)
Example ranges_0_100 :
  in_range 0 100 9 100 /\ ~ in_range 0 100 8 100
  /\ in_range 0 100 5 50 /\ ~ in_range 0 100 4 50
  /\ (analysis_tools.range_lower 0 (range_width 0 100) 5 == 50)%Q
  /\ (analysis_tools.range_upper 0 (range_width 0 100) 5 == 60)%Q.
Proof.
  repeat split; try discriminate; try reflexivity;
    intros [H1 H2]; vm_compute in H1, H2; congruence.
Qed.

(** ** Percentages *)

Section Percentages.
Context {fr : FloatRepr}.
Import analysis_tools.









End Percentages.



(** One record out of eight is 12.50%; a zero total gives no percentage. *)
Example percentage_1_of_8 :
  analysis_tools.percentage_str (JInt 1) (JInt 8) = Ok "12.50%"
  /\ analysis_tools.fill_rate_str (JInt 7) (JInt 8) = "87.50%"
  /\ analysis_tools.percentage_str (JInt 1) (JInt 0) = Ok "N/A"
  /\ analysis_tools.percentage_str (JInt 1) JNull = Ok "N/A".
Proof. repeat split. Qed.

(** * Further properties *)

Import Behaviour Samples.

(** ** The base URL *)

Lemma rstrip_slash_slashes (k : nat) : rstrip_slash (slashes k) = "".
Proof. induction k as [|k IH]; simpl; [reflexivity | now rewrite IH]. Qed.

Lemma rstrip_slash_split (s : string) :
  exists k, s = rstrip_slash s +:+ slashes k
            /\ (rstrip_slash s = "" -> s = slashes k).
Proof.
  induction s as [|c s (k & Hs & He)]; [exists 0%nat; auto |].
  simpl. destruct (rstrip_slash s) as [|c' r] eqn:E.
  - destruct (Ascii.eqb_spec c "/") as [-> | Hc].
    + exists (S k). simpl. rewrite (He eq_refl). auto.
    + exists k. simpl. rewrite Hs at 1. split; [reflexivity | discriminate].
  - exists k. simpl. rewrite Hs at 1. split; [reflexivity | discriminate].
Qed.

Lemma rstrip_slash_last (s : string) :
  last_char (rstrip_slash s) <> Some "/"%char.
Proof.
  induction s as [|c s IH]; simpl; [discriminate |].
  destruct (rstrip_slash s) as [|c' r] eqn:E.
  - destruct (Ascii.eqb_spec c "/"); simpl; congruence.
  - exact IH.
Qed.

Lemma rstrip_slash_fixed (s : string) :
  last_char s <> Some "/"%char -> rstrip_slash s = s.
Proof.
  induction s as [|c s IH]; intros H; [reflexivity |].
  simpl. destruct s as [|c' s'].
  - simpl. destruct (Ascii.eqb_spec c "/"); [subst; now elim H | reflexivity].
  - rewrite IH by exact H. reflexivity.
Qed.

Lemma rstrip_slash_more (s : string) (k : nat) :
  rstrip_slash (s +:+ slashes k) = rstrip_slash s.
Proof.
  induction s as [|c s IH]; [apply rstrip_slash_slashes |].
  cbn [String.append rstrip_slash]. now rewrite IH.
Qed.

(** X1. [__init__] removes the trailing slashes of the base URL and nothing
    else: what is kept does not end with a slash, the given URL is what is
    kept followed by slashes only, and a URL without trailing slash is kept
    as it is.  So the client is the same however many slashes end the URL
    it is given. *)
Theorem X1_base_url_without_trailing_slash :
  forall base_url,
    last_char (init_base_url base_url) <> Some "/"%char
    /\ (exists k, base_url = init_base_url base_url +:+ slashes k)
    /\ (last_char base_url <> Some "/"%char ->
        init_base_url base_url = base_url)
    /\ (forall k,
          init_base_url (base_url +:+ slashes k) = init_base_url base_url).
Proof.
  intros base_url. unfold init_base_url.
  split; [apply rstrip_slash_last |].
  split; [destruct (rstrip_slash_split base_url) as (k & H & _); eauto |].
  split; [apply rstrip_slash_fixed |].
  intros k. apply rstrip_slash_more.
Qed.

Lemma X1_witness :
  init_base_url "https://data.example.org" = "https://data.example.org".
Proof.
  apply (proj1 (proj2 (proj2 (X1_base_url_without_trailing_slash
                                "https://data.example.org")))).
  discriminate.
Defined.

(** ** Query strings *)

Lemma all_chars_app (p : ascii -> bool) (a b : string) :
  all_chars p (a +:+ b) = all_chars p a && all_chars p b.
Proof. induction a; simpl; [reflexivity | now rewrite IHa, andb_assoc]. Qed.

Lemma count_char_app (c : ascii) (a b : string) :
  count_char c (a +:+ b) = (count_char c a + count_char c b)%nat.
Proof. induction a; simpl; [reflexivity | rewrite IHa; lia]. Qed.

Lemma quote_plus_char_quoted (c : ascii) :
  all_chars quoted_char (quote_plus_char c) = true.
Proof. destruct c as [[] [] [] [] [] [] [] []]; reflexivity. Qed.

Lemma quote_plus_quoted (s : string) :
  all_chars quoted_char (quote_plus s) = true.
Proof.
  unfold quote_plus. induction s as [|c s IH]; [reflexivity |].
  simpl. now rewrite all_chars_app, quote_plus_char_quoted, IH.
Qed.

Lemma quote_plus_safe (s : string) :
  all_chars always_safe s = true -> quote_plus s = s.
Proof.
  unfold quote_plus. induction s as [|c s IH]; [reflexivity |].
  cbn [all_chars concat_map]. intros H.
  apply andb_true_iff in H as [Hc Hs].
  unfold quote_plus_char at 1. rewrite Hc. cbn [String.append].
  f_equal. now apply IH.
Qed.

Lemma count_char_absent (p : ascii -> bool) (c : ascii) (s : string) :
  p c = false -> all_chars p s = true -> count_char c s = 0%nat.
Proof.
  intros Hc. induction s as [|c' s IH]; [reflexivity |].
  simpl. intros H. apply andb_true_iff in H as [Hc' Hs].
  destruct (Ascii.eqb_spec c' c) as [-> | _]; [congruence | now apply IH].
Qed.

Lemma count_char_pair (c : ascii) (kv : string * param) :
  quoted_char c = false ->
  count_char c (quote_plus (fst kv) +:+ "=" +:+ quote_plus (param_str (snd kv)))
  = if (c =? "=")%char then 1%nat else 0%nat.
Proof.
  intros Hc. rewrite !count_char_app.
  rewrite (count_char_absent quoted_char c (quote_plus (fst kv)) Hc)
    by apply quote_plus_quoted.
  rewrite (count_char_absent quoted_char c
             (quote_plus (param_str (snd kv))) Hc)
    by apply quote_plus_quoted.
  cbn [count_char]. rewrite (Ascii.eqb_sym "=" c).
  destruct (c =? "=")%char; reflexivity.
Qed.

Lemma count_char_urlencode (c : ascii) (ps : params) :
  quoted_char c = false ->
  count_char c (urlencode ps)
  = if (c =? "&")%char then pred (List.length ps)
    else if (c =? "=")%char then List.length ps
    else 0%nat.
Proof.
  intros Hc. unfold urlencode, join.
  induction ps as [|kv ps IH].
  - simpl. now destruct (c =? "&")%char, (c =? "=")%char.
  - cbn [map String.concat]. destruct ps as [|kv' ps].
    + cbn [map]. rewrite count_char_pair by exact Hc.
      destruct (Ascii.eqb_spec c "&") as [-> | _]; [reflexivity |].
      now destruct (c =? "=")%char.
    + cbn [map] in *. rewrite count_char_app, count_char_pair by exact Hc.
      rewrite count_char_app, IH. cbn [count_char List.length pred].
      rewrite (Ascii.eqb_sym "&" c).
      destruct (Ascii.eqb_spec c "&") as [-> | _]; [simpl; lia |].
      destruct (c =? "=")%char; simpl; lia.
Qed.

(** X2. [quote_plus] yields only letters, digits, [_.-~], [+] and [%], and
    leaves a string of letters, digits and [_.-~] as it is.  So in the query
    string of an export URL the ampersands are exactly the separators of the
    parameters and the equals signs exactly one per parameter, and no other
    reserved character or space occurs, whatever the clauses hold. *)
Theorem X2_query_string_is_escaped :
  (forall s, all_chars quoted_char (quote_plus s) = true)
  /\ (forall s, all_chars always_safe s = true -> quote_plus s = s)
  /\ (forall ps,
        count_char "&" (urlencode ps) = pred (List.length ps)
        /\ count_char "=" (urlencode ps) = List.length ps
        /\ forall c,
             quoted_char c = false -> c <> "&"%char -> c <> "="%char ->
             count_char c (urlencode ps) = 0%nat).
Proof.
  split; [exact quote_plus_quoted |].
  split; [exact quote_plus_safe |].
  intros ps. split; [now rewrite count_char_urlencode |].
  split; [now rewrite count_char_urlencode |].
  intros c Hq Ha He. rewrite count_char_urlencode by exact Hq.
  apply Ascii.eqb_neq in Ha, He. now rewrite Ha, He.
Qed.

Lemma X2_witness :
  quote_plus "count_DESC" = "count_DESC"
  /\ count_char "#" (urlencode [("where", PStr "a=1&b=#2")]) = 0%nat.
Proof.
  split.
  - apply (proj1 (proj2 X2_query_string_is_escaped)). reflexivity.
  - apply (proj2 (proj2 (proj2 (proj2 X2_query_string_is_escaped)
                               [("where", PStr "a=1&b=#2")])));
      [reflexivity | discriminate | discriminate].
Defined.

(** ** Clauses of the record and export requests *)

Lemma clause_cases (key : string) (o : option string) :
  (clause key o = [] /\ (o = None \/ o = Some ""))
  \/ (exists s, o = Some s /\ s <> "" /\ clause key o = [(key, PStr s)]).
Proof.
  unfold clause, given. destruct o as [s |]; [| left; auto].
  destruct (String.eqb_spec s "") as [-> | Hs]; [left; auto |].
  right. now exists s.
Qed.

Lemma export_params_clauses (select where_ group_by order_by : option string)
  (limit : option Z) :
  export_params select where_ group_by order_by limit
  = clause "select" select ++ clause "where" where_
    ++ clause "group_by" group_by ++ clause "order_by" order_by
    ++ match limit with
       | Some n => [("limit", PInt n)]
       | None => []
       end.
Proof.
  unfold export_params, set_if, clause.
  destruct (given select), (given where_), (given group_by),
    (given order_by), limit; reflexivity.
Qed.

(** X3. The requests for records and the export URL carry a clause exactly
    when it is given (neither [None] nor empty), verbatim and in the fixed
    order select, where, group_by, order_by, after [limit] and [offset] for
    records and before [limit] for exports; an export [limit] is carried
    whenever it is not [None], zero included; [search_records] filters with
    [search(<query>)], the query being inserted as it is. *)
Theorem X3_clauses_passed_through :
  (forall dataset_id select where_ group_by order_by limit offset srv log,
     snd (OdsApiClient.get_dataset_records dataset_id select where_ group_by
            order_by limit offset srv log)
     = log ++
       [Request ("/catalog/datasets/" +:+ dataset_id +:+ "/records")
          (Some ([("limit", PInt limit); ("offset", PInt offset)]
                 ++ clause "select" select ++ clause "where" where_
                 ++ clause "group_by" group_by
                 ++ clause "order_by" order_by))])
  /\ (forall select where_ group_by order_by limit,
        export_params select where_ group_by order_by limit
        = clause "select" select ++ clause "where" where_
          ++ clause "group_by" group_by ++ clause "order_by" order_by
          ++ match limit with
             | Some n => [("limit", PInt n)]
             | None => []
             end)
  /\ (forall key o,
        (clause key o = [] /\ (o = None \/ o = Some ""))
        \/ (exists s, o = Some s /\ s <> "" /\ clause key o = [(key, PStr s)]))
  /\ (forall dataset_id query limit srv log,
        snd (search_records dataset_id query limit srv log)
        = log ++
          [Request ("/catalog/datasets/" +:+ dataset_id +:+ "/records")
             (Some [("limit", PInt limit); ("offset", PInt 0);
                    ("where", PStr ("search(" +:+ query +:+ ")"))])]).
Proof.
  split; [| split; [| split; [exact clause_cases |]]].
  - intros. unfold OdsApiClient.get_dataset_records, _make_request, set_if,
      clause.
    destruct (given select), (given where_), (given group_by),
      (given order_by); reflexivity.
  - intros. apply export_params_clauses.
  - intros. unfold search_records, OdsApiClient.get_dataset_records,
      _make_request, set_if. reflexivity.
Qed.

(** ** Responses without records *)

Section NoRecords.
Context {fr : FloatRepr}.

Lemma lacks_nothing (response : json) (key : string) :
  holds_nothing response key -> lacks response key = Ok true.
Proof.
  intros [Hf | (r & -> & H)]; unfold lacks; [now rewrite Hf |].
  destruct (truthy (JDict r)); [| reflexivity]. cbn [negb py_contains bind].
  destruct H as [-> | (v & Hv & Ht)]; [reflexivity |].
  rewrite Hv. cbn [negb py_subscript bind]. rewrite Hv. cbn [bind].
  now rewrite Ht.
Qed.

(** X4. When the response to the primary request holds no record (the
    ["results"] key is missing, or bound to an empty list or another false
    value, or the response itself is false), [get_dataset_records],
    [get_dataset_aggregates] and [search_dataset_records] return their
    one-line "No ... found" message after that single request, without
    looking up the title. *)
Theorem X4_no_records_message :
  forall (srv : remote) (log : list request) (dataset_id : string)
         (limit : Z) (response : json),
    holds_nothing response "results" ->
    (forall offset select where_ order_by,
       srv log (records_request dataset_id select where_ None order_by
                  limit offset) = Ok response ->
       query_tools.get_dataset_records dataset_id limit offset select where_
         order_by srv log
       = (Ok ("No records found for dataset '" +:+ dataset_id
              +:+ "' with the specified criteria."),
          log ++ [records_request dataset_id select where_ None order_by
                    limit offset]))
    /\ (forall select group_by where_,
          srv log (records_request dataset_id (Some select) where_ group_by
                     None limit 0) = Ok response ->
          query_tools.get_dataset_aggregates dataset_id select group_by
            where_ limit srv log
          = (Ok ("No aggregation results found for dataset '" +:+ dataset_id
                 +:+ "' with the specified criteria."),
             log ++ [records_request dataset_id (Some select) where_
                       group_by None limit 0]))
    /\ (forall query,
          srv log (records_request dataset_id None
                     (Some ("search(" +:+ query +:+ ")")) None None limit 0)
          = Ok response ->
          query_tools.search_dataset_records dataset_id query limit srv log
          = (Ok ("No records found matching '" +:+ query +:+ "' in dataset '"
                 +:+ dataset_id +:+ "'."),
             log ++ [records_request dataset_id None
                       (Some ("search(" +:+ query +:+ ")")) None None
                       limit 0])).
Proof.
  intros srv log dataset_id limit response Hn.
  pose proof (lacks_nothing _ _ Hn) as Hl.
  split; [| split].
  - intros offset select where_ order_by Hsrv.
    unfold query_tools.get_dataset_records, or_return,
      OdsApiClient.get_dataset_records, _make_request.
    unfold records_request in Hsrv. rewrite Hsrv.
    unfold mbind, lift. now rewrite Hl.
  - intros select group_by where_ Hsrv.
    unfold query_tools.get_dataset_aggregates, or_return,
      OdsApiClient.get_dataset_records, _make_request.
    unfold records_request in Hsrv. rewrite Hsrv.
    unfold mbind, lift. now rewrite Hl.
  - intros query Hsrv.
    unfold query_tools.search_dataset_records, or_return, search_records,
      OdsApiClient.get_dataset_records, _make_request.
    unfold records_request in Hsrv. rewrite Hsrv.
    unfold mbind, lift. now rewrite Hl.
Qed.

End NoRecords.

Lemma X4_witness :
  @query_tools.get_dataset_records tenths_repr "loads" 10 0 None None None
    (answering (JDict [("total_count", JInt 0); ("results", JList [])])) []
  = (Ok "No records found for dataset 'loads' with the specified criteria.",
     [records_request "loads" None None None None 10 0]).
Proof.
  apply (proj1 (@X4_no_records_message tenths_repr
                  (answering (JDict [("total_count", JInt 0);
                                     ("results", JList [])]))
                  [] "loads" 10%Z
                  (JDict [("total_count", JInt 0); ("results", JList [])])
                  (or_intror
                     (ex_intro _
                        [("total_count", JInt 0); ("results", JList [])]
                        (conj eq_refl
                           (or_intror
                              (ex_intro _ (JList [])
                                 (conj eq_refl eq_refl)))))))
           0%Z None None None).
  reflexivity.
Defined.

(** ** The title in the heading *)

Section Headings.
Context {fr : FloatRepr}.

Lemma dataset_title_failed (dataset_id : string) (srv : remote)
  (log : list request) (e : exn) :
  srv log (dataset_request dataset_id) = Raise e ->
  query_tools.dataset_title dataset_id srv log
  = (Ok (JStr "Unknown Dataset"), log ++ [dataset_request dataset_id]).
Proof.
  intros H. unfold query_tools.dataset_title, try_except, mbind, get_dataset,
    _make_request. unfold dataset_request in H. now rewrite H.
Qed.

Lemma dataset_title_found (dataset_id : string) (srv : remote)
  (log : list request) (info : json) (df : list (string * json)) :
  srv log (dataset_request dataset_id) = Ok info ->
  has_default info df ->
  query_tools.dataset_title dataset_id srv log
  = (Ok (match lookup "title" df with
         | Some t => t
         | None => JStr "Unknown Dataset"
         end),
     log ++ [dataset_request dataset_id]).
Proof.
  intros H (d & metas & -> & Hm & Hd).
  unfold query_tools.dataset_title, try_except, mbind, get_dataset,
    _make_request, lift, metas_default.
  unfold dataset_request in H. rewrite H. cbn [py_get bind].
  rewrite Hm. cbn [py_get bind]. rewrite Hd. reflexivity.
Qed.

Lemma dataset_title_not_object (dataset_id : string) (srv : remote)
  (log : list request) (info : json) :
  srv log (dataset_request dataset_id) = Ok info ->
  (forall d, info <> JDict d) ->
  query_tools.dataset_title dataset_id srv log
  = (Ok (JStr "Unknown Dataset"), log ++ [dataset_request dataset_id]).
Proof.
  intros H Hn.
  unfold query_tools.dataset_title, try_except, mbind, get_dataset,
    _make_request, lift, metas_default.
  unfold dataset_request in H. rewrite H.
  destruct info; try reflexivity. now elim (Hn d).
Qed.

Lemma get_dataset_records_report (srv : remote) (log log' : list request)
  (dataset_id : string) (limit offset : Z)
  (select where_ order_by : option string) (title : json)
  (r first : list (string * json)) (rest : list (list (string * json))) :
  srv log (records_request dataset_id select where_ None order_by limit offset)
  = Ok (JDict r) ->
  lookup "results" r = Some (JList (map JDict (first :: rest))) ->
  query_tools.dataset_title dataset_id srv
    (log ++ [records_request dataset_id select where_ None order_by limit
               offset])
  = (Ok title, log') ->
  query_tools.get_dataset_records dataset_id limit offset select where_
    order_by srv log
  = (Ok (join nl
           ([ "Records from dataset: " +:+ py_str title
                +:+ " (ID: " +:+ dataset_id +:+ ")";
              "Showing " +:+ int_str (Z.of_nat (List.length (first :: rest)))
                +:+ " of "
                +:+ py_str (match lookup "total_count" r with
                            | Some v => v
                            | None => JInt 0
                            end)
                +:+ " total records (offset: " +:+ int_str offset +:+ ")" ]
            ++ (if (10 <? List.length first)%nat
                then listing_all (first :: rest)
                else table_text (map fst first) (first :: rest))
            ++ query_tools.odsql_note select where_ order_by)),
     log').
Proof.
  intros Hsrv Hres Ht.
  unfold query_tools.get_dataset_records, or_return,
    OdsApiClient.get_dataset_records, _make_request.
  unfold records_request in Hsrv. rewrite Hsrv.
  unfold mbind at 1. unfold lift at 1.
  rewrite (lacks_present _ _ _ Hres). cbn [truthy map negb].
  unfold mbind at 1. unfold lift at 1. cbn [py_subscript]. rewrite Hres.
  unfold mbind at 1. unfold lift at 1. cbn [py_get].
  unfold mbind at 1.
  unfold records_request in Ht. rewrite Ht.
  unfold lift. cbn [py_len bind truthy map negb py_index0 py_keys py_iter].
  change (JDict first :: map JDict rest) with (map JDict (first :: rest)).
  rewrite !length_map.
  destruct (10 <? List.length first)%nat.
  - rewrite listing_lines_dicts by apply length_map. reflexivity.
  - rewrite table_lines_dicts. reflexivity.
Qed.

(** X5. A failure of the title lookup never costs the report of
    [get_dataset_records]: the records are rendered under the two heading
    lines whatever the schema request returns; the title shown is the
    ["title"] of the default metadata when the schema is such an object,
    and "Unknown Dataset" when the request raises, when the answer is not
    an object, or when it has no title. *)
Theorem X5_title_lookup_degrades :
  forall (srv : remote) (log : list request) (dataset_id : string)
         (limit offset : Z) (select where_ order_by : option string)
         (r first : list (string * json))
         (rest : list (list (string * json))),
    let request :=
      records_request dataset_id select where_ None order_by limit offset in
    srv log request = Ok (JDict r) ->
    lookup "results" r = Some (JList (map JDict (first :: rest))) ->
    exists title,
      query_tools.get_dataset_records dataset_id limit offset select where_
        order_by srv log
      = (Ok (join nl
               ([ "Records from dataset: " +:+ py_str title
                    +:+ " (ID: " +:+ dataset_id +:+ ")";
                  "Showing "
                    +:+ int_str (Z.of_nat (List.length (first :: rest)))
                    +:+ " of "
                    +:+ py_str (match lookup "total_count" r with
                                | Some v => v
                                | None => JInt 0
                                end)
                    +:+ " total records (offset: " +:+ int_str offset
                    +:+ ")" ]
                ++ (if (10 <? List.length first)%nat
                    then listing_all (first :: rest)
                    else table_text (map fst first) (first :: rest))
                ++ query_tools.odsql_note select where_ order_by)),
         log ++ [request; dataset_request dataset_id])
      /\ (forall e,
            srv (log ++ [request]) (dataset_request dataset_id) = Raise e ->
            title = JStr "Unknown Dataset")
      /\ (forall info,
            srv (log ++ [request]) (dataset_request dataset_id) = Ok info ->
            (forall d, info <> JDict d) ->
            title = JStr "Unknown Dataset")
      /\ (forall info df,
            srv (log ++ [request]) (dataset_request dataset_id) = Ok info ->
            has_default info df ->
            title = match lookup "title" df with
                    | Some t => t
                    | None => JStr "Unknown Dataset"
                    end).
Proof.
  intros srv log dataset_id limit offset select where_ order_by r first rest
    request Hsrv Hres.
  destruct (dataset_title_total dataset_id srv (log ++ [request]))
    as [title Ht].
  exists title. split.
  - rewrite (get_dataset_records_report _ _ _ _ _ _ _ _ _ _ _ _ _
               Hsrv Hres Ht).
    now rewrite <- app_assoc.
  - split; [| split].
    + intros e He. rewrite (dataset_title_failed _ _ _ _ He) in Ht.
      congruence.
    + intros info Hi Hn.
      rewrite (dataset_title_not_object _ _ _ _ Hi Hn) in Ht. congruence.
    + intros info df Hi Hd.
      rewrite (dataset_title_found _ _ _ _ _ Hi Hd) in Ht. congruence.
Qed.

End Headings.

Lemma X5_witness :
  exists title,
    @query_tools.get_dataset_records tenths_repr "loads" 10 0 None None None
      (fun _ r =>
         match req_params r with
         | Some _ => Ok (results_of two_records)
         | None => Raise (Exn HTTPError "All connection attempts failed")
         end) []
    = (Ok (join nl
             ([ "Records from dataset: " +:+ @py_str tenths_repr title
                  +:+ " (ID: loads)";
                "Showing 2 of 2 total records (offset: 0)" ]
              ++ @table_text tenths_repr ["a"; "b"] two_records)),
       [records_request "loads" None None None None 10 0;
        dataset_request "loads"])
    /\ title = JStr "Unknown Dataset".
Proof.
  destruct (@X5_title_lookup_degrades tenths_repr
              (fun _ r =>
                 match req_params r with
                 | Some _ => Ok (results_of two_records)
                 | None =>
                     Raise (Exn HTTPError "All connection attempts failed")
                 end)
              [] "loads" 10%Z 0%Z None None None
              [("total_count", JInt 2);
               ("results", JList (map JDict two_records))]
              [("a", JInt 1); ("b", JInt 2)] [[("a", JInt 3)]]
              eq_refl eq_refl)
    as (title & Hrun & Hfail & _).
  exists title. split.
  - rewrite Hrun. reflexivity.
  - apply (Hfail (Exn HTTPError "All connection attempts failed")).
    reflexivity.
Defined.

(** ** The export tool *)

Section ExportUrl.
Context {fr : FloatRepr} {up : StrUpper}.

(** X6. [get_export_url] returns a report for every remote and makes one
    request only, the title lookup: the export itself is never requested.
    The report shows the URL built by the client; when the title lookup
    fails the heading says "Unknown Dataset".  A limit of zero is part of
    the URL but is left out of the "Query parameters" line. *)
Theorem X6_export_url_report :
  forall (srv : remote) (log : list request)
         (base_url dataset_id export_format : string)
         (select where_ group_by order_by : option string)
         (limit : option Z),
    let url :=
      base_url +:+ "/api/explore/v2.1/catalog/datasets/" +:+ dataset_id
      +:+ "/exports/" +:+ export_format +:+ "?"
      +:+ urlencode (export_params select where_ group_by order_by limit) in
    let notes :=
      query_tools.export_notes select where_ group_by order_by limit in
    (exists title,
       query_tools.get_export_url base_url dataset_id export_format select
         where_ group_by order_by limit srv log
       = (Ok (join nl
                ([ "Export URL for dataset: " +:+ py_str title
                     +:+ " (ID: " +:+ dataset_id +:+ ")";
                   "Format: " +:+ str_upper export_format ]
                 ++ match notes with
                    | [] => []
                    | _ :: _ => ["Query parameters: " +:+ join ", " notes]
                    end
                 ++ [ nl +:+ "Export URL: " +:+ url;
                      nl +:+ "Note: This URL can be used to download the "
                      +:+ "dataset in the specified format." ])),
          log ++ [dataset_request dataset_id])
       /\ (forall e,
             srv log (dataset_request dataset_id) = Raise e ->
             title = JStr "Unknown Dataset"))
    /\ (limit = Some 0%Z ->
        lookup "limit"
          (export_params select where_ group_by order_by limit)
        = Some (PInt 0)
        /\ notes = query_tools.export_notes select where_ group_by order_by
                     None).
Proof.
  intros srv log base_url dataset_id export_format select where_ group_by
    order_by limit url notes.
  split.
  - destruct (dataset_title_total dataset_id srv log) as [title Ht].
    exists title. split.
    + unfold query_tools.get_export_url, or_return, export_records, ret,
        mbind. rewrite Ht. reflexivity.
    + intros e He. rewrite (dataset_title_failed _ _ _ _ He) in Ht.
      congruence.
  - intros ->. split; [| reflexivity].
    rewrite export_params_clauses. unfold clause.
    destruct (given select), (given where_), (given group_by),
      (given order_by); reflexivity.
Qed.

End ExportUrl.

Lemma X6_witness :
  lookup "limit" (export_params (Some "price") None None None (Some 0%Z))
  = Some (PInt 0)
  /\ @query_tools.export_notes (Some "price") None None None (Some 0%Z)
     = ["SELECT: price"].
Proof.
  apply (proj2 (@X6_export_url_report tenths_repr ascii_upper refusing []
                  "https://data.example.org" "loads" "csv"
                  (Some "price") None None None (Some 0%Z))).
  reflexivity.
Defined.

(** ** Numbers of requests *)

Lemma at_most_le {A : Type} (n m : nat) (c : M A) :
  at_most n c -> (n <= m)%nat -> at_most m c.
Proof.
  intros H Hle srv log. destruct (H srv log) as (more & Hm & Hl).
  exists more. split; [exact Hm | lia].
Qed.

Lemma at_most_ret {A : Type} (a : A) : at_most 0 (ret a).
Proof. intros srv log. exists []. now rewrite app_nil_r. Qed.

Lemma at_most_lift {A : Type} (r : res A) : at_most 0 (lift r).
Proof. intros srv log. exists []. now rewrite app_nil_r. Qed.

Lemma at_most_request (path : string) (params : option params) :
  at_most 1 (_make_request path params).
Proof. intros srv log. exists [Request path params]. auto. Qed.

Lemma at_most_bind {A B : Type} (n m : nat) (c : M A) (k : A -> M B) :
  at_most n c -> (forall a, at_most m (k a)) -> at_most (n + m) (mbind c k).
Proof.
  intros Hc Hk srv log. unfold mbind.
  destruct (Hc srv log) as (m1 & H1 & L1).
  destruct (c srv log) as [[a | e] log']; cbn [snd] in *; subst log'.
  - destruct (Hk a srv (log ++ m1)) as (m2 & H2 & L2). rewrite H2.
    exists (m1 ++ m2). rewrite app_assoc, length_app.
    split; [reflexivity | lia].
  - exists m1. split; [reflexivity | lia].
Qed.

Lemma at_most_try {A : Type} (n m : nat) (c : M A) (h : exn -> M A) :
  at_most n c -> (forall e, at_most m (h e)) ->
  at_most (n + m) (try_except c h).
Proof.
  intros Hc Hh srv log. unfold try_except.
  destruct (Hc srv log) as (m1 & H1 & L1).
  destruct (c srv log) as [[a | e] log']; cbn [snd] in *; subst log'.
  - exists m1. split; [reflexivity | lia].
  - destruct (Hh e srv (log ++ m1)) as (m2 & H2 & L2). rewrite H2.
    exists (m1 ++ m2). rewrite app_assoc, length_app.
    split; [reflexivity | lia].
Qed.

Lemma at_most_or_return {A : Type} (n m : nat) (c : M A) (h : exn -> string)
  (k : A -> M string) :
  at_most n c -> (forall a, at_most m (k a)) ->
  at_most (n + m) (or_return c h k).
Proof.
  intros Hc Hk srv log. unfold or_return.
  destruct (Hc srv log) as (m1 & H1 & L1).
  destruct (c srv log) as [[a | e] log']; cbn [snd] in *; subst log'.
  - destruct (Hk a srv (log ++ m1)) as (m2 & H2 & L2). rewrite H2.
    exists (m1 ++ m2). rewrite app_assoc, length_app.
    split; [reflexivity | lia].
  - exists m1. split; [reflexivity | lia].
Qed.

Lemma at_most_if {A : Type} (n m : nat) (b : bool) (c1 c2 : M A) :
  at_most n c1 -> at_most m c2 ->
  at_most (Nat.max n m) (if b then c1 else c2).
Proof.
  intros H1 H2. destruct b; eapply at_most_le; eauto; lia.
Qed.

Lemma at_most_mtraverse {A B : Type} (n : nat) (f : A -> M B) (l : list A) :
  (forall x, at_most n (f x)) ->
  at_most (List.length l * n) (analysis_tools.mtraverse f l).
Proof.
  intros Hf. induction l as [|x l IH]; simpl.
  - apply at_most_ret.
  - eapply at_most_le.
    + eapply at_most_bind; [apply Hf | intros y].
      eapply at_most_bind; [exact IH | intros ys; apply at_most_ret].
    + lia.
Qed.

Lemma at_most_and_then {A : Type} (n m : nat) (c : M (string + A))
  (k : A -> M string) :
  at_most n c -> (forall a, at_most m (k a)) ->
  at_most (n + m) (analysis_tools.and_then c k).
Proof.
  intros Hc Hk. unfold analysis_tools.and_then.
  apply at_most_bind; [exact Hc |].
  intros [message | a]; [| apply Hk].
  eapply at_most_le; [apply at_most_ret | lia].
Qed.

(** Bound a coroutine along its binds, handlers and branches. *)
Ltac bound_step :=
  lazymatch goal with
  | |- forall _ : _ * _, _ => intros [? ?]
  | |- forall _, _ => intro
  | |- at_most _ (ret _) => eapply at_most_ret
  | |- at_most _ (lift _) => eapply at_most_lift
  | |- at_most _ (_make_request _ _) => eapply at_most_request
  | |- at_most _ (analysis_tools.and_then _ _) => eapply at_most_and_then
  | |- at_most _ (analysis_tools.mtraverse _ _) => eapply at_most_mtraverse
  | |- at_most _ (or_return _ _ _) => eapply at_most_or_return
  | |- at_most _ (try_except _ _) => eapply at_most_try
  | |- at_most _ (mbind _ _) => eapply at_most_bind
  | |- at_most _ (if _ then _ else _) => eapply at_most_if
  | |- at_most _ (match ?x with (_, _) => _ end) => destruct x
  end.
Ltac bound_with tac :=
  eapply at_most_le;
  [repeat (cbn beta iota zeta; first [tac | bound_step]) | cbn; lia].

Ltac bound := bound_with fail.

Lemma at_most_bind_lift {A B : Type} (m : nat) (r : res A) (k : A -> M B) :
  (forall a, r = Ok a -> at_most m (k a)) -> at_most m (mbind (lift r) k).
Proof.
  intros Hk srv log. unfold mbind, lift. destruct r as [a | e].
  - exact (Hk a eq_refl srv log).
  - exists []. rewrite app_nil_r. split; [reflexivity | simpl; lia].
Qed.

Section Budget.
Context {fr : FloatRepr} {up : StrUpper}.
Import analysis_tools.

Lemma recent_years_length (years_data : json) (years : list json) :
  recent_years years_data = Ok years -> (List.length years <= 5)%nat.
Proof.
  unfold recent_years. intros H.
  destruct (py_iter years_data) as [items |]; [| discriminate].
  cbn [bind] in H.
  destruct (traverse _ items) as [ys |]; [| discriminate].
  cbn [bind] in H.
  destruct (sort_desc_keyed _ _) as [sorted |]; [| discriminate].
  cbn [bind] in H. injection H as <-. exact (firstn_le_length 5 _).
Qed.

Lemma at_most_months_loop (dataset_id field_name : string)
  (years : list json) (month_data : list (json * json)) :
  at_most (List.length years)
    (months_loop dataset_id field_name years month_data).
Proof.
  revert month_data. induction years as [|year rest IH]; intros month_data.
  - apply at_most_ret.
  - cbn [months_loop]. unfold OdsApiClient.get_dataset_records.
    eapply at_most_le.
    + eapply at_most_try; [| intros; apply at_most_ret].
      eapply at_most_bind; [apply at_most_request | intros r].
      eapply at_most_bind; [apply at_most_lift | intros months].
      apply IH.
    + cbn [List.length]. lia.
Qed.

Lemma at_most_months_lookup (dataset_id field_name : string)
  (years_data : json) :
  at_most 5 (months_lookup dataset_id field_name years_data).
Proof.
  unfold months_lookup. destruct (truthy years_data).
  - eapply at_most_le.
    + eapply at_most_try; [| intros; apply at_most_ret].
      apply at_most_bind_lift. intros years Hy.
      eapply at_most_le; [apply at_most_months_loop |].
      exact (recent_years_length _ _ Hy).
    + lia.
  - eapply at_most_le; [apply at_most_ret | lia].
Qed.

(** X7. Whatever the remote answers, a tool issues a bounded number of
    requests: one for the catalogue searches, the schema tools and the
    export URL, at most two for the record, aggregate, facet and search
    reports and for the summary, at most twelve for the numeric analysis
    (schema, statistics, ten ranges), four for the text analysis and eight
    for the date analysis (schema, statistics, years, five months
    breakdowns). *)
Theorem X7_request_budget :
  forall (dataset_id field_name query publisher base_url select : string)
         (export_format : string) (facets : list string)
         (select_ where_ group_by order_by : option string)
         (limit offset : Z) (export_limit : option Z),
    at_most 1 (catalog_tools.search_datasets query limit)
    /\ at_most 1 (catalog_tools.list_datasets_by_publisher publisher limit)
    /\ at_most 1 (catalog_tools.get_dataset_info dataset_id)
    /\ at_most 1 (catalog_tools.list_dataset_fields dataset_id)
    /\ at_most 2 (query_tools.get_dataset_records dataset_id limit offset
                    select_ where_ order_by)
    /\ at_most 2 (query_tools.get_dataset_aggregates dataset_id select
                    group_by where_ limit)
    /\ at_most 2 (query_tools.facet_analysis dataset_id facets where_)
    /\ at_most 2 (query_tools.search_dataset_records dataset_id query limit)
    /\ at_most 1 (query_tools.get_export_url base_url dataset_id
                    export_format select_ where_ group_by order_by
                    export_limit)
    /\ at_most 2 (summarize_dataset dataset_id)
    /\ at_most 12 (analyze_numeric_field dataset_id field_name)
    /\ at_most 4 (analyze_text_field dataset_id field_name limit)
    /\ at_most 8 (analyze_date_field dataset_id field_name).
Proof.
  intros.
  repeat match goal with |- _ /\ _ => split end.
  - unfold catalog_tools.search_datasets, OdsApiClient.search_datasets,
      list_datasets. bound.
  - unfold catalog_tools.list_datasets_by_publisher, list_datasets. bound.
  - unfold catalog_tools.get_dataset_info, get_dataset. bound.
  - unfold catalog_tools.list_dataset_fields, get_dataset. bound.
  - unfold query_tools.get_dataset_records, query_tools.dataset_title,
      get_dataset, OdsApiClient.get_dataset_records. bound.
  - unfold query_tools.get_dataset_aggregates, query_tools.dataset_title,
      get_dataset, OdsApiClient.get_dataset_records. bound.
  - unfold query_tools.facet_analysis, query_tools.dataset_title,
      get_dataset, get_dataset_facets. bound.
  - unfold query_tools.search_dataset_records, query_tools.dataset_title,
      get_dataset, search_records, OdsApiClient.get_dataset_records. bound.
  - unfold query_tools.get_export_url, query_tools.dataset_title,
      get_dataset, export_records. bound.
  - unfold summarize_dataset, sample_lookup, get_dataset,
      OdsApiClient.get_dataset_records. bound.
  - unfold analyze_numeric_field, validate_field, numeric_stats, try_step,
      distribution, count_range, get_dataset,
      OdsApiClient.get_dataset_records. bound.
  - unfold analyze_text_field, validate_field, value_frequency, try_step,
      aggregate_or, get_dataset, OdsApiClient.get_dataset_records. bound.
  - unfold analyze_date_field, validate_field, date_stats, try_step,
      years_lookup, get_dataset, OdsApiClient.get_dataset_records.
    bound_with ltac:(apply at_most_months_lookup).
Qed.

End Budget.

(** ** The statistics of all the fields *)

Section Statistics.
Context {fr : FloatRepr}.
Import analysis_tools.

Lemma traverse_length {A B : Type} (f : A -> res B) (l : list A)
  (ys : list B) :
  traverse f l = Ok ys -> List.length ys = List.length l.
Proof.
  revert ys. induction l as [|x l IH]; intros ys; simpl.
  - now intros [= <-].
  - destruct (f x) as [y |]; [| discriminate]. cbn [bind].
    destruct (traverse f l) as [ys' |]; [| discriminate]. cbn [bind].
    intros [= <-]. simpl. now rewrite (IH ys' eq_refl).
Qed.

Lemma classify_dicts (fds : list (list (string * json))) :
  traverse classify (map JDict fds)
  = Ok (map (fun f => (group_of (type_of f), member_of f)) fds).
Proof.
  rewrite traverse_map. apply traverse_map_ok. intros f _.
  unfold classify, member_of, type_of. cbn [py_get bind].
  reflexivity.
Qed.

Lemma members_dicts (g : group) (fds : list (list (string * json))) :
  members g (map (fun f => (group_of (type_of f), member_of f)) fds)
  = map member_of (filter (in_group g) fds).
Proof.
  unfold members, in_group. induction fds as [|f fds IH]; [reflexivity |].
  cbn [map filter fst]. destruct (group_eqb (group_of (type_of f)) g).
  - cbn [map snd]. now rewrite IH.
  - exact IH.
Qed.

Lemma members_total (classified : list (group * member)) :
  (List.length (members Numeric classified)
   + List.length (members Text classified)
   + List.length (members Date classified)
   + List.length (members Geo classified)
   + List.length (members Other classified)
   = List.length classified)%nat.
Proof.
  unfold members. induction classified as [|[g m] c IH]; [reflexivity |].
  cbn [filter fst]. destruct g; cbn [group_eqb map List.length]; lia.
Qed.


Lemma at_most_total_lookup (dataset_id : string) :
  at_most 1 (total_lookup dataset_id).
Proof.
  unfold total_lookup, aggregate_or, OdsApiClient.get_dataset_records. bound.
Qed.

Lemma at_most_total_for_section (dataset_id : string) (total : option json) :
  at_most 1 (total_for_section dataset_id total).
Proof.
  unfold total_for_section. destruct total as [t |].
  - eapply at_most_le;
      [apply at_most_if; [apply at_most_total_lookup | apply at_most_ret]
      | cbn; lia].
  - eapply at_most_le; [apply at_most_lift | lia].
Qed.

Lemma at_most_numeric_section (dataset_id : string) (ms : list member) :
  at_most (List.length ms) (numeric_section dataset_id ms).
Proof.
  unfold numeric_section, OdsApiClient.get_dataset_records.
  destruct ms as [|m ms]; [apply at_most_ret |]. bound.
Qed.

Lemma at_most_text_section (dataset_id : string) (ms : list member)
  (total : option json) :
  at_most (1 + List.length ms) (text_section dataset_id ms total).
Proof.
  unfold text_section. destruct ms as [|m ms].
  - eapply at_most_le; [apply at_most_ret | lia].
  - eapply at_most_le.
    + eapply at_most_bind; [apply at_most_total_lookup | intros t].
      eapply at_most_bind; [| intros rows; apply at_most_ret].
      apply at_most_mtraverse with (n := 1%nat). intros [[name label] ty].
      unfold text_row, OdsApiClient.get_dataset_records. bound.
    + cbn [List.length]. lia.
Qed.

Lemma at_most_date_section (dataset_id : string) (ms : list member)
  (total : option json) :
  at_most (1 + List.length ms) (date_section dataset_id ms total).
Proof.
  unfold date_section. destruct ms as [|m ms].
  - eapply at_most_le; [apply at_most_ret | lia].
  - eapply at_most_le.
    + eapply at_most_bind; [apply at_most_total_for_section | intros t].
      eapply at_most_bind; [| intros rows; apply at_most_ret].
      apply at_most_mtraverse with (n := 1%nat). intros [[name label] ty].
      unfold date_row, OdsApiClient.get_dataset_records. bound.
    + cbn [List.length]. lia.
Qed.

Lemma at_most_geo_section (dataset_id : string) (ms : list member)
  (total : option json) :
  at_most (1 + List.length ms) (geo_section dataset_id ms total).
Proof.
  unfold geo_section. destruct ms as [|m ms].
  - eapply at_most_le; [apply at_most_ret | lia].
  - eapply at_most_le.
    + eapply at_most_bind; [apply at_most_total_for_section | intros t].
      eapply at_most_bind; [| intros rows; apply at_most_ret].
      apply at_most_mtraverse with (n := 1%nat). intros [[name label] ty].
      unfold geo_row, OdsApiClient.get_dataset_records. bound.
    + cbn [List.length]. lia.
Qed.

Lemma at_most_sections (dataset_id : string) (head : list string)
  (classified : list (group * member)) :
  at_most (3 + List.length classified)
    (numeric <~ numeric_section dataset_id (members Numeric classified) ;;
     text <~ text_section dataset_id (members Text classified) None ;;
     date <~ date_section dataset_id (members Date classified) (snd text) ;;
     geo <~ geo_section dataset_id (members Geo classified) (snd date) ;;
     ret (join nl
            (head ++ numeric ++ fst text ++ fst date ++ geo
             ++ other_section (members Other classified)))).
Proof.
  eapply at_most_le.
  - eapply at_most_bind; [apply at_most_numeric_section | intros numeric].
    eapply at_most_bind; [apply at_most_text_section | intros text].
    eapply at_most_bind; [apply at_most_date_section | intros date].
    eapply at_most_bind; [apply at_most_geo_section | intros geo].
    apply at_most_ret.
  - pose proof (members_total classified). lia.
Qed.

(** X9. [generate_dataset_statistics] issues at most four requests more
    than the schema has fields, whatever the remote answers: the schema
    request, one request for all the numeric fields together, one for each
    text, date and geographic field, and at most one count of the records
    per section. *)
Theorem X9_statistics_request_budget :
  forall (srv : remote) (log : list request) (dataset_id : string)
         (info : list (string * json)) (fields : list json),
    srv log (dataset_request dataset_id) = Ok (JDict info) ->
    lookup "fields" info = Some (JList fields) ->
    exists more,
      snd (generate_dataset_statistics dataset_id srv log) = log ++ more
      /\ (List.length more <= 4 + List.length fields)%nat.
Proof.
  intros srv log dataset_id info fields Hsrv Hf.
  unfold generate_dataset_statistics, or_return, get_dataset, _make_request.
  unfold dataset_request in Hsrv. rewrite Hsrv.
  match goal with
  | |- exists more, snd (?c srv ?l) = _ /\ _ =>
      assert (H : at_most (3 + List.length fields) c)
  end.
  { destruct (negb (truthy (JDict info)));
      [eapply at_most_le; [apply at_most_ret | lia] |].
    apply at_most_bind_lift. intros title _.
    cbn [py_get]. rewrite Hf.
    apply at_most_bind_lift. intros fields' [= <-].
    destruct (negb (truthy (JList fields)));
      [eapply at_most_le; [apply at_most_ret | lia] |].
    apply at_most_bind_lift. intros items [= <-].
    apply at_most_bind_lift. intros classified Hc.
    rewrite <- (traverse_length _ _ _ Hc). apply at_most_sections. }
  destruct (H srv (log ++ [Request ("/catalog/datasets/" +:+ dataset_id) None]))
    as (more & Hm & Hl).
  exists (Request ("/catalog/datasets/" +:+ dataset_id) None :: more).
  rewrite Hm, <- app_assoc. split; [reflexivity | simpl; lia].
Qed.

End Statistics.

Lemma X9_witness :
  exists more,
    snd (@analysis_tools.generate_dataset_statistics tenths_repr "loads"
           (loads_remote JNull) [])
    = [] ++ more
    /\ (List.length more <= 4 + 2)%nat.
Proof.
  apply (@X9_statistics_request_budget tenths_repr (loads_remote JNull) []
           "loads" loads_info (map JDict loads_fields));
    reflexivity.
Defined.

Section Unbound.
Context {fr : FloatRepr}.
Import analysis_tools.

Lemma section_without_total (dataset_id : string) (ms : list member)
  (srv : remote) (log : list request) :
  ms <> [] ->
  date_section dataset_id ms None srv log
  = (Raise (Exn UnboundLocalError
              ("cannot access local variable 'total_records' where "
               +:+ "it is not associated with a value")), log)
  /\ geo_section dataset_id ms None srv log
     = (Raise (Exn UnboundLocalError
                 ("cannot access local variable 'total_records' where "
                  +:+ "it is not associated with a value")), log).
Proof.
  intros H. destruct ms as [|m ms]; [congruence |]. split; reflexivity.
Qed.

Lemma filter_nil_iff {A : Type} (p : A -> bool) (l : list A) :
  filter p l = [] <-> existsb p l = false.
Proof.
  induction l as [|x l IH]; simpl; [tauto |].
  destruct (p x); simpl; [split; discriminate | exact IH].
Qed.

(** X10. For a schema with a date or geographic field and no text field,
    [generate_dataset_statistics] never returns a report: the count of the
    records is read before any section has assigned it, and the
    [UnboundLocalError] leaves the tool.  When the schema has no numeric
    field either and its title can be read, this happens right after the
    schema request. *)
Theorem X10_statistics_need_a_text_field :
  forall (srv : remote) (log : list request) (dataset_id : string)
         (info : list (string * json)) (fds : list (list (string * json))),
    srv log (dataset_request dataset_id) = Ok (JDict info) ->
    lookup "fields" info = Some (JList (map JDict fds)) ->
    existsb (in_group Text) fds = false ->
    existsb (fun f => in_group Date f || in_group Geo f) fds = true ->
    (exists e, fst (generate_dataset_statistics dataset_id srv log) = Raise e)
    /\ (existsb (in_group Numeric) fds = false ->
        (exists title,
           metas_default (JDict info) "title" (JStr "Unknown Dataset")
           = Ok title) ->
        generate_dataset_statistics dataset_id srv log
        = (Raise (Exn UnboundLocalError
                    ("cannot access local variable 'total_records' where "
                     +:+ "it is not associated with a value")),
           log ++ [dataset_request dataset_id])).
Proof.
  intros srv log dataset_id info fds Hsrv Hf Htext Hdg.
  assert (Hne : fds <> []) by (destruct fds; [discriminate | congruence]).
  assert (Hsec :
            forall head numeric other log',
              (text <~ text_section dataset_id
                         (map member_of (filter (in_group Text) fds)) None ;;
               date <~ date_section dataset_id
                         (map member_of (filter (in_group Date) fds))
                         (snd text) ;;
               geo <~ geo_section dataset_id
                        (map member_of (filter (in_group Geo) fds))
                        (snd date) ;;
               ret (join nl
                      (head ++ numeric ++ fst text ++ fst date ++ geo
                       ++ other))) srv log'
              = (Raise (Exn UnboundLocalError
                          ("cannot access local variable 'total_records' "
                           +:+ "where it is not associated with a value")),
                 log')).
  { intros head numeric other log'.
    apply filter_nil_iff in Htext. rewrite Htext. cbn [map text_section].
    unfold mbind at 1. cbn [ret snd].
    destruct (filter (in_group Date) fds) as [|d ds] eqn:Hd.
    - cbn [map date_section]. unfold mbind at 1. cbn [ret snd].
      destruct (filter (in_group Geo) fds) as [|g gs] eqn:Hg.
      + apply filter_nil_iff in Hd, Hg. exfalso.
        apply existsb_exists in Hdg as (f & Hin & Hor).
        apply orb_true_iff in Hor as [H | H].
        * assert (existsb (in_group Date) fds = true)
            by (apply existsb_exists; eauto). congruence.
        * assert (existsb (in_group Geo) fds = true)
            by (apply existsb_exists; eauto). congruence.
      + unfold mbind.
        now rewrite (proj2 (section_without_total dataset_id
                              (map member_of (g :: gs)) srv log'
                              ltac:(discriminate))).
    - unfold mbind.
      now rewrite (proj1 (section_without_total dataset_id
                            (map member_of (d :: ds)) srv log'
                            ltac:(discriminate))). }
  assert (Ht : truthy (JDict info) = true)
    by (destruct info; [discriminate | reflexivity]).
  assert (Hfs : truthy (JList (map JDict fds)) = true)
    by (destruct fds; [congruence | reflexivity]).
  unfold generate_dataset_statistics, or_return, get_dataset, _make_request.
  unfold dataset_request in Hsrv. rewrite Hsrv, Ht. cbn [negb].
  split.
  - unfold mbind at 1. unfold lift at 1.
    destruct (metas_default (JDict info) "title" (JStr "Unknown Dataset"))
      as [title | e]; [| eexists; reflexivity].
    unfold mbind at 1. unfold lift at 1. cbn [py_get]. rewrite Hf, Hfs.
    cbn [negb]. unfold mbind at 1. unfold lift at 1. cbn [py_iter].
    unfold mbind at 1. unfold lift at 1. rewrite classify_dicts.
    rewrite !members_dicts.
    unfold mbind at 1.
    destruct (numeric_section dataset_id _ srv _) as [[numeric | e] log'];
      [| eexists; reflexivity].
    eexists. rewrite Hsec. reflexivity.
  - intros Hnum [title Htitle].
    unfold mbind at 1. unfold lift at 1. rewrite Htitle.
    unfold mbind at 1. unfold lift at 1. cbn [py_get]. rewrite Hf, Hfs.
    cbn [negb]. unfold mbind at 1. unfold lift at 1. cbn [py_iter].
    unfold mbind at 1. unfold lift at 1. rewrite classify_dicts.
    rewrite !members_dicts.
    apply filter_nil_iff in Hnum. rewrite Hnum. cbn [map numeric_section].
    unfold mbind at 1. cbn [ret].
    apply Hsec.
Qed.

End Unbound.

Lemma X10_witness :
  @analysis_tools.generate_dataset_statistics tenths_repr "events"
    (events_remote JNull) []
  = (Raise (Exn UnboundLocalError
              ("cannot access local variable 'total_records' where "
               +:+ "it is not associated with a value")),
     [dataset_request "events"]).
Proof.
  apply (proj2 (@X10_statistics_need_a_text_field tenths_repr
                  (events_remote JNull) [] "events" events_info
                  events_fields eq_refl eq_refl eq_refl eq_refl));
    [reflexivity | eexists; reflexivity].
Defined.

(** ** Schemas that cannot be read *)

Section Schemas.
Context {fr : FloatRepr}.
Import analysis_tools.

(** X11. The four tools that start from the schema of a dataset
    ([get_dataset_info], [list_dataset_fields], [summarize_dataset],
    [generate_dataset_statistics]) answer with a one-line message, after
    that single request, when the request fails and when the answer is
    empty; [list_dataset_fields] and [generate_dataset_statistics] do so too
    when the schema lists no field. *)
Theorem X11_schema_tools_degrade :
  forall (srv : remote) (log : list request) (dataset_id : string),
    let request := dataset_request dataset_id in
    let after (message : string) := (Ok message, log ++ [request]) in
    (forall e,
       srv log request = Raise e ->
       catalog_tools.get_dataset_info dataset_id srv log
       = after ("Error retrieving dataset: " +:+ exn_str e)
       /\ catalog_tools.list_dataset_fields dataset_id srv log
          = after ("Error retrieving dataset: " +:+ exn_str e)
       /\ summarize_dataset dataset_id srv log
          = after ("Error retrieving dataset information: " +:+ exn_str e)
       /\ generate_dataset_statistics dataset_id srv log
          = after ("Error retrieving dataset information: " +:+ exn_str e))
    /\ (forall dataset,
          srv log request = Ok dataset ->
          truthy dataset = false ->
          let not_found :=
            "Dataset with ID '" +:+ dataset_id +:+ "' not found." in
          catalog_tools.get_dataset_info dataset_id srv log = after not_found
          /\ catalog_tools.list_dataset_fields dataset_id srv log
             = after not_found
          /\ summarize_dataset dataset_id srv log = after not_found
          /\ generate_dataset_statistics dataset_id srv log
             = after not_found)
    /\ (forall info,
          srv log request = Ok (JDict info) ->
          info <> [] ->
          (lookup "fields" info = None
           \/ exists v, lookup "fields" info = Some v /\ truthy v = false) ->
          let no_fields :=
            "No fields found for dataset '" +:+ dataset_id +:+ "'." in
          catalog_tools.list_dataset_fields dataset_id srv log
          = after no_fields
          /\ ((exists title,
                 metas_default (JDict info) "title" (JStr "Unknown Dataset")
                 = Ok title) ->
              generate_dataset_statistics dataset_id srv log
              = after no_fields)).
Proof.
  intros srv log dataset_id. cbv zeta. unfold dataset_request.
  split; [| split].
  - intros e He.
    unfold catalog_tools.get_dataset_info, catalog_tools.list_dataset_fields,
      summarize_dataset, generate_dataset_statistics, or_return, get_dataset,
      _make_request.
    rewrite He. repeat split.
  - intros dataset Hd Hf.
    unfold catalog_tools.get_dataset_info, catalog_tools.list_dataset_fields,
      summarize_dataset, generate_dataset_statistics, or_return, get_dataset,
      _make_request, lift, ret.
    rewrite Hd, Hf. repeat split.
  - intros info Hd Hne Hfields.
    assert (Ht : truthy (JDict info) = true)
      by (destruct info; [congruence | reflexivity]).
    assert (Hv : exists v,
               py_get (JDict info) "fields" (JList []) = Ok v
               /\ truthy v = false).
    { cbn [py_get]. destruct Hfields as [-> | (v & -> & Hv)]; eauto. }
    destruct Hv as (v & Hget & Hv).
    unfold catalog_tools.list_dataset_fields, generate_dataset_statistics,
      or_return, get_dataset, _make_request, lift, ret.
    rewrite Hd, Ht. cbn [negb]. split.
    + rewrite Hget. cbn [bind]. now rewrite Hv.
    + intros [title Htitle]. unfold mbind at 1. rewrite Htitle.
      unfold mbind at 1. rewrite Hget. now rewrite Hv.
Qed.

Lemma validate_field_failed (srv : remote) (log : list request)
  (dataset_id field_name : string) (accepted : list string) (class : string)
  (e : exn) :
  srv log (dataset_request dataset_id) = Raise e ->
  validate_field dataset_id field_name accepted class srv log
  = (Ok (inl ("Error validating field: " +:+ exn_str e)),
     log ++ [dataset_request dataset_id]).
Proof.
  intros H.
  unfold validate_field, try_except, mbind, get_dataset, _make_request.
  unfold dataset_request in H. now rewrite H.
Qed.

Lemma validate_field_not_object (srv : remote) (log : list request)
  (dataset_id field_name : string) (accepted : list string) (class : string)
  (info : json) :
  srv log (dataset_request dataset_id) = Ok info ->
  (forall d, info <> JDict d) ->
  validate_field dataset_id field_name accepted class srv log
  = (Ok (inl ("Error validating field: '" +:+ type_name info
              +:+ "' object has no attribute 'get'")),
     log ++ [dataset_request dataset_id]).
Proof.
  intros H Hn.
  unfold validate_field, try_except, mbind, get_dataset, _make_request, lift.
  unfold dataset_request in H. rewrite H.
  destruct info; try reflexivity. now elim (Hn d).
Qed.

(** X12. When the schema request of a field analysis fails, or is answered
    by something that is not an object, the numeric, text and date analyses
    return "Error validating field: " followed by the text of the
    exception, after that single request. *)
Theorem X12_validation_failure_reported :
  forall (srv : remote) (log : list request) (dataset_id field_name : string)
         (limit : Z),
    let after (message : string) :=
      (Ok message, log ++ [dataset_request dataset_id]) in
    (forall e,
       srv log (dataset_request dataset_id) = Raise e ->
       let message := "Error validating field: " +:+ exn_str e in
       analyze_numeric_field dataset_id field_name srv log = after message
       /\ analyze_text_field dataset_id field_name limit srv log
          = after message
       /\ analyze_date_field dataset_id field_name srv log = after message)
    /\ (forall info,
          srv log (dataset_request dataset_id) = Ok info ->
          (forall d, info <> JDict d) ->
          let message :=
            "Error validating field: '" +:+ type_name info
            +:+ "' object has no attribute 'get'" in
          analyze_numeric_field dataset_id field_name srv log = after message
          /\ analyze_text_field dataset_id field_name limit srv log
             = after message
          /\ analyze_date_field dataset_id field_name srv log
             = after message).
Proof.
  intros srv log dataset_id field_name limit. cbv zeta. split.
  - intros e He.
    repeat split; apply and_then_returned; now apply validate_field_failed.
  - intros info Hi Hn.
    repeat split; apply and_then_returned;
      now apply validate_field_not_object.
Qed.

Lemma validate_field_accepts (srv : remote) (log : list request)
  (dataset_id field_name : string) (accepted : list string) (class : string)
  (info f : list (string * json)) (fds : list (list (string * json))) :
  srv log (dataset_request dataset_id) = Ok (JDict info) ->
  lookup "fields" info = Some (JList (map JDict fds)) ->
  field_named field_name fds = Some f ->
  in_strs (type_of f) accepted = true ->
  validate_field dataset_id field_name accepted class srv log
  = (Ok (inr (JDict info,
              match lookup "label" f with
              | Some label => label
              | None => JStr field_name
              end)),
     log ++ [dataset_request dataset_id]).
Proof.
  intros Hsrv Hf Hsome Hty.
  unfold validate_field, try_except, mbind, get_dataset, _make_request, lift.
  unfold dataset_request in Hsrv. rewrite Hsrv.
  cbn [py_get bind]. rewrite Hf. cbn [py_iter bind].
  rewrite find_field_dicts, Hsome. cbn [bind].
  rewrite (field_named_truthy _ _ _ Hsome). cbn [negb py_get bind].
  fold (type_of f). rewrite Hty. reflexivity.
Qed.

Lemma and_then_went_on {A : Type} (c : M (string + A)) (k : A -> M string)
  (srv : remote) (log log' : list request) (a : A) :
  c srv log = (Ok (inr a), log') ->
  and_then c k srv log = k a srv log'.
Proof. intros H. unfold and_then, mbind. now rewrite H. Qed.

Lemma try_step_failed {A : Type} (path : string) (ps : option params)
  (k : json -> res (string + A)) (h : exn -> string) (srv : remote)
  (log : list request) (e : exn) :
  srv log (Request path ps) = Raise e ->
  try_step (r <~ _make_request path ps ;; lift (k r)) h srv log
  = (Ok (inl (h e)), log ++ [Request path ps]).
Proof.
  intros H. unfold try_step, try_except, mbind, _make_request.
  now rewrite H.
Qed.

Lemma try_step_nothing {A : Type} (path : string) (ps : option params)
  (k : json -> res (string + A)) (h : exn -> string) (srv : remote)
  (log : list request) (r : json) (message : string) :
  srv log (Request path ps) = Ok r ->
  k r = Ok (inl message) ->
  try_step (r <~ _make_request path ps ;; lift (k r)) h srv log
  = (Ok (inl message), log ++ [Request path ps]).
Proof.
  intros H Hk. unfold try_step, try_except, mbind, _make_request, lift.
  now rewrite H, Hk.
Qed.

(** X13. Once the field has passed validation, a failure of the next
    request (the statistics of a numeric or date field, the frequencies of
    a text field) ends the analysis with a one-line message that carries
    the text of the exception, and an answer without results ends it with
    "Failed to compute ...", in both cases after exactly two requests. *)
Theorem X13_statistics_failure_reported :
  forall (srv : remote) (log : list request) (dataset_id field_name : string)
         (limit : Z) (info f : list (string * json))
         (fds : list (list (string * json))),
    srv log (dataset_request dataset_id) = Ok (JDict info) ->
    lookup "fields" info = Some (JList (map JDict fds)) ->
    field_named field_name fds = Some f ->
    let log1 := log ++ [dataset_request dataset_id] in
    let numeric_request :=
      records_request dataset_id
        (Some ("min(" +:+ field_name +:+ ") as min, max(" +:+ field_name
               +:+ ") as max, avg(" +:+ field_name +:+ ") as avg, count("
               +:+ field_name +:+ ") as count"))
        None None None 10 0 in
    let text_request :=
      records_request dataset_id
        (Some (field_name +:+ ", count(*) as count"))
        None (Some field_name) (Some "count DESC") limit 0 in
    let date_request :=
      records_request dataset_id
        (Some ("min(" +:+ field_name +:+ ") as min_date, max(" +:+ field_name
               +:+ ") as max_date, count(" +:+ field_name +:+ ") as count"))
        None None None 10 0 in
    (in_strs (type_of f) ["int"; "double"; "decimal"; "float"] = true ->
     (forall e,
        srv log1 numeric_request = Raise e ->
        analyze_numeric_field dataset_id field_name srv log
        = (Ok ("Error computing field statistics: " +:+ exn_str e),
           log1 ++ [numeric_request]))
     /\ (forall r,
           srv log1 numeric_request = Ok r ->
           holds_nothing r "results" ->
           analyze_numeric_field dataset_id field_name srv log
           = (Ok ("Failed to compute statistics for field '" +:+ field_name
                  +:+ "'."),
              log1 ++ [numeric_request])))
    /\ (in_strs (type_of f) ["text"] = true ->
        (forall e,
           srv log1 text_request = Raise e ->
           analyze_text_field dataset_id field_name limit srv log
           = (Ok ("Error computing value frequency: " +:+ exn_str e),
              log1 ++ [text_request]))
        /\ (forall r,
              srv log1 text_request = Ok r ->
              holds_nothing r "results" ->
              analyze_text_field dataset_id field_name limit srv log
              = (Ok ("Failed to compute value frequency for field '"
                     +:+ field_name +:+ "'."),
                 log1 ++ [text_request])))
    /\ (in_strs (type_of f) ["date"; "datetime"] = true ->
        (forall e,
           srv log1 date_request = Raise e ->
           analyze_date_field dataset_id field_name srv log
           = (Ok ("Error computing field statistics: " +:+ exn_str e),
              log1 ++ [date_request]))
        /\ (forall r,
              srv log1 date_request = Ok r ->
              holds_nothing r "results" ->
              analyze_date_field dataset_id field_name srv log
              = (Ok ("Failed to compute statistics for field '"
                     +:+ field_name +:+ "'."),
                 log1 ++ [date_request]))).
Proof.
  intros srv log dataset_id field_name limit info f fds Hsrv Hf Hsome.
  cbv zeta. unfold records_request.
  split; [| split]; intros Hty; split.
  - intros e He. unfold analyze_numeric_field.
    rewrite (and_then_went_on _ _ _ _ _ _
               (validate_field_accepts _ _ _ _ _ _ _ _ _ Hsrv Hf Hsome Hty)).
    apply and_then_returned.
    unfold numeric_stats, OdsApiClient.get_dataset_records.
    erewrite try_step_failed by exact He. reflexivity.
  - intros r Hr Hn. unfold analyze_numeric_field.
    rewrite (and_then_went_on _ _ _ _ _ _
               (validate_field_accepts _ _ _ _ _ _ _ _ _ Hsrv Hf Hsome Hty)).
    apply and_then_returned.
    unfold numeric_stats, OdsApiClient.get_dataset_records.
    erewrite try_step_nothing;
      [reflexivity | exact Hr | now rewrite (lacks_nothing _ _ Hn)].
  - intros e He. unfold analyze_text_field.
    rewrite (and_then_went_on _ _ _ _ _ _
               (validate_field_accepts _ _ _ _ _ _ _ _ _ Hsrv Hf Hsome Hty)).
    apply and_then_returned.
    unfold value_frequency, OdsApiClient.get_dataset_records.
    erewrite try_step_failed by exact He. reflexivity.
  - intros r Hr Hn. unfold analyze_text_field.
    rewrite (and_then_went_on _ _ _ _ _ _
               (validate_field_accepts _ _ _ _ _ _ _ _ _ Hsrv Hf Hsome Hty)).
    apply and_then_returned.
    unfold value_frequency, OdsApiClient.get_dataset_records.
    erewrite try_step_nothing;
      [reflexivity | exact Hr | now rewrite (lacks_nothing _ _ Hn)].
  - intros e He. unfold analyze_date_field.
    rewrite (and_then_went_on _ _ _ _ _ _
               (validate_field_accepts _ _ _ _ _ _ _ _ _ Hsrv Hf Hsome Hty)).
    apply and_then_returned.
    unfold date_stats, OdsApiClient.get_dataset_records.
    erewrite try_step_failed by exact He. reflexivity.
  - intros r Hr Hn. unfold analyze_date_field.
    rewrite (and_then_went_on _ _ _ _ _ _
               (validate_field_accepts _ _ _ _ _ _ _ _ _ Hsrv Hf Hsome Hty)).
    apply and_then_returned.
    unfold date_stats, OdsApiClient.get_dataset_records.
    erewrite try_step_nothing;
      [reflexivity | exact Hr | now rewrite (lacks_nothing _ _ Hn)].
Qed.

End Schemas.

Lemma X11_witness :
  @catalog_tools.list_dataset_fields tenths_repr "loads" refusing []
  = (Ok "Error retrieving dataset: All connection attempts failed",
     [dataset_request "loads"]).
Proof.
  apply (proj1 (@X11_schema_tools_degrade tenths_repr refusing [] "loads")
           (Exn HTTPError "All connection attempts failed") eq_refl).
Defined.

Lemma X12_witness :
  @analysis_tools.analyze_date_field tenths_repr "loads" "day" refusing []
  = (Ok "Error validating field: All connection attempts failed",
     [dataset_request "loads"]).
Proof.
  apply (proj1 (@X12_validation_failure_reported tenths_repr refusing []
                  "loads" "day" 10%Z)
           (Exn HTTPError "All connection attempts failed") eq_refl).
Defined.

Lemma X13_witness :
  @analysis_tools.analyze_numeric_field tenths_repr "loads" "price"
    schema_only_remote []
  = (Ok "Error computing field statistics: All connection attempts failed",
     [dataset_request "loads";
      records_request "loads"
        (Some ("min(price) as min, max(price) as max, avg(price) as avg, "
               +:+ "count(price) as count"))
        None None None 10 0]).
Proof.
  apply (proj1 (proj1 (@X13_statistics_failure_reported tenths_repr
                         schema_only_remote [] "loads" "price" 10%Z
                         loads_info
                         [("name", JStr "price"); ("type", JStr "double");
                          ("label", JStr "Price")]
                         loads_fields eq_refl eq_refl eq_refl)
                  eq_refl)
           (Exn HTTPError "All connection attempts failed") eq_refl).
Defined.

(** ** What the analyses do when a refinement fails *)

Section Refinements.
Context {fr : FloatRepr}.
Import analysis_tools.

Lemma mtraverse_length {A B : Type} (f : A -> M B) (l : list A)
  (srv : remote) (log log' : list request) (ys : list B) :
  mtraverse f l srv log = (Ok ys, log') -> List.length ys = List.length l.
Proof.
  revert log log' ys.
  induction l as [|x l IH]; intros log log' ys; cbn [mtraverse].
  - unfold ret. now intros [= <- _].
  - unfold mbind at 1. destruct (f x srv log) as [[y | e] log1];
      [| discriminate].
    unfold mbind at 1.
    destruct (mtraverse f l srv log1) as [[ys' | e] log2] eqn:E;
      [| discriminate].
    unfold ret. intros [= <- _]. simpl. now rewrite (IH _ _ _ E).
Qed.

Lemma try_none_total {A : Type} (n : nat) (c : M (option A)) :
  at_most n c ->
  forall srv log,
    exists dist more,
      try_except c (fun _ => ret None) srv log = (Ok dist, log ++ more)
      /\ (List.length more <= n)%nat
      /\ (forall e, fst (c srv log) = Raise e -> dist = None)
      /\ (forall d, fst (c srv log) = Ok d -> dist = d).
Proof.
  intros Hc srv log. destruct (Hc srv log) as (more & Hm & Hl).
  unfold try_except. destruct (c srv log) as [[d | e] log'];
    cbn [snd fst] in *; subst log'.
  - exists d, more. repeat split; [exact Hl | discriminate | congruence].
  - exists None, more. unfold ret. repeat split; [exact Hl | discriminate].
Qed.

(** X14. The distribution lookup of [analyze_numeric_field] never raises
    and issues at most ten requests.  Its table is all or nothing: either
    there is none, or it has exactly ten ranges; in particular a single
    failing range request costs the whole table.  When the minimum or the
    maximum is not a number, or the maximum is not above the minimum, no
    request is made at all. *)
Theorem X14_distribution_all_or_nothing :
  forall (srv : remote) (log : list request) (dataset_id field_name : string)
         (min_val max_val : json),
    exists dist more,
      distribution dataset_id field_name min_val max_val srv log
      = (Ok dist, log ++ more)
      /\ (List.length more <= 10)%nat
      /\ (dist = None \/ exists d, dist = Some d /\ List.length d = 10%nat)
      /\ (is_number min_val && is_number max_val = false
          \/ (num max_val <= num min_val)%Q ->
          dist = None /\ more = []).
Proof.
  intros srv log dataset_id field_name min_val max_val.
  unfold distribution.
  match goal with
  | |- exists dist more, try_except ?c _ srv log = _ /\ _ =>
      assert (Hc : at_most 10 c /\
                   (forall d log',
                      c srv log = (Ok (Some d), log') ->
                      List.length d = 10%nat) /\
                   (is_number min_val && is_number max_val = false
                    \/ (num max_val <= num min_val)%Q ->
                    c srv log = (Ok None, log)));
      [| destruct Hc as (Hat & Hlen & Hnone);
         destruct (try_none_total 10 c Hat srv log)
           as (dist & more & Hrun & Hl & _ & Hok)]
  end.
  - split; [| split].
    + unfold count_range, OdsApiClient.get_dataset_records. bound.
    + intros d log'. destruct (is_number min_val && is_number max_val);
        [| discriminate].
      destruct (Qlt_bool 0 _); [| discriminate].
      unfold mbind.
      destruct (mtraverse _ range10 srv log) as [[d' | e] log1] eqn:E;
        [| discriminate].
      unfold ret. intros [= <- _]. now rewrite (mtraverse_length _ _ _ _ _ _ E).
    + intros [-> | Hle]; [reflexivity |].
      destruct (is_number min_val && is_number max_val); [| reflexivity].
      assert (Hz : Qlt_bool 0 ((num max_val - num min_val) / 10) = false).
      { destruct (Qlt_bool 0 _) eqn:E; [| reflexivity].
        apply Qlt_bool_iff in E.
        pose proof (width_tenth (num min_val) (num max_val)) as Hw. lra. }
      now rewrite Hz.
  - exists dist, more. split; [exact Hrun |]. split; [exact Hl |]. split.
    + destruct dist as [d |]; [right | now left].
      exists d. split; [reflexivity |].
      match goal with
      | H : try_except ?c _ srv log = _ |- _ =>
          destruct (c srv log) as [[d' | e] log'] eqn:E
      end.
      * assert (Hd : Some d = d') by (apply Hok; reflexivity).
        subst d'. now apply Hlen with log'.
      * unfold try_except in Hrun. rewrite E in Hrun. discriminate.
    + intros H. specialize (Hnone H).
      unfold try_except in Hrun. rewrite Hnone in Hrun.
      injection Hrun as <- Hmore. split; [reflexivity |].
      apply (app_inv_head log). now rewrite app_nil_r.
Qed.

Lemma months_loop_total (dataset_id field_name : string) (years : list json)
  (month_data : list (json * json)) (srv : remote) (log : list request) :
  exists added more,
    months_loop dataset_id field_name years month_data srv log
    = (Ok (month_data ++ added), log ++ more)
    /\ (List.length added <= List.length more)%nat
    /\ (List.length more <= List.length years)%nat
    /\ Forall (fun entry => truthy (snd entry) = true /\ In (fst entry) years)
         added.
Proof.
  revert month_data log.
  induction years as [|year rest IH]; intros month_data log.
  - exists [], []. cbn [months_loop]. unfold ret. rewrite !app_nil_r. auto.
  - cbn [months_loop].
    unfold try_except, mbind, OdsApiClient.get_dataset_records, _make_request.
    set (r := Request _ _).
    destruct (srv log r) as [doc | e].
    + unfold lift. destruct (py_get doc "results" (JList [])) as [months | e].
      * destruct (truthy months) eqn:Ht.
        -- destruct (IH (month_data ++ [(year, months)]) (log ++ [r]))
             as (added & more & Hrun & Hl1 & Hl2 & Hall).
           rewrite Hrun. exists ((year, months) :: added), (r :: more).
           rewrite <- !app_assoc. split; [reflexivity |].
           split; [simpl; lia |]. split; [simpl; lia |].
           constructor; [split; [exact Ht | now left] |].
           eapply Forall_impl; [| exact Hall].
           intros entry [H1 H2]. split; [exact H1 | now right].
        -- destruct (IH month_data (log ++ [r]))
             as (added & more & Hrun & Hl1 & Hl2 & Hall).
           rewrite Hrun. exists added, (r :: more).
           rewrite <- !app_assoc. split; [reflexivity |].
           split; [simpl; lia |]. split; [simpl; lia |].
           eapply Forall_impl; [| exact Hall].
           intros entry [H1 H2]. split; [exact H1 | now right].
      * exists [], [r]. unfold ret. rewrite app_nil_r.
        split; [reflexivity |]. split; [simpl; lia |]. split; [simpl; lia |].
        constructor.
    + exists [], [r]. unfold ret. rewrite app_nil_r.
      split; [reflexivity |]. split; [simpl; lia |]. split; [simpl; lia |].
      constructor.
Qed.

(** X15. The monthly breakdown of [analyze_date_field] never raises.  It
    asks for the months of at most five years, one request per year, and
    keeps a year only when the answer lists months; without yearly data it
    makes no request. *)
Theorem X15_months_breakdown_bounded :
  forall (srv : remote) (log : list request) (dataset_id field_name : string)
         (years_data : json),
    exists month_data more,
      months_lookup dataset_id field_name years_data srv log
      = (Ok month_data, log ++ more)
      /\ (List.length month_data <= List.length more)%nat
      /\ (List.length more <= 5)%nat
      /\ Forall (fun entry => truthy (snd entry) = true) month_data
      /\ (truthy years_data = false -> month_data = [] /\ more = []).
Proof.
  intros srv log dataset_id field_name years_data.
  unfold months_lookup. destruct (truthy years_data).
  - unfold try_except, mbind, lift.
    destruct (recent_years years_data) as [years | e] eqn:Hy.
    + destruct (months_loop_total dataset_id field_name years [] srv log)
        as (added & more & Hrun & Hl1 & Hl2 & Hall).
      rewrite Hrun. exists added, more. cbn [app].
      split; [reflexivity |]. split; [exact Hl1 |].
      split; [pose proof (recent_years_length _ _ Hy); lia |].
      split; [| discriminate].
      eapply Forall_impl; [| exact Hall]. now intros entry [H _].
    + exists [], []. unfold ret. rewrite app_nil_r.
      split; [reflexivity |]. split; [simpl; lia |]. split; [simpl; lia |].
      split; [constructor | discriminate].
  - exists [], []. unfold ret. rewrite app_nil_r.
    split; [reflexivity |]. split; [simpl; lia |]. split; [simpl; lia |].
    split; [constructor | auto].
Qed.

(** X16. A month is named by its position in the list of the twelve
    names, with Python's indexing: 1 to 12 give January to December, 0 to
    -11 count from the end (0 is December), anything else raises
    [IndexError].  So an entry of a monthly answer without ["month"], whose
    number defaults to 0, is shown as December. *)
Theorem X16_month_names_wrap :
  (forall m,
     (1 <= m <= 12)%Z ->
     month_name (JInt m) = Ok (nth (Z.to_nat (m - 1)) month_names ""))
  /\ (forall m,
        (-11 <= m <= 0)%Z ->
        month_name (JInt m) = Ok (nth (Z.to_nat (m + 11)) month_names ""))
  /\ (forall m,
        (m < -11 \/ 12 < m)%Z ->
        month_name (JInt m)
        = Raise (Exn IndexError "list index out of range"))
  /\ (forall month_info,
        lookup "month" month_info = None ->
        month_row (JDict month_info)
        = Ok ("| December | "
              +:+ py_str (match lookup "count" month_info with
                          | Some c => c
                          | None => JInt 0
                          end)
              +:+ " |")).
Proof.
  split; [| split; [| split]].
  - intros m Hm. unfold month_name. cbn [num inject_Z Qnum].
    destruct (m - 1 <? 0)%Z eqn:E; [lia |].
    replace ((0 <=? m - 1)%Z && (m - 1 <? 12)%Z) with true; [reflexivity |].
    symmetry. apply andb_true_iff. split; lia.
  - intros m Hm. unfold month_name. cbn [num inject_Z Qnum].
    destruct (m - 1 <? 0)%Z eqn:E; [| lia].
    replace ((0 <=? m - 1 + 12)%Z && (m - 1 + 12 <? 12)%Z) with true.
    + do 3 f_equal. lia.
    + symmetry. apply andb_true_iff. split; lia.
  - intros m Hm. unfold month_name. cbn [num inject_Z Qnum].
    destruct (m - 1 <? 0)%Z eqn:E.
    + replace ((0 <=? m - 1 + 12)%Z && (m - 1 + 12 <? 12)%Z) with false;
        [reflexivity |].
      symmetry. apply andb_false_iff. left. lia.
    + replace ((0 <=? m - 1)%Z && (m - 1 <? 12)%Z) with false;
        [reflexivity |].
      symmetry. apply andb_false_iff. right. lia.
  - intros month_info H. unfold month_row. cbn [py_get bind]. rewrite H.
    reflexivity.
Qed.

(** X17. The theme line of [summarize_dataset] is guarded: when the
    metadata has no theme, or an empty or otherwise false one, the theme is
    the empty string; a non-empty list gives its first element.  So the
    [IndexError] that an empty list of themes causes in
    [list_datasets_by_publisher] cannot occur here. *)
Theorem X17_summary_theme_guarded :
  (forall metas,
     lookup "theme" metas = None
     \/ (exists v, lookup "theme" metas = Some v /\ truthy v = false) ->
     summary_theme (JDict metas) = Ok (JStr ""))
  /\ (forall metas first rest,
        lookup "theme" metas = Some (JList (first :: rest)) ->
        summary_theme (JDict metas) = Ok first)
  /\ (forall metas e,
        summary_theme metas = Raise e -> exn_kind_of e <> IndexError).
Proof.
  split; [| split].
  - intros metas [H | (v & H & Hv)]; unfold summary_theme; cbn [py_get bind];
      rewrite H; [reflexivity | now rewrite Hv].
  - intros metas first rest H. unfold summary_theme. cbn [py_get bind].
    now rewrite H.
  - intros metas e. unfold summary_theme.
    destruct metas; try (intros [= <-]; discriminate).
    cbn [py_get bind]. destruct (lookup "theme" d) as [v |];
      [| discriminate].
    destruct v as [| b | n | q | s | l | d'];
      cbn [truthy py_index0 not_subscriptable]; try discriminate.
    + destruct b; [intros [= <-] |]; discriminate.
    + destruct (negb (n =? 0)%Z); [intros [= <-] |]; discriminate.
    + destruct (negb (Qeq_bool q 0)); [intros [= <-] |]; discriminate.
    + destruct s; cbn [String.eqb negb]; discriminate.
    + destruct l; discriminate.
    + destruct d'; [discriminate | intros [= <-]; discriminate].
Qed.

End Refinements.

Lemma X14_witness :
  exists dist more,
    @analysis_tools.distribution tenths_repr "loads" "price" (JStr "N/A")
      (JStr "N/A") refusing []
    = (Ok dist, [] ++ more)
    /\ dist = None /\ more = [].
Proof.
  destruct (@X14_distribution_all_or_nothing tenths_repr refusing [] "loads"
              "price" (JStr "N/A") (JStr "N/A"))
    as (dist & more & Hrun & _ & _ & Hnone).
  exists dist, more. split; [exact Hrun |].
  apply Hnone. left. reflexivity.
Defined.

Lemma X15_witness :
  exists month_data more,
    @analysis_tools.months_lookup tenths_repr "loads" "day" (JList [])
      refusing []
    = (Ok month_data, [] ++ more)
    /\ month_data = [] /\ more = [].
Proof.
  destruct (@X15_months_breakdown_bounded tenths_repr refusing [] "loads"
              "day" (JList []))
    as (month_data & more & Hrun & _ & _ & _ & Hnone).
  exists month_data, more. split; [exact Hrun |].
  apply Hnone. reflexivity.
Defined.

Lemma X16_witness :
  analysis_tools.month_name (JInt 3) = Ok "March"
  /\ analysis_tools.month_name (JInt 0) = Ok "December"
  /\ analysis_tools.month_name (JInt 13)
     = Raise (Exn IndexError "list index out of range").
Proof.
  split; [| split].
  - apply (proj1 (@X16_month_names_wrap tenths_repr) 3%Z). lia.
  - apply (proj1 (proj2 (@X16_month_names_wrap tenths_repr)) 0%Z). lia.
  - apply (proj1 (proj2 (proj2 (@X16_month_names_wrap tenths_repr))) 13%Z). lia.
Defined.

Lemma X17_witness :
  analysis_tools.summary_theme (JDict [("theme", JList [])]) = Ok (JStr "").
Proof.
  apply (proj1 X17_summary_theme_guarded [("theme", JList [])]).
  right. exists (JList []). split; reflexivity.
Defined.

(** ** The summary of a dataset *)

Section Summary.
Context {fr : FloatRepr}.
Import analysis_tools.

Lemma count_key_total (key : json) (counts : list (json * Z)) :
  total (count_key key counts) = (total counts + 1)%Z.
Proof.
  unfold total. induction counts as [|[k n] rest IH]; [reflexivity |].
  cbn [count_key]. destruct (py_eq k key); cbn [map snd fold_right] in *; lia.
Qed.

Lemma count_key_positive (key : json) (counts : list (json * Z)) :
  Forall (fun kc => (1 <= snd kc)%Z) counts ->
  Forall (fun kc => (1 <= snd kc)%Z) (count_key key counts).
Proof.
  induction 1 as [|[k n] rest Hk Hrest IH]; cbn [count_key].
  - constructor; [cbn [snd]; lia | constructor].
  - destruct (py_eq k key); constructor; cbn [snd] in *; auto; lia.
Qed.

Lemma count_key_others (P : json -> Prop) (key : json)
  (counts : list (json * Z)) :
  P key ->
  Forall (fun kc => P (fst kc)) counts ->
  Forall (fun kc => P (fst kc)) (count_key key counts).
Proof.
  intros Hkey. induction 1 as [|[k n] rest Hk Hrest IH]; cbn [count_key].
  - repeat constructor. exact Hkey.
  - destruct (py_eq k key); constructor; auto.
Qed.

Lemma count_key_distinct (key : json) (counts : list (json * Z)) :
  ForallOrdPairs (fun a b => py_eq (fst a) (fst b) = false) counts ->
  ForallOrdPairs (fun a b => py_eq (fst a) (fst b) = false)
    (count_key key counts).
Proof.
  induction 1 as [|[k n] rest Hk Hrest IH]; cbn [count_key].
  - repeat constructor.
  - destruct (py_eq k key) eqn:E.
    + constructor; [exact Hk | assumption].
    + constructor; [| exact IH].
      apply (count_key_others (fun x => py_eq k x = false)); assumption.
Qed.

Lemma schema_loop_counts (items : list json) (field_types : list (json * Z))
  (lines : list string) (counts : list (json * Z)) :
  schema_loop items field_types = Ok (lines, counts) ->
  List.length lines = List.length items
  /\ total counts = (total field_types + Z.of_nat (List.length items))%Z
  /\ (Forall (fun kc => (1 <= snd kc)%Z) field_types ->
      Forall (fun kc => (1 <= snd kc)%Z) counts)
  /\ (ForallOrdPairs (fun a b => py_eq (fst a) (fst b) = false) field_types ->
      ForallOrdPairs (fun a b => py_eq (fst a) (fst b) = false) counts).
Proof.
  revert field_types lines counts.
  induction items as [|field rest IH]; intros field_types lines counts.
  - cbn [schema_loop]. intros [= <- <-]. cbn [List.length Z.of_nat].
    repeat split; auto. lia.
  - cbn [schema_loop].
    destruct (py_get field "name" (JStr "Unnamed")) as [name |];
      [| discriminate]. cbn [bind].
    destruct (py_get field "type" (JStr "Unknown")) as [field_type |];
      [| discriminate]. cbn [bind].
    destruct (hashable field_type) as [key |]; [| discriminate]. cbn [bind].
    destruct (py_get field "label" name) as [label |]; [| discriminate].
    cbn [bind].
    destruct (schema_loop rest (count_key key field_types))
      as [[lines' counts'] |] eqn:E; [| discriminate].
    cbn [bind fst snd]. intros [= <- <-].
    destruct (IH _ _ _ E) as (Hl & Ht & Hp & Hd).
    rewrite count_key_total in Ht.
    split; [simpl; congruence |].
    split; [rewrite Ht; cbn [List.length]; lia |].
    split; intros H.
    + now apply Hp, count_key_positive.
    + now apply Hd, count_key_distinct.
Qed.

(** X18. In [summarize_dataset] the loop over the fields of the schema
    writes one line per field and counts the fields by type: the counts
    under "Field Type Distribution" are at least 1 each, belong to types
    that differ from one another, and add up to the number of fields.  The
    loop runs to its end whenever the fields are objects whose type is not
    a list or an object. *)
Theorem X18_field_type_distribution :
  (forall items lines counts,
     schema_loop items [] = Ok (lines, counts) ->
     List.length lines = List.length items
     /\ total counts = Z.of_nat (List.length items)
     /\ Forall (fun kc => (1 <= snd kc)%Z) counts
     /\ ForallOrdPairs (fun a b => py_eq (fst a) (fst b) = false) counts)
  /\ (forall fds : list (list (string * json)),
        Forall (fun f => forall ty,
                           lookup "type" f = Some ty ->
                           is_container ty = false) fds ->
        exists lines counts,
          schema_loop (map JDict fds) [] = Ok (lines, counts)).
Proof.
  split.
  - intros items lines counts H.
    destruct (schema_loop_counts _ _ _ _ H) as (Hl & Ht & Hp & Hd).
    split; [exact Hl |]. split; [exact Ht |].
    split; [apply Hp | apply Hd]; constructor.
  - intros fds Hall. generalize (@nil (json * Z)) as field_types.
    induction Hall as [|f fds Hf _ IH]; intros field_types.
    + eexists _, _. reflexivity.
    + cbn [map schema_loop py_get bind].
      assert (Hh : exists key,
                 hashable (match lookup "type" f with
                           | Some v => v
                           | None => JStr "Unknown"
                           end) = Ok key).
      { unfold hashable. destruct (lookup "type" f) as [ty |];
          [rewrite (Hf ty eq_refl) |]; eexists; reflexivity. }
      destruct Hh as (key & ->). cbn [bind].
      destruct (IH (count_key key field_types)) as (lines & counts & ->).
      cbn [bind]. eauto.
Qed.

End Summary.

Lemma X18_witness :
  exists lines counts,
    @analysis_tools.schema_loop tenths_repr (map JDict loads_fields) []
    = Ok (lines, counts).
Proof.
  apply (proj2 (@X18_field_type_distribution tenths_repr) loads_fields).
  apply Forall_cons; [| apply Forall_cons; [| apply Forall_nil]];
    intros ty H; vm_compute in H; inversion H; reflexivity.
Defined.

(** ** Descriptions *)

Lemma prefix_length (a b : string) :
  String.prefix a b = true -> (String.length a <= String.length b)%nat.
Proof.
  revert b. induction a as [|c a IH]; intros b; [simpl; lia |].
  destruct b as [|c' b]; [discriminate |].
  cbn [String.prefix String.length].
  destruct (Ascii.ascii_dec c c'); [| discriminate].
  intros H. apply IH in H. lia.
Qed.

Lemma replace_from_length (old new : string) (skip : nat) (s : string) :
  (String.length new <= String.length old)%nat ->
  (String.length (replace_from old new skip s)
   + Nat.min skip (String.length s)
   <= String.length s)%nat.
Proof.
  intros Hle. revert skip. induction s as [|c s IH]; intros skip.
  - simpl. lia.
  - cbn [replace_from]. destruct skip as [|k].
    + destruct (String.prefix old (String c s)) eqn:E.
      * apply prefix_length in E. rewrite length_append.
        specialize (IH (String.length old - 1)%nat).
        cbn [String.length] in *. lia.
      * specialize (IH 0%nat). cbn [String.length]. lia.
    + specialize (IH k). cbn [String.length]. lia.
Qed.

Lemma str_replace_length (old new s : string) :
  (String.length new <= String.length old)%nat ->
  (String.length (str_replace old new s) <= String.length s)%nat.
Proof.
  intros H. pose proof (replace_from_length old new 0 s H).
  unfold str_replace. lia.
Qed.

Lemma str_replace_absent (c : ascii) (old new s : string) :
  count_char c s = 0%nat -> str_replace (String c old) new s = s.
Proof.
  unfold str_replace. induction s as [|c' s IH]; [reflexivity |].
  cbn [count_char replace_from String.prefix].
  destruct (Ascii.eqb_spec c' c) as [-> | Hc]; [discriminate |].
  intros H. destruct (Ascii.ascii_dec c c'); [congruence |].
  now rewrite IH.
Qed.

(** X19. The clean-up of a description only ever shortens it: a
    description without [<] is left as it is, and the result is never
    longer than the description.  A description that is not a string (a
    null, say) makes it raise [AttributeError]. *)
Theorem X19_description_cleanup :
  (forall s, count_char "<" s = 0%nat -> strip_tags (JStr s) = Ok s)
  /\ (forall s,
        exists t,
          strip_tags (JStr s) = Ok t
          /\ (String.length t <= String.length s)%nat)
  /\ (forall v,
        (forall s, v <> JStr s) ->
        strip_tags v
        = Raise (Exn AttributeError
                   ("'" +:+ type_name v
                    +:+ "' object has no attribute 'replace'"))).
Proof.
  split; [| split].
  - intros s H. unfold strip_tags. cbn [py_replace bind].
    rewrite (str_replace_absent "<" "p>" "" s H).
    rewrite (str_replace_absent "<" "/p>" " " s H).
    now rewrite (str_replace_absent "<" "br>" " " s H).
  - intros s. eexists. split; [reflexivity |].
    eapply Nat.le_trans; [apply str_replace_length; simpl; lia |].
    eapply Nat.le_trans; [apply str_replace_length; simpl; lia |].
    apply str_replace_length. simpl. lia.
  - intros v Hv. destruct v; try reflexivity. now elim (Hv s).
Qed.

Lemma X19_witness :
  strip_tags (JStr "Hourly loads, 2015 - 2020") = Ok "Hourly loads, 2015 - 2020"
  /\ strip_tags JNull
     = Raise (Exn AttributeError
                "'NoneType' object has no attribute 'replace'").
Proof.
  split.
  - apply (proj1 X19_description_cleanup). reflexivity.
  - apply (proj2 (proj2 X19_description_cleanup) JNull). discriminate.
Defined.

(** ** Ties between facet values *)

Section Ties.
Context {fr : FloatRepr}.
Import query_tools.

Lemma insert_desc_stable {A : Type} (q : Q) (x : json * A)
  (l : list (json * A)) :
  is_number (fst x) = true ->
  Forall (fun y => is_number (fst y) = true) l ->
  StronglySorted key_ge l ->
  forall l',
    insert_desc x l = Ok l' ->
    filter (fun y => Qeq_bool (num (fst y)) q) l'
    = filter (fun y => Qeq_bool (num (fst y)) q) l
      ++ filter (fun y => Qeq_bool (num (fst y)) q) [x].
Proof.
  intros Hx. induction l as [|y l IH]; intros Hl Hs l'.
  - cbn [insert_desc]. now intros [= <-].
  - inversion Hl as [|? ? Hy Hl']; subst.
    inversion Hs as [|? ? Hs' Hall]; subst.
    cbn [insert_desc]. rewrite py_lt_numbers by assumption. cbn [bind].
    destruct (Qlt_bool (num (fst y)) (num (fst x))) eqn:E.
    + intros [= <-]. apply Qlt_bool_iff in E.
      cbn [filter app].
      destruct (Qeq_bool (num (fst x)) q) eqn:Ex; [| now rewrite app_nil_r].
      apply Qeq_bool_iff in Ex.
      assert (Hnone : forall z,
                 In z (y :: l) -> Qeq_bool (num (fst z)) q = false).
      { intros z Hz. destruct (Qeq_bool (num (fst z)) q) eqn:Ez;
          [| reflexivity].
        apply Qeq_bool_iff in Ez. exfalso.
        assert (Hzy : (num (fst z) <= num (fst y))%Q).
        { destruct Hz as [<- | Hz]; [apply Qle_refl |].
          rewrite Forall_forall in Hall. exact (Hall z Hz). }
        lra. }
      assert (Hf : filter (fun z => Qeq_bool (num (fst z)) q) (y :: l) = []).
      { clear -Hnone. induction (y :: l) as [|z zs IHz]; [reflexivity |].
        cbn [filter]. rewrite (Hnone z (or_introl eq_refl)).
        apply IHz. intros w Hw. apply Hnone. now right. }
      cbn [filter] in Hf. rewrite Hf. reflexivity.
    + destruct (insert_desc x l) as [r |] eqn:Er; [| discriminate].
      cbn [bind]. intros [= <-]. cbn [filter].
      rewrite (IH Hl' Hs' r eq_refl).
      destruct (Qeq_bool (num (fst y)) q); reflexivity.
Qed.

Lemma sort_desc_keyed_stable {A : Type} (q : Q) (l acc s : list (json * A)) :
  Forall (fun y => is_number (fst y) = true) acc ->
  Forall (fun y => is_number (fst y) = true) l ->
  StronglySorted key_ge acc ->
  sort_desc_keyed acc l = Ok s ->
  filter (fun y => Qeq_bool (num (fst y)) q) s
  = filter (fun y => Qeq_bool (num (fst y)) q) acc
    ++ filter (fun y => Qeq_bool (num (fst y)) q) l.
Proof.
  revert acc. induction l as [|x l IH]; intros acc Hacc Hl Hs.
  - cbn [sort_desc_keyed]. intros [= <-]. now rewrite app_nil_r.
  - inversion Hl as [|? ? Hx Hl']; subst. cbn [sort_desc_keyed].
    destruct (insert_desc_numbers x acc Hx Hacc) as (acc' & Hi & Hp & Hs').
    rewrite Hi. cbn [bind]. intros Hrun.
    assert (Hacc' : Forall (fun y => is_number (fst y) = true) acc').
    { eapply Permutation_Forall; [apply Permutation_sym, Hp |].
      now constructor. }
    rewrite (IH acc' Hacc' Hl' (Hs' Hs) Hrun).
    rewrite (insert_desc_stable q x acc Hx Hacc Hs acc' Hi).
    rewrite <- app_assoc. f_equal. cbn [filter].
    destruct (Qeq_bool (num (fst x)) q); reflexivity.
Qed.

(** X20. The sort of the values of a facet is stable: values with the same
    count are shown in the order in which the response lists them. *)
Theorem X20_facet_ties_keep_order :
  forall vs : list (list (string * json)),
    Forall (fun v => is_number (count_of v) = true) vs ->
    exists sorted,
      sort_by_count (JList (map JDict vs)) = Ok (map JDict sorted)
      /\ forall q, filter (counted q) sorted = filter (counted q) vs.
Proof.
  intros vs Hnum.
  destruct (sort_by_count_dicts vs Hnum) as (sorted & Hrun & _ & _).
  exists sorted. split; [exact Hrun |]. intros q.
  unfold sort_by_count in Hrun. cbn [py_iter bind] in Hrun.
  rewrite traverse_map in Hrun.
  rewrite traverse_map_ok with (g := fun v => (count_of v, JDict v)) in Hrun
    by reflexivity.
  cbn [bind] in Hrun.
  destruct (sort_desc_keyed [] (map (fun v => (count_of v, JDict v)) vs))
    as [s |] eqn:Es; [| discriminate].
  cbn [bind] in Hrun. injection Hrun as Hmap.
  assert (Hk : Forall (fun y : json * json => is_number (fst y) = true)
                 (map (fun v => (count_of v, JDict v)) vs))
    by (apply Forall_map; exact Hnum).
  assert (Hst := sort_desc_keyed_stable q _ [] s (Forall_nil _) Hk
                   (SSorted_nil _) Es).
  cbn [filter app] in Hst.
  assert (Hkeyed : s = map (fun v => (count_of v, JDict v)) sorted).
  { destruct (sort_desc_keyed_numbers
                (map (fun v => (count_of v, JDict v)) vs) [])
      as (s' & Hs' & Hperm & _);
      [constructor | exact Hk | constructor |].
    rewrite Es in Hs'. injection Hs' as <-.
    cbn [app] in Hperm.
    apply Permutation_map_inv in Hperm as (sorted' & -> & _).
    rewrite map_map in Hmap. cbn [snd] in Hmap.
    f_equal. clear -Hmap. revert sorted Hmap.
    induction sorted' as [|v vs' IH]; intros [|w ws]; simpl; try discriminate;
      [reflexivity |].
    intros [= -> H]. f_equal. now apply IH. }
  subst s.
  assert (Hfm : forall l : list (list (string * json)),
             filter (fun y : json * json => Qeq_bool (num (fst y)) q)
               (map (fun v => (count_of v, JDict v)) l)
             = map (fun v => (count_of v, JDict v)) (filter (counted q) l)).
  { induction l as [|v l IH]; [reflexivity |].
    cbn [map filter fst]. unfold counted at 1.
    destruct (Qeq_bool (num (count_of v)) q); cbn [map]; now rewrite IH. }
  rewrite !Hfm in Hst.
  clear -Hst. revert Hst.
  generalize (filter (counted q) sorted) (filter (counted q) vs).
  induction l as [|v l IH]; intros [|w ws]; simpl; try discriminate;
    [reflexivity |].
  intros [= _ -> H]. f_equal. now apply IH.
Qed.

End Ties.

Lemma X20_witness :
  exists sorted,
    @query_tools.sort_by_count (JList (map JDict (city_values 3)))
    = Ok (map JDict sorted)
    /\ forall q, filter (counted q) sorted = filter (counted q) (city_values 3).
Proof.
  apply X20_facet_ties_keep_order. repeat constructor.
Defined.

(** ** Search results *)

Section Search.
Context {fr : FloatRepr}.

(** X21. [search_dataset_records] filters with [search(<query>)] and lists
    every record it gets key by key under two heading lines, whatever the
    number of fields: unlike [get_dataset_records] it never draws a table.
    The title lookup is its second and last request, and its failure only
    changes the title shown. *)
Theorem X21_search_results_listed :
  forall (srv : remote) (log : list request) (dataset_id query : string)
         (limit : Z) (r : list (string * json))
         (records : list (list (string * json))),
    let request :=
      records_request dataset_id None (Some ("search(" +:+ query +:+ ")"))
        None None limit 0 in
    srv log request = Ok (JDict r) ->
    lookup "results" r = Some (JList (map JDict records)) ->
    records <> [] ->
    exists title,
      query_tools.search_dataset_records dataset_id query limit srv log
      = (Ok (join nl
               ([ "Search results for '" +:+ query +:+ "' in dataset: "
                    +:+ py_str title +:+ " (ID: " +:+ dataset_id +:+ ")";
                  "Found "
                    +:+ py_str (match lookup "total_count" r with
                                | Some v => v
                                | None => JInt 0
                                end)
                    +:+ " matching records. Showing first "
                    +:+ int_str (Z.of_nat (List.length records)) +:+ ":" ]
                ++ List.concat (map listing_text (enumerate 1 records)))),
         log ++ [request; dataset_request dataset_id])
      /\ (forall e,
            srv (log ++ [request]) (dataset_request dataset_id) = Raise e ->
            title = JStr "Unknown Dataset").
Proof.
  intros srv log dataset_id query limit r records request Hsrv Hres Hne.
  destruct (dataset_title_total dataset_id srv (log ++ [request]))
    as [title Ht].
  exists title. split.
  - unfold query_tools.search_dataset_records, or_return, search_records,
      OdsApiClient.get_dataset_records, _make_request.
    unfold request, records_request in Hsrv. rewrite Hsrv.
    unfold mbind at 1. unfold lift at 1.
    rewrite (lacks_present _ _ _ Hres).
    assert (Htr : truthy (JList (map JDict records)) = true)
      by (destruct records; [congruence | reflexivity]).
    rewrite Htr. cbn [negb].
    unfold mbind at 1. unfold lift at 1. cbn [py_subscript]. rewrite Hres.
    unfold mbind at 1. unfold lift at 1. cbn [py_get].
    unfold mbind at 1.
    unfold request, records_request in Ht. rewrite Ht.
    unfold lift. cbn [py_len bind]. rewrite Htr. cbn [negb py_iter bind].
    unfold for_each. rewrite enumerate_map, traverse_map.
    rewrite traverse_map_ok with (g := listing_text)
      by (intros [i record] _; reflexivity).
    cbn [bind]. rewrite length_map, <- app_assoc. reflexivity.
  - intros e He. rewrite (dataset_title_failed _ _ _ _ He) in Ht.
    congruence.
Qed.

End Search.

Lemma X21_witness :
  exists title,
    @query_tools.search_dataset_records tenths_repr "loads" "wind" 10
      (answering (results_of [wide_record])) []
    = (Ok (join nl
             ([ "Search results for 'wind' in dataset: "
                  +:+ @py_str tenths_repr title +:+ " (ID: loads)";
                "Found 1 matching records. Showing first 1:" ]
              ++ @listing_text tenths_repr (1%Z, wide_record))),
       [records_request "loads" None (Some "search(wind)") None None 10 0;
        dataset_request "loads"]).
Proof.
  destruct (@X21_search_results_listed tenths_repr
              (answering (results_of [wide_record])) [] "loads" "wind" 10%Z
              [("total_count", JInt 1);
               ("results", JList (map JDict [wide_record]))]
              [wide_record] eq_refl eq_refl ltac:(discriminate))
    as (title & Hrun & _).
  exists title. rewrite Hrun. reflexivity.
Defined.

(** ** Lookups that only refine a report *)

Section Lookups.
Context {fr : FloatRepr}.
Import analysis_tools.

Lemma aggregate_or_total (dataset_id select key : string)
  (dflt fallback : json) (srv : remote) (log : list request) :
  select <> "" ->
  exists value,
    aggregate_or dataset_id select key dflt fallback srv log
    = (Ok value,
       log ++ [records_request dataset_id (Some select) None None None
                 10 0])
    /\ ((forall r,
           srv log (records_request dataset_id (Some select) None None None
                      10 0) <> Ok (JDict r)) ->
        value = fallback).
Proof.
  intros Hs.
  assert (Hg : set_if "select" (Some select)
                 [("limit", PInt 10); ("offset", PInt 0)]
               = [("limit", PInt 10); ("offset", PInt 0);
                  ("select", PStr select)]).
  { unfold set_if, given. destruct (String.eqb_spec select "");
      [congruence | reflexivity]. }
  unfold aggregate_or, try_except, mbind, OdsApiClient.get_dataset_records,
    _make_request, lift, ret, records_request.
  cbn [set_if given] in *. rewrite !Hg.
  destruct (srv log _) as [doc | e] eqn:E.
  + destruct doc; cbn [first_result py_get no_attribute bind];
      try (eexists; (split; [reflexivity |]); intros H; reflexivity).
    destruct (first_result (JDict d) key dflt) eqn:F;
      unfold first_result in F; cbn [py_get bind] in F; rewrite F;
      eexists; (split; [reflexivity |]); intros H; now elim (H d).
  + eexists. split; [reflexivity | auto].
Qed.

(** X22. The lookups that only refine a report (the title of the record
    reports, the sample of the summary, the yearly distribution of a date
    field, the counts behind the percentages) make exactly one request and
    never raise: when the request fails, or its answer cannot be read, they
    give their fallback value (["Unknown Dataset"], no sample, no year, the
    fallback count) and the report goes on. *)
Theorem X22_refining_lookups_never_raise :
  forall (srv : remote) (log : list request) (dataset_id : string),
    (exists title,
       query_tools.dataset_title dataset_id srv log
       = (Ok title, log ++ [dataset_request dataset_id])
       /\ ((forall info, srv log (dataset_request dataset_id) <> Ok info) ->
           title = JStr "Unknown Dataset"))
    /\ (let request := records_request dataset_id None None None None 5 0 in
        exists sample,
          sample_lookup dataset_id srv log = (Ok sample, log ++ [request])
          /\ ((forall r, srv log request <> Ok (JDict r)) ->
              sample = JList []))
    /\ (forall field_name,
          let request :=
            records_request dataset_id
              (Some ("year(" +:+ field_name
                     +:+ ") as year, count(*) as count"))
              None (Some ("year(" +:+ field_name +:+ ")")) (Some "year")
              10 0 in
          exists years,
            years_lookup dataset_id field_name srv log
            = (Ok years, log ++ [request])
            /\ ((forall r, srv log request <> Ok (JDict r)) ->
                years = JList []))
    /\ (forall select key dflt fallback,
          let request :=
            records_request dataset_id (Some select) None None None 10 0 in
          select <> "" ->
          exists value,
            aggregate_or dataset_id select key dflt fallback srv log
            = (Ok value, log ++ [request])
            /\ ((forall r, srv log request <> Ok (JDict r)) ->
                value = fallback)).
Proof.
  intros srv log dataset_id. split; [| split; [| split]].
  - unfold query_tools.dataset_title, try_except, mbind, get_dataset,
      _make_request, lift, ret, dataset_request.
    destruct (srv log _) as [info | e] eqn:E.
    + destruct (metas_default info "title" (JStr "Unknown Dataset"));
        eexists; (split; [reflexivity |]); intros H; now elim (H info).
    + eexists. split; [reflexivity | auto].
  - cbv zeta.
    unfold sample_lookup, try_except, mbind, OdsApiClient.get_dataset_records,
      _make_request, lift, ret, records_request.
    destruct (srv log _) as [doc | e] eqn:E.
    + destruct doc; cbn [py_get no_attribute];
        eexists; (split; [reflexivity |]); intros H;
        try reflexivity; now elim (H d).
    + eexists. split; [reflexivity | auto].
  - intros field_name. cbv zeta.
    unfold years_lookup, try_except, mbind, OdsApiClient.get_dataset_records,
      _make_request, lift, ret, records_request.
    destruct (srv log _) as [doc | e] eqn:E.
    + destruct doc; cbn [py_get no_attribute];
        eexists; (split; [reflexivity |]); intros H;
        try reflexivity; now elim (H d).
    + eexists. split; [reflexivity | auto].
  - intros select key dflt fallback. cbv zeta. intros Hs.
    now apply aggregate_or_total.
Qed.

End Lookups.

Lemma X22_witness :
  exists value,
    analysis_tools.aggregate_or "loads" "count(*) as total" "total" (JInt 0)
      (JStr "Unknown") refusing []
    = (Ok value,
       [] ++ [records_request "loads" (Some "count(*) as total") None None
                None 10 0])
    /\ value = JStr "Unknown".
Proof.
  destruct (proj2 (proj2 (proj2 (X22_refining_lookups_never_raise
                                   refusing [] "loads")))
              "count(*) as total" "total" (JInt 0) (JStr "Unknown")
              ltac:(discriminate))
    as (value & Hrun & Hfail).
  exists value. split; [exact Hrun |].
  apply Hfail. discriminate.
Defined.

(** ** Schemas that can be read *)

Section Readable.
Context {fr : FloatRepr}.

Lemma traverse_all_ok {A B : Type} (P : B -> Prop) (f : A -> res B)
  (l : list A) :
  (forall x, In x l -> exists y, f x = Ok y /\ P y) ->
  exists ys,
    traverse f l = Ok ys
    /\ List.length ys = List.length l
    /\ Forall P ys.
Proof.
  induction l as [|x l IH]; intros H.
  - exists []. repeat split. constructor.
  - destruct (H x (or_introl eq_refl)) as (y & Hy & Py).
    destruct IH as (ys & Hys & Hl & Hall);
      [intros z Hz; apply H; now right |].
    exists (y :: ys). cbn [traverse]. rewrite Hy. cbn [bind]. rewrite Hys.
    cbn [bind]. repeat split; [simpl; congruence | now constructor].
Qed.

Lemma enumerate_length {A : Type} (start : Z) (l : list A) :
  List.length (enumerate start l) = List.length l.
Proof.
  revert start. induction l as [|x l IH]; intros start; simpl;
    [reflexivity | now rewrite IH].
Qed.

(** X23. On a schema that is an object with default metadata, a
    description that is a string (or none) and fields that are objects,
    the two schema tools of the catalogue return a report after their
    single request: [get_dataset_info] when the description of each field
    is a string or a false value, with six heading lines and one line per
    field; [list_dataset_fields] when the annotations of each field are an
    object or a false value, with one heading line and three or four lines
    per field. *)
Theorem X23_schema_reports :
  forall (srv : remote) (log : list request) (dataset_id : string)
         (info default : list (string * json))
         (fds : list (list (string * json))),
    srv log (dataset_request dataset_id) = Ok (JDict info) ->
    has_default (JDict info) default ->
    lookup "fields" info = Some (JList (map JDict fds)) ->
    ((lookup "description" default = None
      \/ exists s, lookup "description" default = Some (JStr s)) ->
     Forall (fun f => forall v,
                        lookup "description" f = Some v ->
                        truthy v = false \/ exists s, v = JStr s) fds ->
     exists head field_info,
       catalog_tools.get_dataset_info dataset_id srv log
       = (Ok (join nl (head ++ field_info)),
          log ++ [dataset_request dataset_id])
       /\ List.length head = 6%nat
       /\ last head ""
          = nl +:+ "Fields (" +:+ int_str (Z.of_nat (List.length fds))
            +:+ "):"
       /\ List.length field_info = List.length fds)
    /\ (fds <> [] ->
        Forall (fun f => forall v,
                           lookup "annotations" f = Some v ->
                           truthy v = false \/ exists d, v = JDict d) fds ->
        exists heading entries,
          catalog_tools.list_dataset_fields dataset_id srv log
          = (Ok (join nl (heading :: List.concat entries)),
             log ++ [dataset_request dataset_id])
          /\ List.length entries = List.length fds
          /\ Forall (fun entry =>
                       List.length entry = 3%nat
                       \/ List.length entry = 4%nat) entries).
Proof.
  intros srv log dataset_id info default fds Hsrv Hdef Hfields.
  assert (Ht : truthy (JDict info) = true)
    by (destruct info; [discriminate Hfields | reflexivity]).
  destruct Hdef as (d & metas & [= <-] & Hm & Hd).
  assert (Hmd : forall key dflt,
             metas_default (JDict info) key dflt
             = Ok (match lookup key default with
                   | Some v => v
                   | None => dflt
                   end)).
  { intros key dflt. unfold metas_default. cbn [py_get bind]. rewrite Hm.
    cbn [py_get bind]. rewrite Hd. reflexivity. }
  split.
  - intros Hdesc Hfd.
    assert (Hs : exists text,
               strip_tags (match lookup "description" default with
                           | Some v => v
                           | None => JStr "No description available."
                           end) = Ok text).
    { destruct Hdesc as [-> | (s & ->)]; eexists; reflexivity. }
    destruct Hs as (text & Hs).
    destruct (traverse_all_ok (fun _ => True) catalog_tools.info_field_line
                (map JDict fds)) as (field_info & Hrun & Hlen & _).
    { intros x Hx. apply in_map_iff in Hx as (f & <- & Hin).
      rewrite Forall_forall in Hfd. specialize (Hfd f Hin).
      unfold catalog_tools.info_field_line. cbn [py_get bind].
      destruct (lookup "description" f) as [v |] eqn:E.
      - destruct (Hfd v eq_refl) as [Hv | (s & ->)].
        + rewrite Hv. cbn [bind]. eauto.
        + destruct (truthy (JStr s)); cbn [concat_str bind]; eauto.
      - cbn [truthy String.eqb negb bind]. eauto. }
    unfold catalog_tools.get_dataset_info, or_return, get_dataset,
      _make_request, lift.
    unfold dataset_request in Hsrv. rewrite Hsrv, Ht. cbn [negb].
    rewrite !Hmd. cbn [bind]. rewrite Hs. cbn [bind py_get]. rewrite Hfields.
    cbn [bind py_iter]. rewrite Hrun. cbn [bind py_len].
    eexists [_; _; _; _; _; _], field_info.
    split; [reflexivity |]. split; [reflexivity |].
    rewrite length_map in *. split; [reflexivity | exact Hlen].
  - intros Hne Han.
    assert (Hfs : truthy (JList (map JDict fds)) = true)
      by (destruct fds; [congruence | reflexivity]).
    destruct (traverse_all_ok
                (fun entry => List.length entry = 3%nat
                              \/ List.length entry = 4%nat)
                catalog_tools.field_entry (enumerate 1 (map JDict fds)))
      as (entries & Hrun & Hlen & Hall).
    { intros [i x] Hx. apply enumerate_In in Hx. cbn [snd] in Hx.
      apply in_map_iff in Hx as (f & <- & Hin).
      rewrite Forall_forall in Han. specialize (Han f Hin).
      unfold catalog_tools.field_entry. cbn [py_get bind].
      destruct (lookup "annotations" f) as [v |] eqn:E.
      - destruct (Han v eq_refl) as [Hv | (a & ->)].
        + rewrite Hv. cbn [bind app]. eexists. split; [reflexivity | now left].
        + destruct (truthy (JDict a)); cbn [py_items bind app];
            eexists; (split; [reflexivity |]); [now right | now left].
      - cbn [truthy bind app]. eexists. split; [reflexivity | now left]. }
    unfold catalog_tools.list_dataset_fields, or_return, get_dataset,
      _make_request, lift.
    unfold dataset_request in Hsrv. rewrite Hsrv, Ht. cbn [negb py_get bind].
    rewrite Hfields, Hfs. cbn [negb]. rewrite Hmd. cbn [bind py_iter].
    unfold for_each. rewrite Hrun. cbn [bind].
    eexists _, entries. split; [reflexivity |].
    split; [| exact Hall].
    now rewrite Hlen, enumerate_length, length_map.
Qed.

End Readable.

Lemma X23_witness :
  exists heading entries,
    @catalog_tools.list_dataset_fields tenths_repr "loads"
      (loads_remote JNull) []
    = (Ok (join nl (heading :: List.concat entries)),
       [] ++ [dataset_request "loads"])
    /\ List.length entries = List.length loads_fields
    /\ Forall (fun entry =>
                 List.length entry = 3%nat \/ List.length entry = 4%nat)
         entries.
Proof.
  apply (proj2 (@X23_schema_reports tenths_repr (loads_remote JNull) []
                  "loads" loads_info [("title", JStr "Loads")]
                  loads_fields eq_refl
                  (ex_intro _ loads_info
                     (ex_intro _ [("default", JDict [("title", JStr "Loads")])]
                        (conj eq_refl (conj eq_refl eq_refl))))
                  eq_refl)).
  - discriminate.
  - apply Forall_cons; [| apply Forall_cons; [| apply Forall_nil]];
      intros v H; vm_compute in H; discriminate.
Defined.

(** ** The report on a numeric field *)

Section NumericReport.
Context {fr : FloatRepr}.
Import analysis_tools.


End NumericReport.


(** ** The report on a text field *)

Section TextReport.
Context {fr : FloatRepr}.
Import analysis_tools.



End TextReport.

